(** * Exam session orchestration of the speaking-test web app.

    A shallow embedding of the client-side exam flow:
    - [webapp/js/pages/mock-test.js]  ([MockTestPage], the four-part mock test),
    - the recorder component ([Recorder], the variant with [maxDuration]),
    - the practice page ([PracticePage], the single-part variant with debate),
    - the router ([App.navigate]) and the two builds of the home page
      ([HomePage.render]),
    - the API client ([API.request]) and the preparation timer of the
      cue-card practice ([PracticePage.startPrepTimer]),
    together with the browser resources these touch (interval timers,
    microphone streams, media recorders, audio elements, pending requests).

    JavaScript callbacks become events of a total step function over an
    explicit state; every [await] splits a function into the part before
    and the part after the suspension. *)

From Stdlib Require Import ZArith QArith Qround Lia Lqa List Bool.
From Stdlib Require Import Floats.SpecFloat.
From stdpp Require Import base option list strings pretty gmap.

Local Open Scope string_scope.

(** ** JavaScript values *)

Module JS.

(** A Number is an IEEE 754 double: [spec_float] at precision 53, with
    the operations of the Standard Library's specification of floats
    (round to nearest, ties to even). *)
Definition double : Type := spec_float.
Definition prec : Z := 53.
Definition emax : Z := 1024.

(** An array length as a Number. A count is an integer below [2^53] and
    so is a double; it is written with itself as mantissa, which the
    division below takes as it is. *)
Definition of_nat (n : nat) : double :=
  match n with
  | O => S754_zero false
  | S _ => S754_finite false (Pos.of_nat n) 0
  end.

(** The Number read from a decimal numeral (a JSON number): the double
    nearest to the rational it denotes. The quotient of the numerator by
    the denominator is rounded once. *)
Definition of_Q (q : Q) : double :=
  match Qnum q with
  | Z0 => S754_zero false
  | Zpos n =>
      SFdiv prec emax (S754_finite false n 0) (S754_finite false (Qden q) 0)
  | Zneg n =>
      SFdiv prec emax (S754_finite true n 0) (S754_finite false (Qden q) 0)
  end.

(** The literal [60]. *)
Definition sixty : double :=
  Eval vm_compute in binary_normalize prec emax 60 0 false.

(** [a / b] and [a * b] *)
Definition fdiv (a b : double) : double := SFdiv prec emax a b.
Definition fmul (a b : double) : double := SFmul prec emax a b.

(** [x > 0] *)
Definition gt0 (x : double) : bool := SFltb (S754_zero false) x.

(** The rational [m * 2^e]. *)
Definition value (m : positive) (e : Z) : Q :=
  match e with
  | Z0 => Zpos m # 1
  | Zpos p => (Zpos m * 2 ^ Zpos p) # 1
  | Zneg p => Zpos m # (2 ^ p)
  end.

(** A Number as the page prints it after rounding: an integer, an
    infinity or [NaN]. *)
Inductive num : Type :=
  | Fin (q : Q)
  | Inf (negative : bool)
  | NaN.

(** [Math.round] on a rational: nearest integer, ties towards +infinity. *)
Definition round (x : Q) : Z := Qfloor (x + (1 # 2))%Q.

(** [Math.round] on a double. The integer nearest to a double is a
    double again, so the result is exact. *)
Definition Math_round (x : double) : num :=
  match x with
  | S754_zero _ => Fin 0
  | S754_infinity s => Inf s
  | S754_nan => NaN
  | S754_finite s m e =>
      Fin (inject_Z (round (if s then - value m e else value m e)))
  end.

(** A JavaScript string is a sequence of UTF-16 code units. *)
Definition str : Type := list N.

(** The code units matched by [\s] in a regular expression. *)
Definition is_space (c : N) : bool :=
  ((9 <=? c) && (c <=? 13) || (c =? 32) || (c =? 160) || (c =? 5760)
   || (8192 <=? c) && (c <=? 8202) || (c =? 8232) || (c =? 8233)
   || (c =? 8239) || (c =? 8287) || (c =? 12288) || (c =? 65279))%N.

(** [s.split(/\s+/)]: the pieces between maximal runs of white space; a
    leading or trailing run leaves an empty piece, and the empty string
    splits into one empty piece. [piece] is the piece being read,
    [inSep] tells that the previous code unit was white space. *)
Fixpoint split_go (piece : str) (inSep : bool) (s : str) : list str :=
  match s with
  | [] => [piece]
  | c :: s' =>
      if is_space c then
        (if inSep then split_go [] true s' else piece :: split_go [] true s')
      else split_go (piece ++ [c])%list false s'
  end.

Definition split_ws (s : str) : list str := split_go [] false s.

(** [str.includes(pat)] on Rocq strings. *)
Fixpoint is_prefix (p s : string) : bool :=
  match p, s with
  | EmptyString, _ => true
  | String a p', String b s' => if Ascii.eqb a b then is_prefix p' s' else false
  | String _ _, EmptyString => false
  end.

Fixpoint includes (s pat : string) : bool :=
  is_prefix pat s ||
  match s with
  | EmptyString => false
  | String _ s' => includes s' pat
  end.

End JS.

(** ** Score badge and speaking rate (pure projections) *)

Definition dquote : string := String (Ascii.ascii_of_nat 34) EmptyString.

(** [cefrBadge(score)], identical in [MockTestPage], [PracticePage] and
    [ProgressPage]. [None] stands for [null] and [undefined]. *)
Definition cefrBadge (score : option Q) : string :=
  match score with
  | None => EmptyString
  | Some score =>
      let score := JS.round score in
      let '(level, cls) :=
        if (65 <=? score)%Z then ("C1", "c1")
        else if (51 <=? score)%Z then ("B2", "b2")
        else if (38 <=? score)%Z then ("B1", "b1")
        else ("Below B1", "below-b1") in
      "<span class=" +:+ dquote +:+ "cefr-badge " +:+ cls +:+ dquote +:+ ">"
        +:+ level +:+ "</span>"
  end.

Definition badge_span (cls level : string) : string :=
  "<span class=" +:+ dquote +:+ "cefr-badge " +:+ cls +:+ dquote +:+ ">"
    +:+ level +:+ "</span>".

(** [result.transcription.split(/\s+/).filter(w => w.length > 0).length] *)
Definition words (transcription : JS.str) : nat :=
  length (filter (fun w : JS.str => 0 < length w) (JS.split_ws transcription)).

(** [result.duration > 0 ? Math.round((words / result.duration) * 60) : 0] *)
Definition wpm (words : nat) (duration : Q) : JS.num :=
  let duration := JS.of_Q duration in
  if JS.gt0 duration then
    JS.Math_round (JS.fmul (JS.fdiv (JS.of_nat words) duration) JS.sixty)
  else JS.Fin 0.

(** The number of maximal runs of non-space code units, read off the
    string directly: a token starts at every non-space code unit that is
    first or follows white space. *)
Fixpoint count_tokens (afterSpace : bool) (s : JS.str) : nat :=
  match s with
  | [] => 0
  | c :: s' =>
      if JS.is_space c then count_tokens true s'
      else (if afterSpace then 1 else 0) + count_tokens false s'
  end.

Definition tokens (s : JS.str) : nat := count_tokens true s.

(** ** Data model of the mock test *)

(** [this.state] of a page. *)
Inductive RecordingPhase : Type := idle | recording | processing.

Inductive Side : Type := side_for | side_against.

Inductive Mood : Type := happy | normal | angry.

(** One element of [questions]; only [q.question] is read. *)
Record Question : Type := { q_question : string }.

(** One entry of [test.parts]. A missing [questions] is the empty list
    ([questions || []]); a missing [topic] is [None] ([undefined]). *)
Record PartData : Type := {
  questions : list Question;
  images : list string;
  topic : option string
}.

(** [{}], the value of [currentPartData] for an unknown part. *)
Definition no_part_data : PartData :=
  {| questions := []; images := []; topic := None |}.

(** What [this.responses.push] stores. [part] and [question] are [None]
    when the source value is [undefined]. *)
Record ResponseRecord : Type := {
  part : option string;
  question : option string;
  transcription : JS.str;
  duration : Q
}.

(** Outcome of an awaited request: the promise resolves or rejects with
    an [Error] carrying a message. *)
Inductive Result (A : Type) : Type :=
  | Resolved (a : A)
  | Rejected (message : string).
Arguments Resolved {A} a.
Arguments Rejected {A} message.

(** The response of [/api/sessions/start]: [session_id] and the [parts]
    object of [test], keyed by part name. *)
Record StartOk : Type := {
  session_id : string;
  start_test : gmap string PartData
}.

Record RespondOk : Type := {
  r_transcription : JS.str;
  r_duration : Q
}.

Record CompleteOk : Type := {
  overall : option Q;
  fluency : option Q;
  lexical : option Q;
  grammar : option Q;
  pronunciation : option Q;
  feedback : option string
}.

(** Requests issued to the backend, in order. *)
Inductive ApiCall : Type :=
  | PostStart
  | PostRespond (session : option string) (question part : option string)
      (debate_side : option Side)
  | PostComplete (session : option string) (mood : Mood)
  | PostTts (text : option string) (voice : string)
  | GetSessionInfo.

(** The fields of the [MockTestPage] singleton; [test] holds the [parts]
    object of the fetched test. *)
Record MockTestPage : Type := {
  sessionId : option string;
  test : option (gmap string PartData);
  currentPartIndex : nat;
  currentIndex : nat;
  responses : list ResponseRecord;
  state : RecordingPhase;
  showTranscription : bool;
  selectedVoice : option string;
  mood : Mood;
  recordingStartTime : option Z;
  autoAdvanceTimer : option nat;
  currentAudio : option nat;
  debateSide : option Side
}.

(** [parts: ["1.1", "1.2", "2", "3"]] *)
Definition parts : list string := ["1.1"; "1.2"; "2"; "3"].

(** The fields of the [Recorder] singleton. [onTick] holds the DOM
    generation whose [#timer] and [#record-hint] the callback writes;
    [onStop] is the page's [handleRecording]. Chunks and the encoded
    blob are opaque and left out. *)
Record Recorder : Type := {
  mediaRecorder : option nat;
  stream : option nat;
  startTime : option Z;
  timerInterval : option nat;
  onTick : option nat;
  onStop : bool;
  maxDuration : option Z
}.

(** What a live [setInterval] timer runs. The auto-advance closure owns
    its [countdown] and the [#countdown-text] of one DOM generation. *)
Inductive IntervalKind : Type :=
  | RecorderTick
  | AutoAdvance (countdown : Z) (gen : nat).

(** Browser resources. *)
Record Env : Type := {
  intervals : gmap nat IntervalKind;   (* live interval timers *)
  openStreams : gset nat;              (* media streams with live tracks *)
  recordingMRs : gset nat;             (* media recorders in state recording *)
  stoppingMRs : gset nat;              (* stopped, [onstop] not yet delivered *)
  playing : gset nat;                  (* audio elements playing *)
  nextId : nat                         (* supply of fresh handles *)
}.

(** A [handleRecording] call suspended at [await API.postForm]. *)
Record Submission : Type := {
  sub_part : option string;
  sub_question : option string;
  sub_isDebate : bool;
  sub_gen : nat
}.

(** What [Recorder.start] meets once the microphone is granted: the
    media recorder starts, or the code between [getUserMedia] and
    [new MediaRecorder] throws (no [MediaRecorder], or its constructor
    refuses), or [mediaRecorder.start()] throws. *)
Inductive Capture : Type :=
  | capture_started
  | capture_unsupported
  | capture_start_throws.

(** How [await getUserMedia] settles, and what follows. *)
Inductive MicOutcome : Type :=
  | mic_refused
  | mic_granted (c : Capture).

(** [true] is a microphone that is granted and records, [false] one
    that is refused. *)
Definition mic_of_bool (granted : bool) : MicOutcome :=
  if granted then mic_granted capture_started else mic_refused.
Coercion mic_of_bool : bool >-> MicOutcome.

(** Promises in flight and the log of requests made. [pendingMic] holds
    the record-button handlers suspended at [await Recorder.start], each
    with the DOM generation of the elements it captured. *)
Record Net : Type := {
  pendingStart : nat;
  pendingRespond : list Submission;
  pendingComplete : nat;
  pendingTts : nat;
  pendingHome : nat;
  calls : list ApiCall;
  pendingMic : list nat
}.

(** What the container shows, which decides the buttons that exist. *)
Inductive View : Type :=
  | VHome
  | VLoading
  | VStartFailed (isLimit : bool) (message : string)
  | VIntro
  | VQuestion (part : option string) (index total : nat) (text : string)
  | VDebateSelection
  | VDebateRecording
  | VPartTransition (part : option string)
  | VGenerating
  | VResults (result : CompleteOk)
  | VResultsFailed (message : string).

Inductive Hint : Type :=
  | TapToStart               (* Tap to start recording *)
  | WaitMore (n : Z)         (* Wait ${n}s more... *)
  | RecordingMin (n : Z)     (* Recording... (min ${n}s) *)
  | TapToStop
  | Processing
  | MicDenied                (* Microphone access denied *)
  | TapToTryAgain.

Inductive Transcription : Type :=
  | TEmpty
  | TLoading (transcribing : bool)
  | TCard (text : JS.str) (words : nat) (wpm : JS.num) (duration : Q)
  | TSaved
  | TFailed (message : string).

Inductive Action : Type :=
  | AEmpty
  | ANext (countdown : Z)
  | ASeeResults.

(** The recorder area, [#transcription-area] and [#action-area] of a
    question or debate-recording screen. *)
Record Widgets : Type := {
  btnRecording : bool;
  btnDisabled : bool;
  timer : Z;
  hint : Hint;
  transcriptionArea : Transcription;
  actionArea : Action
}.

Definition fresh_widgets : Widgets :=
  {| btnRecording := false; btnDisabled := false; timer := 0;
     hint := TapToStart; transcriptionArea := TEmpty; actionArea := AEmpty |}.

Inductive Route : Type := route_home | route_mock_test.

(** The two builds of [HomePage.render]: one awaits
    [API.get('/api/session-info')] before it fills the container, the
    other fills it at once. *)
Inductive HomeBuild : Type := home_fetches | home_static.

(** The whole client: page object, recorder, router, DOM, browser and
    network. [domGen] counts the times the container was re-rendered;
    [uncaught] counts exceptions no handler caught. *)
Record World : Type := {
  page : MockTestPage;
  rec : Recorder;
  env : Env;
  net : Net;
  currentPage : Route;
  view : View;
  widgets : Widgets;
  domGen : nat;
  uncaught : nat;
  homeBuild : HomeBuild
}.

(** ** Field updates

    [with_f v r] is [r] with field [f] replaced by [v]. *)

Definition with_sessionId x (p : MockTestPage) : MockTestPage :=
  {| sessionId := x; test := test p; currentPartIndex := currentPartIndex p;
     currentIndex := currentIndex p; responses := responses p;
     state := state p; showTranscription := showTranscription p;
     selectedVoice := selectedVoice p; mood := mood p;
     recordingStartTime := recordingStartTime p;
     autoAdvanceTimer := autoAdvanceTimer p; currentAudio := currentAudio p;
     debateSide := debateSide p |}.
Definition with_test x (p : MockTestPage) : MockTestPage :=
  {| sessionId := sessionId p; test := x;
     currentPartIndex := currentPartIndex p; currentIndex := currentIndex p;
     responses := responses p; state := state p;
     showTranscription := showTranscription p;
     selectedVoice := selectedVoice p; mood := mood p;
     recordingStartTime := recordingStartTime p;
     autoAdvanceTimer := autoAdvanceTimer p; currentAudio := currentAudio p;
     debateSide := debateSide p |}.
Definition with_currentPartIndex x (p : MockTestPage) : MockTestPage :=
  {| sessionId := sessionId p; test := test p; currentPartIndex := x;
     currentIndex := currentIndex p; responses := responses p;
     state := state p; showTranscription := showTranscription p;
     selectedVoice := selectedVoice p; mood := mood p;
     recordingStartTime := recordingStartTime p;
     autoAdvanceTimer := autoAdvanceTimer p; currentAudio := currentAudio p;
     debateSide := debateSide p |}.
Definition with_currentIndex x (p : MockTestPage) : MockTestPage :=
  {| sessionId := sessionId p; test := test p;
     currentPartIndex := currentPartIndex p; currentIndex := x;
     responses := responses p; state := state p;
     showTranscription := showTranscription p;
     selectedVoice := selectedVoice p; mood := mood p;
     recordingStartTime := recordingStartTime p;
     autoAdvanceTimer := autoAdvanceTimer p; currentAudio := currentAudio p;
     debateSide := debateSide p |}.
Definition with_responses x (p : MockTestPage) : MockTestPage :=
  {| sessionId := sessionId p; test := test p;
     currentPartIndex := currentPartIndex p; currentIndex := currentIndex p;
     responses := x; state := state p;
     showTranscription := showTranscription p;
     selectedVoice := selectedVoice p; mood := mood p;
     recordingStartTime := recordingStartTime p;
     autoAdvanceTimer := autoAdvanceTimer p; currentAudio := currentAudio p;
     debateSide := debateSide p |}.
Definition with_state x (p : MockTestPage) : MockTestPage :=
  {| sessionId := sessionId p; test := test p;
     currentPartIndex := currentPartIndex p; currentIndex := currentIndex p;
     responses := responses p; state := x;
     showTranscription := showTranscription p;
     selectedVoice := selectedVoice p; mood := mood p;
     recordingStartTime := recordingStartTime p;
     autoAdvanceTimer := autoAdvanceTimer p; currentAudio := currentAudio p;
     debateSide := debateSide p |}.
Definition with_showTranscription x (p : MockTestPage) : MockTestPage :=
  {| sessionId := sessionId p; test := test p;
     currentPartIndex := currentPartIndex p; currentIndex := currentIndex p;
     responses := responses p; state := state p; showTranscription := x;
     selectedVoice := selectedVoice p; mood := mood p;
     recordingStartTime := recordingStartTime p;
     autoAdvanceTimer := autoAdvanceTimer p; currentAudio := currentAudio p;
     debateSide := debateSide p |}.
Definition with_selectedVoice x (p : MockTestPage) : MockTestPage :=
  {| sessionId := sessionId p; test := test p;
     currentPartIndex := currentPartIndex p; currentIndex := currentIndex p;
     responses := responses p; state := state p;
     showTranscription := showTranscription p; selectedVoice := x;
     mood := mood p; recordingStartTime := recordingStartTime p;
     autoAdvanceTimer := autoAdvanceTimer p; currentAudio := currentAudio p;
     debateSide := debateSide p |}.
Definition with_mood x (p : MockTestPage) : MockTestPage :=
  {| sessionId := sessionId p; test := test p;
     currentPartIndex := currentPartIndex p; currentIndex := currentIndex p;
     responses := responses p; state := state p;
     showTranscription := showTranscription p;
     selectedVoice := selectedVoice p; mood := x;
     recordingStartTime := recordingStartTime p;
     autoAdvanceTimer := autoAdvanceTimer p; currentAudio := currentAudio p;
     debateSide := debateSide p |}.
Definition with_recordingStartTime x (p : MockTestPage) : MockTestPage :=
  {| sessionId := sessionId p; test := test p;
     currentPartIndex := currentPartIndex p; currentIndex := currentIndex p;
     responses := responses p; state := state p;
     showTranscription := showTranscription p;
     selectedVoice := selectedVoice p; mood := mood p;
     recordingStartTime := x; autoAdvanceTimer := autoAdvanceTimer p;
     currentAudio := currentAudio p; debateSide := debateSide p |}.
Definition with_autoAdvanceTimer x (p : MockTestPage) : MockTestPage :=
  {| sessionId := sessionId p; test := test p;
     currentPartIndex := currentPartIndex p; currentIndex := currentIndex p;
     responses := responses p; state := state p;
     showTranscription := showTranscription p;
     selectedVoice := selectedVoice p; mood := mood p;
     recordingStartTime := recordingStartTime p; autoAdvanceTimer := x;
     currentAudio := currentAudio p; debateSide := debateSide p |}.
Definition with_currentAudio x (p : MockTestPage) : MockTestPage :=
  {| sessionId := sessionId p; test := test p;
     currentPartIndex := currentPartIndex p; currentIndex := currentIndex p;
     responses := responses p; state := state p;
     showTranscription := showTranscription p;
     selectedVoice := selectedVoice p; mood := mood p;
     recordingStartTime := recordingStartTime p;
     autoAdvanceTimer := autoAdvanceTimer p; currentAudio := x;
     debateSide := debateSide p |}.
Definition with_debateSide x (p : MockTestPage) : MockTestPage :=
  {| sessionId := sessionId p; test := test p;
     currentPartIndex := currentPartIndex p; currentIndex := currentIndex p;
     responses := responses p; state := state p;
     showTranscription := showTranscription p;
     selectedVoice := selectedVoice p; mood := mood p;
     recordingStartTime := recordingStartTime p;
     autoAdvanceTimer := autoAdvanceTimer p; currentAudio := currentAudio p;
     debateSide := x |}.

Definition with_mediaRecorder x (r : Recorder) : Recorder :=
  {| mediaRecorder := x; stream := stream r; startTime := startTime r;
     timerInterval := timerInterval r; onTick := onTick r;
     onStop := onStop r; maxDuration := maxDuration r |}.
Definition with_stream x (r : Recorder) : Recorder :=
  {| mediaRecorder := mediaRecorder r; stream := x; startTime := startTime r;
     timerInterval := timerInterval r; onTick := onTick r;
     onStop := onStop r; maxDuration := maxDuration r |}.
Definition with_startTime x (r : Recorder) : Recorder :=
  {| mediaRecorder := mediaRecorder r; stream := stream r; startTime := x;
     timerInterval := timerInterval r; onTick := onTick r;
     onStop := onStop r; maxDuration := maxDuration r |}.
Definition with_timerInterval x (r : Recorder) : Recorder :=
  {| mediaRecorder := mediaRecorder r; stream := stream r;
     startTime := startTime r; timerInterval := x; onTick := onTick r;
     onStop := onStop r; maxDuration := maxDuration r |}.
Definition with_onTick x (r : Recorder) : Recorder :=
  {| mediaRecorder := mediaRecorder r; stream := stream r;
     startTime := startTime r; timerInterval := timerInterval r; onTick := x;
     onStop := onStop r; maxDuration := maxDuration r |}.
Definition with_onStop x (r : Recorder) : Recorder :=
  {| mediaRecorder := mediaRecorder r; stream := stream r;
     startTime := startTime r; timerInterval := timerInterval r;
     onTick := onTick r; onStop := x; maxDuration := maxDuration r |}.
Definition with_maxDuration x (r : Recorder) : Recorder :=
  {| mediaRecorder := mediaRecorder r; stream := stream r;
     startTime := startTime r; timerInterval := timerInterval r;
     onTick := onTick r; onStop := onStop r; maxDuration := x |}.

Definition with_intervals x (e : Env) : Env :=
  {| intervals := x; openStreams := openStreams e;
     recordingMRs := recordingMRs e; stoppingMRs := stoppingMRs e;
     playing := playing e; nextId := nextId e |}.
Definition with_openStreams x (e : Env) : Env :=
  {| intervals := intervals e; openStreams := x;
     recordingMRs := recordingMRs e; stoppingMRs := stoppingMRs e;
     playing := playing e; nextId := nextId e |}.
Definition with_recordingMRs x (e : Env) : Env :=
  {| intervals := intervals e; openStreams := openStreams e;
     recordingMRs := x; stoppingMRs := stoppingMRs e; playing := playing e;
     nextId := nextId e |}.
Definition with_stoppingMRs x (e : Env) : Env :=
  {| intervals := intervals e; openStreams := openStreams e;
     recordingMRs := recordingMRs e; stoppingMRs := x; playing := playing e;
     nextId := nextId e |}.
Definition with_playing x (e : Env) : Env :=
  {| intervals := intervals e; openStreams := openStreams e;
     recordingMRs := recordingMRs e; stoppingMRs := stoppingMRs e;
     playing := x; nextId := nextId e |}.
Definition with_nextId x (e : Env) : Env :=
  {| intervals := intervals e; openStreams := openStreams e;
     recordingMRs := recordingMRs e; stoppingMRs := stoppingMRs e;
     playing := playing e; nextId := x |}.

Definition with_pendingStart x (n : Net) : Net :=
  {| pendingStart := x; pendingRespond := pendingRespond n;
     pendingComplete := pendingComplete n; pendingTts := pendingTts n;
     pendingHome := pendingHome n; calls := calls n; pendingMic := pendingMic n |}.
Definition with_pendingRespond x (n : Net) : Net :=
  {| pendingStart := pendingStart n; pendingRespond := x;
     pendingComplete := pendingComplete n; pendingTts := pendingTts n;
     pendingHome := pendingHome n; calls := calls n; pendingMic := pendingMic n |}.
Definition with_pendingComplete x (n : Net) : Net :=
  {| pendingStart := pendingStart n; pendingRespond := pendingRespond n;
     pendingComplete := x; pendingTts := pendingTts n;
     pendingHome := pendingHome n; calls := calls n; pendingMic := pendingMic n |}.
Definition with_pendingTts x (n : Net) : Net :=
  {| pendingStart := pendingStart n; pendingRespond := pendingRespond n;
     pendingComplete := pendingComplete n; pendingTts := x;
     pendingHome := pendingHome n; calls := calls n; pendingMic := pendingMic n |}.
Definition with_pendingHome x (n : Net) : Net :=
  {| pendingStart := pendingStart n; pendingRespond := pendingRespond n;
     pendingComplete := pendingComplete n; pendingTts := pendingTts n;
     pendingHome := x; calls := calls n; pendingMic := pendingMic n |}.
Definition with_pendingMic x (n : Net) : Net :=
  {| pendingStart := pendingStart n; pendingRespond := pendingRespond n;
     pendingComplete := pendingComplete n; pendingTts := pendingTts n;
     pendingHome := pendingHome n; calls := calls n; pendingMic := x |}.
Definition with_calls x (n : Net) : Net :=
  {| pendingStart := pendingStart n; pendingRespond := pendingRespond n;
     pendingComplete := pendingComplete n; pendingTts := pendingTts n;
     pendingHome := pendingHome n; calls := x; pendingMic := pendingMic n |}.

Definition with_btnRecording x (g : Widgets) : Widgets :=
  {| btnRecording := x; btnDisabled := btnDisabled g; timer := timer g;
     hint := hint g; transcriptionArea := transcriptionArea g;
     actionArea := actionArea g |}.
Definition with_btnDisabled x (g : Widgets) : Widgets :=
  {| btnRecording := btnRecording g; btnDisabled := x; timer := timer g;
     hint := hint g; transcriptionArea := transcriptionArea g;
     actionArea := actionArea g |}.
Definition with_timer x (g : Widgets) : Widgets :=
  {| btnRecording := btnRecording g; btnDisabled := btnDisabled g;
     timer := x; hint := hint g; transcriptionArea := transcriptionArea g;
     actionArea := actionArea g |}.
Definition with_hint x (g : Widgets) : Widgets :=
  {| btnRecording := btnRecording g; btnDisabled := btnDisabled g;
     timer := timer g; hint := x; transcriptionArea := transcriptionArea g;
     actionArea := actionArea g |}.
Definition with_transcriptionArea x (g : Widgets) : Widgets :=
  {| btnRecording := btnRecording g; btnDisabled := btnDisabled g;
     timer := timer g; hint := hint g; transcriptionArea := x;
     actionArea := actionArea g |}.
Definition with_actionArea x (g : Widgets) : Widgets :=
  {| btnRecording := btnRecording g; btnDisabled := btnDisabled g;
     timer := timer g; hint := hint g;
     transcriptionArea := transcriptionArea g; actionArea := x |}.

Definition with_page x (w : World) : World :=
  {| page := x; rec := rec w; env := env w; net := net w;
     currentPage := currentPage w; view := view w; widgets := widgets w;
     domGen := domGen w; uncaught := uncaught w;
     homeBuild := homeBuild w |}.
Definition with_rec x (w : World) : World :=
  {| page := page w; rec := x; env := env w; net := net w;
     currentPage := currentPage w; view := view w; widgets := widgets w;
     domGen := domGen w; uncaught := uncaught w;
     homeBuild := homeBuild w |}.
Definition with_env x (w : World) : World :=
  {| page := page w; rec := rec w; env := x; net := net w;
     currentPage := currentPage w; view := view w; widgets := widgets w;
     domGen := domGen w; uncaught := uncaught w;
     homeBuild := homeBuild w |}.
Definition with_net x (w : World) : World :=
  {| page := page w; rec := rec w; env := env w; net := x;
     currentPage := currentPage w; view := view w; widgets := widgets w;
     domGen := domGen w; uncaught := uncaught w;
     homeBuild := homeBuild w |}.
Definition with_currentPage x (w : World) : World :=
  {| page := page w; rec := rec w; env := env w; net := net w;
     currentPage := x; view := view w; widgets := widgets w;
     domGen := domGen w; uncaught := uncaught w;
     homeBuild := homeBuild w |}.
Definition with_view x (w : World) : World :=
  {| page := page w; rec := rec w; env := env w; net := net w;
     currentPage := currentPage w; view := x; widgets := widgets w;
     domGen := domGen w; uncaught := uncaught w;
     homeBuild := homeBuild w |}.
Definition with_widgets x (w : World) : World :=
  {| page := page w; rec := rec w; env := env w; net := net w;
     currentPage := currentPage w; view := view w; widgets := x;
     domGen := domGen w; uncaught := uncaught w;
     homeBuild := homeBuild w |}.
Definition with_domGen x (w : World) : World :=
  {| page := page w; rec := rec w; env := env w; net := net w;
     currentPage := currentPage w; view := view w; widgets := widgets w;
     domGen := x; uncaught := uncaught w;
     homeBuild := homeBuild w |}.
Definition with_uncaught x (w : World) : World :=
  {| page := page w; rec := rec w; env := env w; net := net w;
     currentPage := currentPage w; view := view w; widgets := widgets w;
     domGen := domGen w; uncaught := x;
     homeBuild := homeBuild w |}.

Definition with_homeBuild x (w : World) : World :=
  {| page := page w; rec := rec w; env := env w; net := net w;
     currentPage := currentPage w; view := view w; widgets := widgets w;
     domGen := domGen w; uncaught := uncaught w; homeBuild := x |}.

Definition on_page (f : MockTestPage -> MockTestPage) (w : World) : World :=
  with_page (f (page w)) w.
Definition on_rec (f : Recorder -> Recorder) (w : World) : World :=
  with_rec (f (rec w)) w.
Definition on_env (f : Env -> Env) (w : World) : World :=
  with_env (f (env w)) w.
Definition on_net (f : Net -> Net) (w : World) : World :=
  with_net (f (net w)) w.

Notation "w '|>' f" := (f w) (at level 45, left associativity, only parsing).

(** ** Browser primitives *)

(** [setInterval(callback, 1000)]: a fresh id, registered as live. *)
Definition setInterval (k : IntervalKind) (w : World) : nat * World :=
  let id := nextId (env w) in
  (id, on_env (fun e => e |> with_intervals (<[id := k]> (intervals e))
                          |> with_nextId (S id)) w).

Definition clearInterval (id : nat) (w : World) : World :=
  on_env (fun e => with_intervals (delete id (intervals e)) e) w.

(** [audio.pause()] *)
Definition pause (a : nat) (w : World) : World :=
  on_env (fun e => with_playing (playing e ∖ {[a]}) e) w.

(** [container.innerHTML = ...]: a new generation of elements, with the
    recorder widgets, when the screen has them, in their initial state. *)
Definition set_innerHTML (v : View) (w : World) : World :=
  w |> with_view v |> with_widgets fresh_widgets |> with_domGen (S (domGen w)).

(** The screens that contain [#record-btn], [#record-hint],
    [#transcription-area] and [#action-area]. *)
Definition has_widgets (v : View) : bool :=
  match v with
  | VQuestion _ _ _ _ | VDebateRecording => true
  | _ => false
  end.

(** A write to widget elements captured in generation [gen]: visible if
    these elements are still the ones in the document. *)
Definition write (gen : nat) (f : Widgets -> Widgets) (w : World) : World :=
  if bool_decide (gen = domGen w) && has_widgets (view w)
  then with_widgets (f (widgets w)) w else w.

Definition log_call (c : ApiCall) (n : Net) : Net :=
  with_calls (calls n ++ [c])%list n.

(** An exception that reaches the event loop. *)
Definition throw_uncaught (w : World) : World :=
  with_uncaught (S (uncaught w)) w.

(** ** Recorder *)

(** [Recorder.start(onTick, onStop, maxDuration)] up to
    [await getUserMedia]: the callbacks are stored before the microphone
    is requested; nothing looks at a recording already in progress. *)
Definition Recorder_start_begin (tickGen : nat) (maxDur : option Z)
    (w : World) : World :=
  on_rec (fun r => r |> with_onTick (Some tickGen) |> with_onStop true
                     |> with_maxDuration
                          (match maxDur with
                           | Some 0%Z | None => None
                           | Some d => Some d
                           end)) w.

(** [Recorder.start] after the microphone has answered with [mic], at
    clock [now]; the result is what the call returns. A refusal is
    caught before anything is stored. Once granted, the new stream is
    stored at once; an exception thrown later in the [try] is caught as
    well, and what was stored up to it stays. *)
Definition Recorder_start_resume (mic : MicOutcome) (now : Z) (w : World)
    : bool * World :=
  match mic with
  | mic_refused => (false, w)
  | mic_granted c =>
      let s := nextId (env w) in
      let w := w |> on_env (fun e => e |> with_openStreams ({[s]} ∪ openStreams e)
                                     |> with_nextId (S s))
                 |> on_rec (with_stream (Some s)) in
      match c with
      | capture_unsupported => (false, w)
      | capture_start_throws =>
          let m := nextId (env w) in
          (false, w |> on_env (with_nextId (S m))
                    |> on_rec (with_mediaRecorder (Some m)))
      | capture_started =>
          let m := nextId (env w) in
          let w := w |> on_env (fun e => e |> with_recordingMRs
                                                ({[m]} ∪ recordingMRs e)
                                         |> with_nextId (S m))
                     |> on_rec (fun r => r |> with_mediaRecorder (Some m)
                                          |> with_startTime (Some now)) in
          let '(t, w) := setInterval RecorderTick w in
          (true, on_rec (with_timerInterval (Some t)) w)
      end
  end.

(** A whole call of [Recorder.start] whose microphone request is
    answered before anything else happens. *)
Definition Recorder_start (tickGen : nat) (maxDur : option Z)
    (mic : MicOutcome) (now : Z) (w : World) : bool * World :=
  Recorder_start_resume mic now (Recorder_start_begin tickGen maxDur w).

(** [Recorder.isRecording()] *)
Definition Recorder_isRecording (w : World) : bool :=
  match mediaRecorder (rec w) with
  | Some m => bool_decide (m ∈ recordingMRs (env w))
  | None => false
  end.

(** [Recorder.stop()]: the media recorder leaves state recording at once;
    its [onstop] event is delivered later. *)
Definition Recorder_stop (w : World) : World :=
  match mediaRecorder (rec w) with
  | Some m =>
      if bool_decide (m ∈ recordingMRs (env w)) then
        on_env (fun e => e |> with_recordingMRs (recordingMRs e ∖ {[m]})
                          |> with_stoppingMRs ({[m]} ∪ stoppingMRs e)) w
      else w
  | None => w
  end.

(** [Recorder.cleanup()] *)
Definition Recorder_cleanup (w : World) : World :=
  let w := match timerInterval (rec w) with
           | Some t => w |> clearInterval t |> on_rec (with_timerInterval None)
           | None => w
           end in
  match stream (rec w) with
  | Some s => w |> on_env (fun e => with_openStreams (openStreams e ∖ {[s]}) e)
                |> on_rec (with_stream None)
  | None => w
  end.

(** ** MockTestPage *)

(** [get currentPart()] *)
Definition currentPart (w : World) : option string :=
  parts !! currentPartIndex (page w).

(** [get currentPartData()]: [this.test?.parts?.[this.currentPart] || {}] *)
Definition currentPartData (w : World) : PartData :=
  match test (page w), currentPart w with
  | Some t, Some p => default no_part_data (t !! p)
  | _, _ => no_part_data
  end.

(** [get currentQuestions()] *)
Definition currentQuestions (w : World) : list Question :=
  questions (currentPartData w).

(** [clearAutoAdvance()] *)
Definition clearAutoAdvance (w : World) : World :=
  match autoAdvanceTimer (page w) with
  | Some t => w |> clearInterval t |> on_page (with_autoAdvanceTimer None)
  | None => w
  end.

(** [App.navigate('home')]: the router sets [currentPage] and calls
    [HomePage.render(container)]. One build of the home page sends
    [GET /api/session-info] and fills the container when the answer is
    there ([home_rendered]); the other fills it at once. *)
Definition navigate_home (w : World) : World :=
  let w := with_currentPage route_home w in
  match homeBuild w with
  | home_fetches =>
      on_net (fun n => n |> with_pendingHome (S (pendingHome n))
                        |> log_call GetSessionInfo) w
  | home_static => set_innerHTML VHome w
  end.

(** [playQuestion(text)] up to [await fetch('/api/tts', ...)]. *)
Definition playQuestion (text : option string) (w : World) : World :=
  let w := match currentAudio (page w) with
           | Some a => w |> pause a |> on_page (with_currentAudio None)
           | None => w
           end in
  match selectedVoice (page w) with
  | None => w
  | Some voice =>
      on_net (fun n => n |> with_pendingTts (S (pendingTts n))
                        |> log_call (PostTts text voice)) w
  end.

(** [playQuestion] after the fetch: a response that is not [ok] (or a
    failed fetch) plays nothing; otherwise a new audio element plays. *)
Definition playQuestion_resume (ok : bool) (w : World) : World :=
  match pendingTts (net w) with
  | O => w
  | S k =>
      let w := on_net (with_pendingTts k) w in
      if ok then
        let a := nextId (env w) in
        w |> on_env (fun e => e |> with_playing ({[a]} ∪ playing e)
                               |> with_nextId (S a))
          |> on_page (with_currentAudio (Some a))
      else w
  end.

(** [showResults(container)] up to [await API.post(.../complete)]. *)
Definition showResults (w : World) : World :=
  let w := clearAutoAdvance w in
  let w := set_innerHTML VGenerating w in
  on_net (fun n => n |> with_pendingComplete (S (pendingComplete n))
                    |> log_call (PostComplete (sessionId (page w)) (mood (page w)))) w.

(** [showResults] after the request. *)
Definition showResults_resume (r : Result CompleteOk) (w : World) : World :=
  match pendingComplete (net w) with
  | O => w
  | S k =>
      let w := on_net (with_pendingComplete k) w in
      match r with
      | Resolved result => set_innerHTML (VResults result) w
      | Rejected message => set_innerHTML (VResultsFailed message) w
      end
  end.

(** [renderPartTransition(container)] *)
Definition renderPartTransition (w : World) : World :=
  let w := clearAutoAdvance w in
  set_innerHTML (VPartTransition (currentPart w)) w.

(** [renderDebateSelection(container)] *)
Definition renderDebateSelection (w : World) : World :=
  set_innerHTML VDebateSelection w.

(** [renderDebateRecording(container)] *)
Definition renderDebateRecording (w : World) : World :=
  let partData := currentPartData w in
  w |> set_innerHTML VDebateRecording |> playQuestion (topic partData).

(** [renderQuestion(container)] *)
Definition renderQuestion (w : World) : World :=
  let w := clearAutoAdvance w in
  let part := currentPart w in
  let questions := currentQuestions w in
  if bool_decide (part = Some "3") then
    match debateSide (page w) with
    | None => renderDebateSelection w
    | Some _ => renderDebateRecording w
    end
  else if bool_decide (length questions <= currentIndex (page w)) then
    if bool_decide (currentPartIndex (page w) < length parts - 1) then
      w |> on_page (fun p => p |> with_currentPartIndex (S (currentPartIndex p))
                              |> with_currentIndex 0
                              |> with_debateSide None)
        |> renderPartTransition
    else showResults w
  else
    match questions !! currentIndex (page w) with
    | Some q =>
        w |> set_innerHTML (VQuestion part (currentIndex (page w))
                              (length questions) (q_question q))
          |> playQuestion (Some (q_question q))
    | None => w
    end.

(** [render(container)] up to [await API.post('/api/sessions/start')]. *)
Definition render (w : World) : World :=
  w |> on_page (fun p => p |> with_currentPartIndex 0
                          |> with_currentIndex 0
                          |> with_responses []
                          |> with_state idle
                          |> with_showTranscription true
                          |> with_selectedVoice None
                          |> with_mood normal
                          |> with_recordingStartTime None
                          |> with_debateSide None
                          |> with_test None)
    |> clearAutoAdvance
    |> set_innerHTML VLoading
    |> on_net (fun n => n |> with_pendingStart (S (pendingStart n))
                          |> log_call PostStart).

(** [renderIntro(container)] *)
Definition renderIntro (w : World) : World := set_innerHTML VIntro w.

(** [render] after the request: the intro screen, or the error screen
    whose shape depends on [err.message.includes('Daily mock limit')]. *)
Definition render_resume (r : Result StartOk) (w : World) : World :=
  match pendingStart (net w) with
  | O => w
  | S k =>
      let w := on_net (with_pendingStart k) w in
      match r with
      | Resolved result =>
          w |> on_page (fun p => p |> with_sessionId (Some (session_id result))
                                  |> with_test (Some (start_test result)))
            |> renderIntro
      | Rejected message =>
          let isLimit := JS.includes message "Daily mock limit" in
          set_innerHTML (VStartFailed isLimit message) w
      end
  end.

(** [App.navigate('mock-test')] *)
Definition navigate_mock_test (w : World) : World :=
  w |> with_currentPage route_mock_test |> render.

(** [HomePage.render] after [await API.get('/api/session-info')],
    answered or failed: the home page fills the container. *)
Definition home_rendered (w : World) : World :=
  match pendingHome (net w) with
  | O => w
  | S k => w |> on_net (with_pendingHome k) |> set_innerHTML VHome
  end.

(** [Math.ceil(5 - elapsed)] for [elapsed = ms / 1000]. *)
Definition ceil_remaining (ms : Z) : Z := (- ((ms - 5000) / 1000))%Z.

(** The click handler that [setupRecordBtn] puts on [#record-btn], at
    clock [now], up to [await Recorder.start]. The page state is looked
    at here only: while the microphone has not answered it is still
    [idle], and another click asks again. *)
Definition record_click (now : Z) (w : World) : World :=
  let gen := domGen w in
  match state (page w) with
  | recording =>
      let elapsed_ms := (now - default 0 (recordingStartTime (page w)))%Z in
      if (elapsed_ms <? 5000)%Z then
        write gen (with_hint (WaitMore (ceil_remaining elapsed_ms))) w
      else
        w |> Recorder_stop
          |> on_page (with_state processing)
          |> write gen (fun g => g |> with_btnRecording false
                                  |> with_btnDisabled true
                                  |> with_hint Processing)
  | processing => w
  | idle =>
      w |> Recorder_start_begin gen None
        |> on_net (fun n => with_pendingMic (pendingMic n ++ [gen])%list n)
  end.

(** The same handler after [await Recorder.start], for the elements of
    generation [gen]: [Recorder.start] and the handler resume in the
    same turn, with the clock [now]. *)
Definition record_click_resume (gen : nat) (mic : MicOutcome) (now : Z)
    (w : World) : World :=
  let '(started, w) := Recorder_start_resume mic now w in
  if started then
    let w := match currentAudio (page w) with
             | Some a => w |> pause a |> on_page (with_currentAudio None)
             | None => w
             end in
    w |> on_page (fun p => p |> with_state recording
                            |> with_recordingStartTime (Some now))
      |> write gen (fun g => g |> with_btnRecording true
                              |> with_hint (RecordingMin 5))
  else write gen (with_hint MicDenied) w.

(** A click on [#record-btn], on a screen that has one. *)
Definition click_record (now : Z) (w : World) : World :=
  if has_widgets (view w) then record_click now w else w.

(** The microphone answers the [i]-th suspended handler. *)
Definition mic_answered (i : nat) (mic : MicOutcome) (now : Z) (w : World)
    : World :=
  match pendingMic (net w) !! i with
  | Some gen =>
      w |> on_net (fun n => with_pendingMic (delete i (pendingMic n)) n)
        |> record_click_resume gen mic now
  | None => w
  end.

(** A click on [#record-btn] that the microphone answers before any
    other event: the two turns in a row. *)
Definition tap_record (now : Z) (mic : MicOutcome) (w : World) : World :=
  mic_answered (length (pendingMic (net w))) mic now (click_record now w).

(** [showNextWithAutoAdvance(actionArea, container)]; [gen] is the
    generation of [actionArea]. *)
Definition showNextWithAutoAdvance (gen : nat) (w : World) : World :=
  let countdown := 5%Z in
  let w := write gen (with_actionArea (ANext countdown)) w in
  let '(t, w) := setInterval (AutoAdvance countdown gen) w in
  on_page (with_autoAdvanceTimer (Some t)) w.

(** The closure [goNext] of [showNextWithAutoAdvance]. *)
Definition goNext (w : World) : World :=
  w |> clearAutoAdvance
    |> on_page (fun p => p |> with_currentIndex (S (currentIndex p))
                          |> with_state idle)
    |> renderQuestion.

(** The [catch] block of [handleRecording]. *)
Definition handleRecording_catch (gen : nat) (message : string) (w : World)
    : World :=
  w |> write gen (with_transcriptionArea (TFailed message))
    |> on_page (with_state idle)
    |> write gen (fun g => g |> with_btnDisabled false
                            |> with_hint TapToTryAgain).

Definition type_error : string :=
  "Cannot read properties of undefined (reading 'question')".

(** [handleRecording(blob, container)] up to [await API.postForm]. The
    four widget elements are looked up first; on a screen without them
    the first write throws outside the [try]. *)
Definition handleRecording (w : World) : World :=
  if has_widgets (view w) then
    let gen := domGen w in
    let part := currentPart w in
    let isDebate := bool_decide (part = Some "3") in
    let w := write gen (with_transcriptionArea
                          (TLoading (showTranscription (page w)))) w in
    let questionText : option (option string) :=
      if isDebate then Some (topic (currentPartData w))
      else (fun q => Some (q_question q)) <$>
             (currentQuestions w !! currentIndex (page w)) in
    match questionText with
    | Some questionText =>
        let side := if isDebate then debateSide (page w) else None in
        on_net (fun n => n |> with_pendingRespond
                               (pendingRespond n ++
                                [{| sub_part := part;
                                    sub_question := questionText;
                                    sub_isDebate := isDebate;
                                    sub_gen := gen |}])%list
                          |> log_call (PostRespond (sessionId (page w))
                                         questionText part side)) w
    | None => handleRecording_catch gen type_error w
    end
  else throw_uncaught w.

(** [handleRecording] after the request, for the suspended call [sub]. *)
Definition handleRecording_resume (sub : Submission) (r : Result RespondOk)
    (w : World) : World :=
  let gen := sub_gen sub in
  match r with
  | Resolved result =>
      let w := on_page (fun p => with_responses
                 (responses p ++
                  [{| part := sub_part sub;
                      question := sub_question sub;
                      transcription := r_transcription result;
                      duration := r_duration result |}])%list p) w in
      let w :=
        if showTranscription (page w) then
          let words := words (r_transcription result) in
          let wpm := wpm words (r_duration result) in
          write gen (with_transcriptionArea
                       (TCard (r_transcription result) words wpm
                          (r_duration result))) w
        else write gen (with_transcriptionArea TSaved) w in
      let w :=
        if sub_isDebate sub then write gen (with_actionArea ASeeResults) w
        else showNextWithAutoAdvance gen w in
      w |> on_page (with_state idle)
        |> write gen (with_btnDisabled false)
  | Rejected message => handleRecording_catch gen message w
  end.

(** The [mediaRecorder.onstop] handler installed by [Recorder.start]. *)
Definition mediaRecorder_onstop (w : World) : World :=
  let w := Recorder_cleanup w in
  if onStop (rec w) then handleRecording w else w.

(** The interval callback installed by [Recorder.start]. *)
Definition recorder_tick (now : Z) (w : World) : World :=
  let elapsed := ((now - default 0 (startTime (rec w))) / 1000)%Z in
  let w := match onTick (rec w) with
           | Some gen =>
               write gen (fun g => g |> with_timer elapsed
                                    |> with_hint (if (elapsed <? 5)%Z
                                                  then RecordingMin (5 - elapsed)
                                                  else TapToStop)) w
           | None => w
           end in
  match maxDuration (rec w) with
  | Some d => if (d <=? elapsed)%Z then Recorder_stop w else w
  | None => w
  end.

(** The interval callback installed by [showNextWithAutoAdvance]. *)
Definition autoAdvance_tick (id : nat) (countdown : Z) (gen : nat)
    (w : World) : World :=
  let countdown := (countdown - 1)%Z in
  let w := on_env (fun e => with_intervals
                     (<[id := AutoAdvance countdown gen]> (intervals e)) e) w in
  if (countdown <=? 0)%Z then goNext w
  else write gen (with_actionArea (ANext countdown)) w.

(** The handler on [#back-btn] and on [#finish-btn] of the question and
    debate-recording screens (the two closures have the same body). *)
Definition leave_exam (w : World) : World :=
  let w := clearAutoAdvance w in
  let w := if Recorder_isRecording w then Recorder_stop w else w in
  navigate_home w.

(** A click on [#back-btn], by the screen that installed it. *)
Definition back_click (w : World) : World :=
  match view w with
  | VQuestion _ _ _ _ | VDebateRecording => leave_exam w
  | VStartFailed _ _ | VIntro | VDebateSelection | VPartTransition _
  | VResults _ | VResultsFailed _ => navigate_home w
  | VHome | VLoading | VGenerating => w
  end.

(** A click on [#finish-btn]. *)
Definition finish_click (w : World) : World :=
  match view w with
  | VQuestion _ _ _ _ | VDebateRecording => leave_exam w
  | VDebateSelection | VPartTransition _ => navigate_home w
  | _ => w
  end.

(** A click on [#home-btn]. *)
Definition home_click (w : World) : World :=
  match view w with
  | VStartFailed true _ | VResults _ | VResultsFailed _ => navigate_home w
  | _ => w
  end.

(** A click on a voice card of the intro screen. *)
Definition voice_click (voice : string) (p : MockTestPage) : MockTestPage :=
  if bool_decide (selectedVoice p = Some voice)
  then with_selectedVoice None p
  else with_selectedVoice (Some voice) p.

(** ** Events *)

(** User input, timer callbacks, media events and settled requests.
    [ClickRecord] and [MicAnswered] are the two turns of a tap on the
    record button; [TapRecord] is a tap that is answered at once. *)
Inductive Event : Type :=
  | OpenMockTest
  | HomeRendered
  | StartResult (r : Result StartOk)
  | TapBack
  | TapHome
  | TapUpgrade
  | TapMood (m : Mood)
  | TapTranscriptionToggle
  | TapVoice (voice : string)
  | TapStart
  | TapFinish
  | TapContinue
  | TapSide (s : Side)
  | TapRecord (now : Z) (mic : MicOutcome)
  | TapNext
  | TapSeeResults
  | IntervalFired (id : nat) (now : Z)
  | MediaStopped (m : nat)
  | RespondResult (i : nat) (r : Result RespondOk)
  | CompleteResult (r : Result CompleteOk)
  | TtsResult (ok : bool)
  | AudioEnded (a : nat)
  | ClickRecord (now : Z)
  | MicAnswered (i : nat) (mic : MicOutcome) (now : Z).

Definition is_intro (v : View) : bool :=
  match v with VIntro => true | _ => false end.

(** One turn of the event loop. An event with no listener on the
    current screen, or for a handle that is not live, changes nothing. *)
Definition step (w : World) (e : Event) : World :=
  match e with
  | OpenMockTest =>
      match view w with VHome => navigate_mock_test w | _ => w end
  | HomeRendered => home_rendered w
  | StartResult r => render_resume r w
  | TapBack => back_click w
  | TapHome => home_click w
  | TapUpgrade => w
  | TapMood m =>
      if is_intro (view w) then on_page (with_mood m) w else w
  | TapTranscriptionToggle =>
      if is_intro (view w)
      then on_page (fun p => with_showTranscription (negb (showTranscription p)) p) w
      else w
  | TapVoice voice =>
      if is_intro (view w) then on_page (voice_click voice) w else w
  | TapStart =>
      if is_intro (view w) then renderQuestion w else w
  | TapFinish => finish_click w
  | TapContinue =>
      match view w with VPartTransition _ => renderQuestion w | _ => w end
  | TapSide s =>
      match view w with
      | VDebateSelection =>
          w |> on_page (with_debateSide (Some s)) |> renderDebateRecording
      | _ => w
      end
  | TapRecord now mic => tap_record now mic w
  | TapNext =>
      if has_widgets (view w) then
        match actionArea (widgets w) with ANext _ => goNext w | _ => w end
      else w
  | TapSeeResults =>
      if has_widgets (view w) then
        match actionArea (widgets w) with ASeeResults => showResults w | _ => w end
      else w
  | IntervalFired id now =>
      match intervals (env w) !! id with
      | Some RecorderTick => recorder_tick now w
      | Some (AutoAdvance countdown gen) => autoAdvance_tick id countdown gen w
      | None => w
      end
  | MediaStopped m =>
      if bool_decide (m ∈ stoppingMRs (env w)) then
        w |> on_env (fun e => with_stoppingMRs (stoppingMRs e ∖ {[m]}) e)
          |> mediaRecorder_onstop
      else w
  | RespondResult i r =>
      match pendingRespond (net w) !! i with
      | Some sub =>
          w |> on_net (fun n => with_pendingRespond (delete i (pendingRespond n)) n)
            |> handleRecording_resume sub r
      | None => w
      end
  | CompleteResult r => showResults_resume r w
  | TtsResult ok => playQuestion_resume ok w
  | AudioEnded a => pause a w
  | ClickRecord now => click_record now w
  | MicAnswered i mic now => mic_answered i mic now w
  end.

(** A run of the event loop. *)
Definition run (w : World) (es : list Event) : World := foldl step w es.

(** The client once the app has started and shows the home page. *)
Definition init : World :=
  {| page := {| sessionId := None; test := None; currentPartIndex := 0;
                currentIndex := 0; responses := []; state := idle;
                showTranscription := true; selectedVoice := None;
                mood := normal; recordingStartTime := None;
                autoAdvanceTimer := None; currentAudio := None;
                debateSide := None |};
     rec := {| mediaRecorder := None; stream := None; startTime := None;
               timerInterval := None; onTick := None; onStop := false;
               maxDuration := None |};
     env := {| intervals := ∅; openStreams := ∅; recordingMRs := ∅;
               stoppingMRs := ∅; playing := ∅; nextId := 1 |};
     net := {| pendingStart := 0; pendingRespond := []; pendingComplete := 0;
               pendingTts := 0; pendingHome := 0; calls := [];
               pendingMic := [] |};
     currentPage := route_home;
     view := VHome;
     widgets := fresh_widgets;
     domGen := 0;
     uncaught := 0;
     homeBuild := home_fetches |}.

(** A small exam used in examples. *)
Definition Q_ (s : string) : Question := {| q_question := s |}.

Definition sample_test : gmap string PartData :=
  <["1.1" := {| questions := [Q_ "a1"; Q_ "a2"; Q_ "a3"]; images := []; topic := None |}]>
  (<["1.2" := {| questions := [Q_ "b1"; Q_ "b2"; Q_ "b3"]; images := ["p.png"]; topic := None |}]>
  (<["2" := {| questions := [Q_ "c1"; Q_ "c2"; Q_ "c3"]; images := []; topic := None |}]>
  (<["3" := {| questions := []; images := []; topic := Some "T" |}]> ∅))).

Definition sample_start : Result StartOk :=
  Resolved {| session_id := "s1"; start_test := sample_test |}.

Definition answer (text : JS.str) (d : Q) : Result RespondOk :=
  Resolved {| r_transcription := text; r_duration := d |}.

(** ** PracticePage (single part, with the debate flow)

    The practice page drives the same recorder; here the recorder is
    followed only as far as the page observes it ([isRecording], the
    pending [onstop] event), and the home page fills the container as
    soon as the router is asked for it. *)

Module Practice.

Record Response : Type := {
  question : option string;
  transcription : JS.str;
  duration : Q
}.

Record DebateData : Type := { topic : option string }.

Record PracticePage : Type := {
  sessionId : option string;
  questions : list string;
  images : list string;
  partData : option DebateData;
  currentIndex : nat;
  part : string;
  responses : list Response;
  state : RecordingPhase;
  debateSide : option Side
}.

(** The response of [/api/sessions/start]; absent [questions] and
    [images] are empty lists, an absent [part_data] is [None]. *)
Record StartOk : Type := {
  session_id : string;
  start_questions : list string;
  start_images : list string;
  part_data : option DebateData
}.

Inductive View : Type :=
  | VHome
  | VLoading
  | VNoQuestions (part : string)       (* No questions available for Part .. *)
  | VStartFailed (message : string)
  | VQuestion (index total : nat) (text : option string)
  | VDebateSelection
  | VDebateRecording
  | VGenerating.

Inductive Hint : Type :=
  | TapToStart | TapToStop | Processing | MicDenied
  | RecordAgainOrContinue | TapToTryAgain.

Inductive Action : Type :=
  | AEmpty
  | ANext (isLast showFollowUp : bool)
  | AGetFeedback.

Inductive RecorderPhase : Type := RIdle | RRecording | RStopping.

Record Submission : Type := {
  sub_question : option string;
  sub_isDebate : bool;
  sub_gen : nat
}.

Record World : Type := {
  page : PracticePage;
  view : View;
  hint : Hint;
  transcriptionArea : Transcription;
  actionArea : Action;
  domGen : nat;
  recorder : RecorderPhase;
  pendingStart : nat;
  pendingRespond : list Submission;
  completeCalls : nat;
  uncaught : nat
}.

Definition with_page x (w : World) : World :=
  {| page := x; view := view w; hint := hint w;
     transcriptionArea := transcriptionArea w; actionArea := actionArea w;
     domGen := domGen w; recorder := recorder w;
     pendingStart := pendingStart w; pendingRespond := pendingRespond w;
     completeCalls := completeCalls w; uncaught := uncaught w |}.
Definition with_hint x (w : World) : World :=
  {| page := page w; view := view w; hint := x;
     transcriptionArea := transcriptionArea w; actionArea := actionArea w;
     domGen := domGen w; recorder := recorder w;
     pendingStart := pendingStart w; pendingRespond := pendingRespond w;
     completeCalls := completeCalls w; uncaught := uncaught w |}.
Definition with_transcriptionArea x (w : World) : World :=
  {| page := page w; view := view w; hint := hint w;
     transcriptionArea := x; actionArea := actionArea w;
     domGen := domGen w; recorder := recorder w;
     pendingStart := pendingStart w; pendingRespond := pendingRespond w;
     completeCalls := completeCalls w; uncaught := uncaught w |}.
Definition with_actionArea x (w : World) : World :=
  {| page := page w; view := view w; hint := hint w;
     transcriptionArea := transcriptionArea w; actionArea := x;
     domGen := domGen w; recorder := recorder w;
     pendingStart := pendingStart w; pendingRespond := pendingRespond w;
     completeCalls := completeCalls w; uncaught := uncaught w |}.
Definition with_recorder x (w : World) : World :=
  {| page := page w; view := view w; hint := hint w;
     transcriptionArea := transcriptionArea w; actionArea := actionArea w;
     domGen := domGen w; recorder := x;
     pendingStart := pendingStart w; pendingRespond := pendingRespond w;
     completeCalls := completeCalls w; uncaught := uncaught w |}.
Definition with_pendingStart x (w : World) : World :=
  {| page := page w; view := view w; hint := hint w;
     transcriptionArea := transcriptionArea w; actionArea := actionArea w;
     domGen := domGen w; recorder := recorder w;
     pendingStart := x; pendingRespond := pendingRespond w;
     completeCalls := completeCalls w; uncaught := uncaught w |}.
Definition with_pendingRespond x (w : World) : World :=
  {| page := page w; view := view w; hint := hint w;
     transcriptionArea := transcriptionArea w; actionArea := actionArea w;
     domGen := domGen w; recorder := recorder w;
     pendingStart := pendingStart w; pendingRespond := x;
     completeCalls := completeCalls w; uncaught := uncaught w |}.
Definition with_completeCalls x (w : World) : World :=
  {| page := page w; view := view w; hint := hint w;
     transcriptionArea := transcriptionArea w; actionArea := actionArea w;
     domGen := domGen w; recorder := recorder w;
     pendingStart := pendingStart w; pendingRespond := pendingRespond w;
     completeCalls := x; uncaught := uncaught w |}.
Definition with_uncaught x (w : World) : World :=
  {| page := page w; view := view w; hint := hint w;
     transcriptionArea := transcriptionArea w; actionArea := actionArea w;
     domGen := domGen w; recorder := recorder w;
     pendingStart := pendingStart w; pendingRespond := pendingRespond w;
     completeCalls := completeCalls w; uncaught := x |}.

Definition with_responses x (p : PracticePage) : PracticePage :=
  {| sessionId := sessionId p; questions := questions p; images := images p;
     partData := partData p; currentIndex := currentIndex p; part := part p;
     responses := x; state := state p; debateSide := debateSide p |}.
Definition with_state x (p : PracticePage) : PracticePage :=
  {| sessionId := sessionId p; questions := questions p; images := images p;
     partData := partData p; currentIndex := currentIndex p; part := part p;
     responses := responses p; state := x; debateSide := debateSide p |}.
Definition with_currentIndex x (p : PracticePage) : PracticePage :=
  {| sessionId := sessionId p; questions := questions p; images := images p;
     partData := partData p; currentIndex := x; part := part p;
     responses := responses p; state := state p; debateSide := debateSide p |}.
Definition with_debateSide x (p : PracticePage) : PracticePage :=
  {| sessionId := sessionId p; questions := questions p; images := images p;
     partData := partData p; currentIndex := currentIndex p; part := part p;
     responses := responses p; state := state p; debateSide := x |}.

Definition on_page (f : PracticePage -> PracticePage) (w : World) : World :=
  with_page (f (page w)) w.

(** [container.innerHTML = ...] *)
Definition set_innerHTML (v : View) (w : World) : World :=
  {| page := page w; view := v; hint := TapToStart;
     transcriptionArea := TEmpty; actionArea := AEmpty;
     domGen := S (domGen w); recorder := recorder w;
     pendingStart := pendingStart w; pendingRespond := pendingRespond w;
     completeCalls := completeCalls w; uncaught := uncaught w |}.

Definition has_widgets (v : View) : bool :=
  match v with VQuestion _ _ _ | VDebateRecording => true | _ => false end.

Definition write (gen : nat) (f : World -> World) (w : World) : World :=
  if bool_decide (gen = domGen w) && has_widgets (view w) then f w else w.

(** [render(container, params)] followed by [startSession] up to its
    request. *)
Definition render (part : option string) (w : World) : World :=
  let p := {| sessionId := sessionId (page w); questions := [];
              images := []; partData := None; currentIndex := 0;
              part := default "1.1" part; responses := []; state := idle;
              debateSide := None |} in
  w |> with_page p |> set_innerHTML VLoading
    |> with_pendingStart (S (pendingStart w)).

(** [renderQuestion(container)] *)
Definition renderQuestion (w : World) : World :=
  let q := questions (page w) !! currentIndex (page w) in
  set_innerHTML (VQuestion (currentIndex (page w)) (length (questions (page w))) q) w.

(** [startSession] after the request. *)
Definition startSession_resume (r : Result StartOk) (w : World) : World :=
  match pendingStart w with
  | O => w
  | S k =>
      let w := with_pendingStart k w in
      match r with
      | Resolved result =>
          let w := with_page
                     {| sessionId := Some (session_id result);
                        questions := start_questions result;
                        images := start_images result;
                        partData := part_data result;
                        currentIndex := currentIndex (page w);
                        part := part (page w);
                        responses := responses (page w);
                        state := state (page w);
                        debateSide := debateSide (page w) |} w in
          if bool_decide (part (page w) = "3") && bool_decide (is_Some (partData (page w)))
          then set_innerHTML VDebateSelection w
          else if bool_decide (length (questions (page w)) = 0)
          then set_innerHTML (VNoQuestions (part (page w))) w
          else renderQuestion w
      | Rejected message => set_innerHTML (VStartFailed message) w
      end
  end.

(** The click handler of [setupRecordButton], taken together with the
    result [mic] of the [Recorder.start] it awaits ([true] when the
    recorder reports success); what happens between the request and
    its answer is not followed on this page. *)
Definition record_click (mic : bool) (w : World) : World :=
  let gen := domGen w in
  match state (page w) with
  | recording =>
      w |> with_recorder (match recorder w with RRecording => RStopping | r => r end)
        |> on_page (with_state processing)
        |> write gen (with_hint Processing)
  | processing => w
  | idle =>
      if mic then
        w |> with_recorder RRecording
          |> on_page (with_state recording)
          |> write gen (with_hint TapToStop)
      else write gen (with_hint MicDenied) w
  end.

Definition handleRecording_catch (gen : nat) (message : string) (w : World)
    : World :=
  w |> write gen (with_transcriptionArea (TFailed message))
    |> on_page (with_state idle)
    |> write gen (with_hint TapToTryAgain).

(** [handleRecording(blob, container)] up to [await API.postForm]. *)
Definition handleRecording (w : World) : World :=
  if has_widgets (view w) then
    let gen := domGen w in
    let isDebate := bool_decide (part (page w) = "3") in
    let w := write gen (with_transcriptionArea (TLoading true)) w in
    let questionText : option (option string) :=
      if isDebate then topic <$> partData (page w)
      else Some (questions (page w) !! currentIndex (page w)) in
    match questionText with
    | Some questionText =>
        with_pendingRespond
          (pendingRespond w ++ [{| sub_question := questionText;
                                   sub_isDebate := isDebate;
                                   sub_gen := gen |}])%list w
    | None => handleRecording_catch gen "Cannot read properties of null (reading 'topic')" w
    end
  else with_uncaught (S (uncaught w)) w.

(** [handleRecording] after the request. *)
Definition handleRecording_resume (sub : Submission) (r : Result RespondOk)
    (w : World) : World :=
  let gen := sub_gen sub in
  match r with
  | Resolved result =>
      let w := on_page (fun p => with_responses
                 (responses p ++
                  [{| question := sub_question sub;
                      transcription := r_transcription result;
                      duration := r_duration result |}])%list p) w in
      let words := words (r_transcription result) in
      let wpm := wpm words (r_duration result) in
      let w := write gen (with_transcriptionArea
                 (TCard (r_transcription result) words wpm (r_duration result))) w in
      let w :=
        if sub_isDebate sub then write gen (with_actionArea AGetFeedback) w
        else
          let isLast := bool_decide
                          (Z.of_nat (length (questions (page w))) - 1
                           <= Z.of_nat (currentIndex (page w)))%Z in
          let showFollowUp := bool_decide (part (page w) = "2") in
          write gen (with_actionArea (ANext isLast showFollowUp)) w in
      w |> on_page (with_state idle)
        |> write gen (with_hint RecordAgainOrContinue)
  | Rejected message => handleRecording_catch gen message w
  end.

(** [showResults(container)] up to its request. *)
Definition showResults (w : World) : World :=
  w |> set_innerHTML VGenerating |> with_completeCalls (S (completeCalls w)).

(** The click handler on [#next-btn]; [isLast] was fixed when the button
    was made. *)
Definition next_click (isLast : bool) (w : World) : World :=
  if isLast then showResults w
  else w |> on_page (fun p => p |> with_currentIndex (S (currentIndex p))
                               |> with_state idle)
         |> renderQuestion.

Inductive Event : Type :=
  | StartResult (r : Result StartOk)
  | TapRecord (mic : bool)
  | MediaStopped
  | RespondResult (i : nat) (r : Result RespondOk)
  | TapNext
  | TapSide (s : Side)
  | TapBack.

Definition step (w : World) (e : Event) : World :=
  match e with
  | StartResult r => startSession_resume r w
  | TapRecord mic => if has_widgets (view w) then record_click mic w else w
  | MediaStopped =>
      match recorder w with
      | RStopping => w |> with_recorder RIdle |> handleRecording
      | _ => w
      end
  | RespondResult i r =>
      match pendingRespond w !! i with
      | Some sub =>
          w |> with_pendingRespond (delete i (pendingRespond w))
            |> handleRecording_resume sub r
      | None => w
      end
  | TapNext =>
      if has_widgets (view w) then
        match actionArea w with
        | ANext isLast _ => next_click isLast w
        | AGetFeedback => showResults w
        | AEmpty => w
        end
      else w
  | TapSide s =>
      match view w with
      | VDebateSelection =>
          w |> on_page (with_debateSide (Some s)) |> set_innerHTML VDebateRecording
      | _ => w
      end
  | TapBack =>
      match view w with
      | VHome | VLoading | VGenerating => w
      | VQuestion _ _ _ | VDebateRecording =>
          w |> with_recorder (match recorder w with RRecording => RStopping | r => r end)
            |> set_innerHTML VHome
      | _ => set_innerHTML VHome w
      end
  end.

Definition run (w : World) (es : list Event) : World := foldl step w es.

(** The practice page just opened for [part] from the home page. *)
Definition open (part : option string) : World :=
  render part
    {| page := {| sessionId := None; questions := []; images := [];
                  partData := None; currentIndex := 0; part := "1.1";
                  responses := []; state := idle; debateSide := None |};
       view := VHome; hint := TapToStart; transcriptionArea := TEmpty;
       actionArea := AEmpty; domGen := 0; recorder := RIdle;
       pendingStart := 0; pendingRespond := []; completeCalls := 0;
       uncaught := 0 |}.

(** What event [e] appends to [responses], the entries appended along
    a run, and the number of submissions that succeed along it. *)
Definition pushed (w : World) (e : Event) : list Response :=
  match e with
  | RespondResult i (Resolved result) =>
      match pendingRespond w !! i with
      | Some sub =>
          [{| question := sub_question sub;
              transcription := r_transcription result;
              duration := r_duration result |}]
      | None => []
      end
  | _ => []
  end.

Fixpoint appended (w : World) (es : list Event) : list Response :=
  match es with
  | [] => []
  | e :: es' => (pushed w e ++ appended (step w e) es')%list
  end.

Fixpoint successes (w : World) (es : list Event) : nat :=
  match es with
  | [] => 0
  | e :: es' =>
      match e with
      | RespondResult i (Resolved _) =>
          if bool_decide (is_Some (pendingRespond w !! i)) then 1 else 0
      | _ => 0
      end + successes (step w e) es'
  end.

End Practice.

(** ** Recorder utilities *)

(** [str.padStart(2, '0')] *)
Definition padStart2 (s : string) : string :=
  match String.length s with
  | 0 => "00"
  | 1 => "0" +:+ s
  | _ => s
  end.

(** [Recorder.formatTime(seconds)] on an integer number of seconds:
    [Math.floor(seconds / 60)] and the remainder [seconds % 60], which
    takes the sign of [seconds]. *)
Definition formatTime (seconds : Z) : string :=
  let m := (seconds / 60)%Z in
  let s := Z.rem seconds 60 in
  pretty m +:+ ":" +:+ padStart2 (pretty s).

(** [Recorder.getElapsed()] at clock [now]. *)
Definition Recorder_getElapsed (now : Z) (w : World) : Z :=
  match startTime (rec w) with
  | None | Some 0%Z => 0
  | Some t => ((now - t) / 1000)%Z
  end.

(** ** The uploaded file name *)

(** The candidates of [Recorder.start], in the order they are tried. *)
Definition mimeTypes : list string :=
  ["audio/webm;codecs=opus"; "audio/webm"; "audio/ogg;codecs=opus"; "audio/mp4"].

(** The loop of [Recorder.start] over [mimeTypes]: the first supported
    candidate, or the empty string. *)
Definition pick_mimeType (isTypeSupported : string -> bool) : string :=
  default EmptyString (head (filter (fun t => isTypeSupported t = true) mimeTypes)).

(** [this.mimeType = mimeType || 'audio/webm'] *)
Definition Recorder_mimeType (isTypeSupported : string -> bool) : string :=
  let mimeType := pick_mimeType isTypeSupported in
  if bool_decide (mimeType = EmptyString) then "audio/webm" else mimeType.

(** [s.split(';')[0]] *)
Fixpoint before_semicolon (s : string) : string :=
  match s with
  | EmptyString => EmptyString
  | String c s' =>
      if Ascii.eqb c (Ascii.ascii_of_nat 59) then EmptyString else String c (before_semicolon s')
  end.

(** [extMap] of [handleRecording] (own keys only). *)
Definition extMap : gmap string string :=
  <["audio/webm" := ".webm"]>
  (<["audio/ogg" := ".ogg"]>
  (<["audio/mp4" := ".m4a"]>
  (<["audio/mpeg" := ".mp3"]> ∅))).

(** [extMap[(Recorder.mimeType || '').split(';')[0]] || '.ogg'] *)
Definition recording_ext (mimeType : string) : string :=
  default ".ogg" (extMap !! before_semicolon mimeType).

(** The file name given to the audio part of the form. *)
Definition recording_name (mimeType : string) : string :=
  "recording" +:+ recording_ext mimeType.

(** ** API client *)

(** What [resp.json()] yields: a parse failure, or a value together
    with its [detail] field when it has one that is a string. *)
Inductive Body (A : Type) : Type :=
  | NotJson
  | Json (detail : option string) (value : A).
Arguments NotJson {A}.
Arguments Json {A} detail value.

(** What [fetch] yields: a network failure, or a response. *)
Inductive Fetched (A : Type) : Type :=
  | NetworkError (message : string)
  | Response (ok : bool) (status : nat) (body : Body A).
Arguments NetworkError {A} message.
Arguments Response {A} ok status body.

Definition syntax_error : string := "Unexpected end of JSON input".

(** [API.request(path, options)] after [fetch] has settled. *)
Definition API_request {A : Type} (resp : Fetched A) : Result A :=
  match resp with
  | NetworkError message => Rejected message
  | Response false status body =>
      let detail :=
        match body with
        | NotJson => Some "Request failed"
        | Json detail _ => detail
        end in
      Rejected
        (match detail with
         | Some d => if bool_decide (d = EmptyString)
                     then "HTTP " +:+ pretty status else d
         | None => "HTTP " +:+ pretty status
         end)
  | Response true _ NotJson => Rejected syntax_error
  | Response true _ (Json _ value) => Resolved value
  end.

(** The [Content-Type] header [API.request] adds, by the kind of body. *)
Definition content_type (bodyIsFormData : bool) : option string :=
  if bodyIsFormData then None else Some "application/json".

(** ** Preparation timer of the cue-card practice

    [PracticePage.startPrepTimer] of the practice page with topics and
    cue cards, with the closure variable [seconds] of each live timer. *)

Module Prep.

Record State : Type := {
  prepTimer : option nat;          (* [this.prepTimer] *)
  timers : gmap nat Z;             (* live intervals and their [seconds] *)
  nextTimer : nat;
  prepTime : option string;        (* text of [#prep-time], if the prep area is filled *)
  recorderHidden : bool            (* class [hidden] on [#recorder-area] *)
}.

(** [renderQuestion] for a cue card, before [startPrepTimer]. *)
Definition rendered (prepTimer : option nat) (timers : gmap nat Z)
    (nextTimer : nat) : State :=
  {| prepTimer := prepTimer; timers := timers; nextTimer := nextTimer;
     prepTime := None; recorderHidden := true |}.

(** The closure [endPrep]. *)
Definition endPrep (p : State) : State :=
  {| prepTimer := None;
     timers := match prepTimer p with
               | Some t => delete t (timers p)
               | None => timers p
               end;
     nextTimer := nextTimer p;
     prepTime := None;
     recorderHidden := false |}.

(** [startPrepTimer(container)] *)
Definition startPrepTimer (p : State) : State :=
  {| prepTimer := Some (nextTimer p);
     timers := <[nextTimer p := 60%Z]> (timers p);
     nextTimer := S (nextTimer p);
     prepTime := Some "1:00";
     recorderHidden := recorderHidden p |}.

(** The interval callback of [startPrepTimer]. *)
Definition tick (id : nat) (p : State) : State :=
  match timers p !! id with
  | None => p
  | Some seconds =>
      let seconds := (seconds - 1)%Z in
      let p := {| prepTimer := prepTimer p;
                  timers := <[id := seconds]> (timers p);
                  nextTimer := nextTimer p;
                  prepTime := prepTime p;
                  recorderHidden := recorderHidden p |} in
      if (seconds <=? 0)%Z then endPrep p
      else
        {| prepTimer := prepTimer p; timers := timers p;
           nextTimer := nextTimer p;
           prepTime := match prepTime p with
                       | Some _ => Some (formatTime seconds)
                       | None => None
                       end;
           recorderHidden := recorderHidden p |}
  end.

(** A click on [#skip-prep], which exists while the prep area is filled. *)
Definition skip (p : State) : State :=
  match prepTime p with
  | Some _ => endPrep p
  | None => p
  end.

(** The part of the back handler that concerns the timer. *)
Definition back (p : State) : State :=
  {| prepTimer := None;
     timers := match prepTimer p with
               | Some t => delete t (timers p)
               | None => timers p
               end;
     nextTimer := nextTimer p;
     prepTime := prepTime p;
     recorderHidden := recorderHidden p |}.

(** [n] firings of timer [id]. *)
Fixpoint ticks (n : nat) (id : nat) (p : State) : State :=
  match n with
  | O => p
  | S n' => ticks n' id (tick id p)
  end.

End Prep.

(** ** Results screen *)

(** [Math.round(scores.x || 0)], the number printed for a score. *)
Definition shown_score (score : option Q) : Z := JS.round (default 0%Q score).

(** The head of the results screen of [showResults]: the overall score
    as printed, and the badge beside it. *)
Definition results_header (r : CompleteOk) : Z * string :=
  (shown_score (overall r), cefrBadge (overall r)).

Local Open Scope list_scope.

(** ** Properties stated about the flow, and the situations used in examples *)

(** The double [x] is a zero, an infinity or a finite number of sign
    [s] ([true] for minus). *)
Definition has_sign (s : bool) (x : JS.double) : Prop :=
  x = S754_zero s \/ x = S754_infinity s \/ exists m e, x = S754_finite s m e.

(** The entry that event [e] adds to [responses] in world [w]. *)
Definition pushed (w : World) (e : Event) : list ResponseRecord :=
  match e with
  | RespondResult i (Resolved result) =>
      match pendingRespond (net w) !! i with
      | Some sub =>
          [{| part := sub_part sub; question := sub_question sub;
              transcription := r_transcription result;
              duration := r_duration result |}]
      | None => []
      end
  | _ => []
  end.

(** The entries added along a run. *)
Fixpoint appended (w : World) (es : list Event) : list ResponseRecord :=
  match es with
  | [] => []
  | e :: es' => (pushed w e ++ appended (step w e) es')%list
  end.

(** The number of submissions that succeed along a run. *)
Fixpoint successes (w : World) (es : list Event) : nat :=
  match es with
  | [] => 0
  | e :: es' =>
      match e with
      | RespondResult i (Resolved _) =>
          if bool_decide (is_Some (pendingRespond (net w) !! i)) then 1 else 0
      | _ => 0
      end + successes (step w e) es'
  end.

(** The screens with a [#finish-btn]. *)
Definition has_finish (v : View) : bool :=
  match v with
  | VQuestion _ _ _ _ | VDebateRecording | VDebateSelection
  | VPartTransition _ => true
  | _ => false
  end.

(** Finish as a jump to finalization: the scoring request for the
    session is issued and the screen is the one of [showResults]. *)
Definition finish_finalizes (w : World) : Prop :=
  responses (page w) <> [] ->
  has_finish (view w) = true ->
  view (step w TapFinish) = VGenerating /\
  calls (net (step w TapFinish))
  = (calls (net w) ++ [PostComplete (sessionId (page w)) (mood (page w))])%list.

Definition short_test : gmap string PartData :=
  <["1.1" := {| questions := [Q_ "a1"]; images := []; topic := None |}]>
  (<["1.2" := {| questions := [Q_ "b1"; Q_ "b2"; Q_ "b3"]; images := []; topic := None |}]>
  (<["2" := {| questions := [Q_ "c1"]; images := []; topic := None |}]>
  (<["3" := {| questions := []; images := []; topic := Some "T" |}]> ∅))).

(** Two answers given, the second prompt of part 1.2 on screen. *)
Definition two_answers_mid_part_2 : World :=
  run init
    [OpenMockTest;
     StartResult (Resolved {| session_id := "s1"; start_test := short_test |});
     TapStart;
     TapRecord 0 true; TapRecord 6000 true; MediaStopped 2;
     RespondResult 0 (answer [104]%N 6); TapNext; TapContinue;
     TapRecord 20000 true; TapRecord 26000 true; MediaStopped 6;
     RespondResult 0 (answer [105]%N 6); TapNext].

(** No timer is live, no microphone stream is open, no audio plays. *)
Definition released (w : World) : Prop :=
  intervals (env w) = ∅ /\ openStreams (env w) = ∅ /\ playing (env w) = ∅.

(** A question is on screen and the examiner voice is reading it. *)
Definition voice_reading : World :=
  run init
    [OpenMockTest; StartResult sample_start; TapVoice "sarah"; TapStart;
     TtsResult true].

(** The engine stays at the part it found empty: the part index is kept
    and no event brings a question on screen. *)
Definition stops_at_empty_part (w : World) : Prop :=
  currentQuestions w = [] ->
  currentPartIndex (page (renderQuestion w)) = currentPartIndex (page w) /\
  forall e, has_widgets (view (step (renderQuestion w) e)) = false.

Definition test_without_part_1_2 : gmap string PartData :=
  <["1.1" := {| questions := [Q_ "a1"]; images := []; topic := None |}]>
  (<["1.2" := {| questions := []; images := []; topic := None |}]>
  (<["2" := {| questions := [Q_ "c1"]; images := []; topic := None |}]>
  (<["3" := {| questions := []; images := []; topic := Some "T" |}]> ∅))).

(** Part 1.1 answered; the transition screen to part 1.2, which has no
    questions, is showing. *)
Definition before_empty_part : World :=
  run init
    [OpenMockTest;
     StartResult (Resolved {| session_id := "s1";
                              start_test := test_without_part_1_2 |});
     TapStart;
     TapRecord 0 true; TapRecord 6000 true; MediaStopped 2;
     RespondResult 0 (answer [104]%N 6); TapNext].

(** Nothing of an earlier exam can still redraw the screen: no respond
    or complete request is in flight and no auto-advance countdown is
    running. *)
Definition quiet (w : World) : Prop :=
  pendingRespond (net w) = [] /\ pendingComplete (net w) = 0 /\
  forall id countdown gen,
    intervals (env w) !! id <> Some (AutoAdvance countdown gen).

(** After a start refused on the daily limit no screen with a prompt
    and a record button shows, whatever happens next short of opening
    the mock test anew. *)
Definition limit_never_prompts (w : World) (message : string) : Prop :=
  pendingStart (net w) = 1 ->
  JS.includes message "Daily mock limit" = true ->
  forall es, Forall (fun e => e <> OpenMockTest) es ->
    has_widgets (view (run (step w (StartResult (Rejected message))) es))
    = false.

(** An answer was handed in, the exam was left before its transcript
    arrived, and the mock test was opened again. *)
Definition reopened_mid_upload : World :=
  run init
    [OpenMockTest; StartResult sample_start; TapStart;
     TapRecord 0 true; TapRecord 6000 true; MediaStopped 2;
     TapBack; HomeRendered; OpenMockTest].

(** The transcript of the earlier exam arrives, its countdown runs out,
    and the candidate taps through the screens that follow. *)
Definition late_transcript : list Event :=
  [RespondResult 0 (answer [104]%N 6);
   IntervalFired 4 7000; IntervalFired 4 8000; IntervalFired 4 9000;
   IntervalFired 4 10000; IntervalFired 4 11000;
   TapContinue; TapContinue; TapContinue; TapSide side_for].

(** The state kept after a start that failed on the daily limit. *)
Definition limit_screen (message : string) (w : World) : Prop :=
  (view w = VStartFailed true message \/ view w = VHome) /\
  pendingStart (net w) = 0 /\ quiet w.

(** [start] refuses while the recorder is recording: it reports failure
    and changes nothing. *)
Definition start_refused_when_recording (w : World) : Prop :=
  Recorder_isRecording w = true ->
  forall gen maxDur mic now,
    (Recorder_start gen maxDur mic now w).1 = false /\
    env (Recorder_start gen maxDur mic now w).2 = env w.

(** The recorder just started on a fresh client. *)
Definition first_recording : World := (Recorder_start 0 None true 0 init).2.

(** Two taps on the record button of the first question before the
    microphone has answered the first, then both answers. *)
Definition double_tap : World :=
  run init
    [OpenMockTest; StartResult sample_start; TapStart;
     ClickRecord 0; ClickRecord 100;
     MicAnswered 0 true 2000; MicAnswered 0 true 2100].

(** A record tap during the auto-advance countdown, the countdown
    running out, and a record tap on the next question. *)
Definition tap_across_auto_advance : World :=
  run init
    [OpenMockTest; StartResult sample_start; TapStart;
     TapRecord 0 true; TapRecord 6000 true; MediaStopped 2;
     RespondResult 0 (answer [104]%N 6);
     TapRecord 7000 true;
     IntervalFired 4 8000; IntervalFired 4 9000; IntervalFired 4 10000;
     IntervalFired 4 11000; IntervalFired 4 12000;
     TapRecord 13000 true].

(** In a session whose prompts are all different, no two entries are
    for the same prompt. *)
Definition one_entry_per_prompt (w : Practice.World) : Prop :=
  NoDup (Practice.question <$> Practice.responses (Practice.page w)).

Definition two_prompts : Practice.StartOk :=
  {| Practice.session_id := "p1"; Practice.start_questions := ["q1"; "q2"];
     Practice.start_images := []; Practice.part_data := None |}.

(** The first prompt answered, then answered again. *)
Definition answered_twice : Practice.World :=
  Practice.run (Practice.open (Some "1.1"))
    [Practice.StartResult (Resolved two_prompts);
     Practice.TapRecord true; Practice.TapRecord true; Practice.MediaStopped;
     Practice.RespondResult 0 (answer [104]%N 3);
     Practice.TapRecord true; Practice.TapRecord true; Practice.MediaStopped;
     Practice.RespondResult 0 (answer [105]%N 4)].

Definition debate_only : gmap string PartData :=
  <["3" := {| questions := []; images := []; topic := Some "T" |}]> ∅.

(** The debate of a mock test answered, then answered again. *)
Definition debate_answered_twice : World :=
  run init
    [OpenMockTest;
     StartResult (Resolved {| session_id := "s1"; start_test := debate_only |});
     TapStart; TapContinue; TapContinue; TapContinue; TapSide side_for;
     TapRecord 0 true; TapRecord 6000 true; MediaStopped 2;
     RespondResult 0 (answer [104]%N 6);
     TapRecord 10000 true; TapRecord 16000 true; MediaStopped 5;
     RespondResult 0 (answer [105]%N 6)].

Definition opening : list Event :=
  [StartResult (Resolved {| session_id := "s1"; start_test := short_test |});
   TapStart].

Definition answering : list Event :=
  [TapRecord 0 true; TapRecord 6000 true; MediaStopped 2;
   RespondResult 0 (answer [104]%N 6); TapNext; TapContinue;
   TapRecord 20000 true; TapRecord 26000 true; MediaStopped 6;
   RespondResult 0 (answer [105]%N 6); TapNext].

(** A question on screen and a recording two seconds old. *)
Definition recording_since_0 : World :=
  run init [OpenMockTest; StartResult sample_start; TapStart; TapRecord 0 true].

(** The first answer handed in, its request still in flight. *)
Definition awaiting_transcript : World :=
  run recording_since_0 [TapRecord 6000 true; MediaStopped 2].

(** ** Further notions used in the properties *)

(** The decimal digit [d] as a character, and a number below 100 as two
    digits. *)
Definition digit_char (d : Z) : Ascii.ascii :=
  Ascii.ascii_of_nat (48 + Z.to_nat d).

Definition two_digits (r : Z) : string :=
  String (digit_char (r / 10)) (String (digit_char (r mod 10)) EmptyString).

(** Whether character [c] occurs in [s]. *)
Fixpoint occurs (c : Ascii.ascii) (s : string) : bool :=
  match s with
  | EmptyString => false
  | String a s' => Ascii.eqb c a || occurs c s'
  end.

Definition ticks (t : nat) (nows : list Z) : list Event :=
  IntervalFired t <$> nows.

Definition counting (t : nat) (c : Z) (gen : nat) (w : World) : World :=
  w |> on_env (fun e => with_intervals (<[t := AutoAdvance c gen]> (intervals e)) e)
    |> write gen (with_actionArea (ANext c)).

Definition armed (t : nat) (c : Z) (gen : nat) (w : World) : Prop :=
  autoAdvanceTimer (page w) = Some t /\
  intervals (env w) !! t = Some (AutoAdvance c gen) /\
  (gen = domGen w -> has_widgets (view w) = true ->
   actionArea (widgets w) = ANext c).

Definition ends_recording (e : Event) : bool :=
  match e with
  | TapRecord _ _ | ClickRecord _ | MicAnswered _ _ _ | TapBack | TapFinish =>
      true
  | _ => false
  end.

Definition limit_reached (now : Z) (w : World) : bool :=
  match maxDuration (rec w) with
  | Some d => (d <=? (now - default 0 (startTime (rec w))) / 1000)%Z
  | None => false
  end.

Definition is_complete (c : ApiCall) : bool :=
  match c with PostComplete _ _ => true | _ => false end.

Definition scoring_calls (w : World) : nat :=
  length (List.filter is_complete (calls (net w))).

Definition tame (w w' : World) : Prop :=
  currentPartIndex (page w) <= 3 ->
  currentPartIndex (page w') <= 3 /\ scoring_calls w' = scoring_calls w.

Definition is_tts (c : ApiCall) : bool :=
  match c with PostTts _ _ => true | _ => false end.

(** No examiner voice chosen, nothing requested from the speech
    service and nothing playing. *)
Definition silent (w : World) : Prop :=
  selectedVoice (page w) = None /\
  currentAudio (page w) = None /\
  pendingTts (net w) = 0 /\
  playing (env w) = ∅ /\
  List.filter is_tts (calls (net w)) = [].

Definition picks_voice (e : Event) : bool :=
  match e with TapVoice _ => true | _ => false end.

(** The screens of the exam proper. *)
Definition exam_screen (v : View) : bool :=
  match v with
  | VQuestion _ _ _ _ | VDebateSelection | VDebateRecording
  | VPartTransition _ | VGenerating => true
  | _ => false
  end.

(** The place in the exam: part, then prompt within the part. *)
Definition position (w : World) : nat * nat :=
  (currentPartIndex (page w), currentIndex (page w)).

(** One move: stay, the next prompt of the part, or the start of the
    next part. *)
Definition advance (p p' : nat * nat) : Prop :=
  p' = p \/ p' = (p.1, S p.2) \/ p' = (S p.1, 0).

(** Lexicographic order on places. *)
Definition not_before (p p' : nat * nat) : Prop :=
  p.1 < p'.1 \/ (p.1 = p'.1 /\ p.2 <= p'.2).

Definition reopens (e : Event) : bool :=
  match e with OpenMockTest => true | _ => false end.

Definition is_respond (c : ApiCall) : bool :=
  match c with PostRespond _ _ _ _ => true | _ => false end.

Definition respond_calls (w : World) : nat :=
  length (List.filter is_respond (calls (net w))).

(** Responses held, uploads in flight, uploads sent so far. *)
Definition ledger (w : World) : nat * nat * nat :=
  (length (responses (page w)), length (pendingRespond (net w)), respond_calls w).

Definition backed (w : World) : Prop :=
  length (responses (page w)) + length (pendingRespond (net w)) <= respond_calls w.

(** A side is only held in the debate part, and the screen that asks
    for a side is only up in the debate part while none is held. *)
Definition debate_inv (w : World) : Prop :=
  (is_Some (debateSide (page w)) -> currentPartIndex (page w) = 3) /\
  (view w = VDebateSelection ->
   debateSide (page w) = None /\ currentPartIndex (page w) = 3).

Definition keeps_side (w w' : World) : Prop :=
  debate_inv w ->
  debate_inv w' /\
  forall s, debateSide (page w) = Some s -> debateSide (page w') = Some s.

(** An exam that is only a debate, up to the choice of a side. *)
Definition side_taken : list Event :=
  [OpenMockTest;
   StartResult (Resolved {| session_id := "s1"; start_test := debate_only |});
   TapStart; TapContinue; TapContinue; TapContinue; TapSide side_for].

(** What the practice page shows exists: the question on screen is the
    one at the current index, a Next button that is not the last one
    has a question to go to, and while the session is being started no
    question is up. *)
Definition practice_shown_ok (w : Practice.World) : Prop :=
  (forall i n t, Practice.view w = Practice.VQuestion i n t ->
     i = Practice.currentIndex (Practice.page w) /\
     n = length (Practice.questions (Practice.page w)) /\
     t = Practice.questions (Practice.page w) !! i /\ i < n) /\
  (forall b, Practice.actionArea w = Practice.ANext false b ->
     S (Practice.currentIndex (Practice.page w))
     < length (Practice.questions (Practice.page w))) /\
  Practice.pendingStart w <= 1 /\
  (Practice.pendingStart w = 1 ->
     Practice.view w = Practice.VLoading /\
     Practice.currentIndex (Practice.page w) = 0).

(** What decides the prompt of an answer: the screen, the test and the
    place in it. *)
Definition screen (w : World)
    : View * option (gmap string PartData) * nat * nat :=
  (view w, test (page w), currentPartIndex (page w), currentIndex (page w)).

(** The screen agrees with the place in the exam: a question screen
    is for the current part, which is not the debate, and shows the
    prompt at the current index; the debate screens are up in the
    debate part only. *)
Definition screen_ok (w : World) : Prop :=
  (forall p i n q, view w = VQuestion p i n q ->
     p = currentPart w /\ p <> Some "3" /\ i = currentIndex (page w) /\
     q_question <$> (currentQuestions w !! i) = Some q) /\
  (view w = VDebateRecording -> currentPart w = Some "3") /\
  (view w = VDebateSelection -> currentPart w = Some "3").

(** * Theorems *)

Lemma round_nearest (q : Q) :
  (inject_Z (JS.round q) - (1 # 2) <= q /\ q < inject_Z (JS.round q) + (1 # 2))%Q.
Proof.
  unfold JS.round.
  pose proof (Qfloor_le (q + (1 # 2))) as Hle.
  pose proof (Qlt_floor (q + (1 # 2))) as Hlt.
  rewrite inject_Z_plus in Hlt. change (inject_Z 1) with 1%Q in Hlt.
  split; lra.
Qed.

Lemma split_go_count (s : JS.str) : forall (piece : JS.str) (inSep : bool),
  (inSep = true -> piece = []) ->
  length (filter (fun w : JS.str => 0 < length w) (JS.split_go piece inSep s))
  = count_tokens (bool_decide (piece = [])) s + (if bool_decide (piece = []) then 0 else 1).
Proof.
  induction s as [|c s IH]; intros piece inSep Hsep; cbn [JS.split_go count_tokens].
  - destruct piece as [|a piece].
    + rewrite filter_cons_False by (simpl; lia). done.
    + rewrite filter_cons_True by (simpl; lia). done.
  - destruct (JS.is_space c) eqn:Hc.
    + destruct inSep.
      * rewrite (Hsep eq_refl), IH by done. done.
      * destruct piece as [|a piece].
        -- rewrite filter_cons_False by (simpl; lia). rewrite IH by done. done.
        -- rewrite filter_cons_True by (simpl; lia). cbn [length]. rewrite IH by done.
           rewrite bool_decide_eq_true_2 by done.
           rewrite bool_decide_eq_false_2 by done. lia.
    + rewrite IH by done.
      rewrite (bool_decide_eq_false_2 (piece ++ [c] = [])) by (destruct piece; done).
      destruct piece; [rewrite bool_decide_eq_true_2 by done|rewrite bool_decide_eq_false_2 by done]; lia.
Qed.

Lemma words_tokens s : words s = tokens s.
Proof. unfold words, tokens, JS.split_ws. rewrite split_go_count by done. simpl. lia. Qed.

(** C10. A [null] score gives no badge; a numeric score is rounded to
    the nearest integer (halves upwards) and the badge is C1 from 65,
    B2 from 51, B1 from 38, and Below B1 under 38. *)
Theorem cefrBadge_thresholds (score : Q) :
  cefrBadge None = EmptyString /\
  (inject_Z (JS.round score) - (1 # 2) <= score
   /\ score < inject_Z (JS.round score) + (1 # 2))%Q /\
  ((65 <= JS.round score)%Z -> cefrBadge (Some score) = badge_span "c1" "C1") /\
  ((51 <= JS.round score < 65)%Z -> cefrBadge (Some score) = badge_span "b2" "B2") /\
  ((38 <= JS.round score < 51)%Z -> cefrBadge (Some score) = badge_span "b1" "B1") /\
  ((JS.round score < 38)%Z ->
     cefrBadge (Some score) = badge_span "below-b1" "Below B1").
Proof.
  split; [reflexivity|]. split; [apply round_nearest|].
  unfold cefrBadge. generalize (JS.round score) as r. intros r.
  repeat split; intros H.
  - destruct (Z.leb_spec 65 r); [reflexivity|lia].
  - destruct (Z.leb_spec 65 r); [lia|].
    destruct (Z.leb_spec 51 r); [reflexivity|lia].
  - destruct (Z.leb_spec 65 r); [lia|].
    destruct (Z.leb_spec 51 r); [lia|].
    destruct (Z.leb_spec 38 r); [reflexivity|lia].
  - destruct (Z.leb_spec 65 r); [lia|].
    destruct (Z.leb_spec 51 r); [lia|].
    destruct (Z.leb_spec 38 r); [lia|reflexivity].
Qed.

Lemma cefrBadge_thresholds_witness :
  cefrBadge (Some (129 # 2)) = badge_span "c1" "C1" /\
  cefrBadge (Some (75 # 2)) = badge_span "b1" "B1".
Proof.
  split.
  - apply (cefrBadge_thresholds (129 # 2)). vm_compute. discriminate.
  - apply (cefrBadge_thresholds (75 # 2)). vm_compute. split; [discriminate|reflexivity].
Defined.

(** **** Signs of rounded results *)

Lemma shr_1_nonneg r : (0 <= shr_m r)%Z -> (0 <= shr_m (shr_1 r))%Z.
Proof. destruct r as [[|[p|p|]|p] ? ?]; cbn; lia. Qed.

Lemma iter_shr_1_nonneg (p : positive) : forall r,
  (0 <= shr_m r)%Z -> (0 <= shr_m (SpecFloat.iter_pos shr_1 p r))%Z.
Proof.
  induction p as [p IH|p IH|]; intros r H; cbn.
  - apply IH, IH. by apply shr_1_nonneg.
  - by apply IH, IH.
  - by apply shr_1_nonneg.
Qed.

Lemma shr_fexp_nonneg m e l :
  (0 <= m)%Z -> (0 <= shr_m (shr_fexp JS.prec JS.emax m e l).1)%Z.
Proof.
  intros H. unfold shr_fexp, shr.
  assert (0 <= shr_m (shr_record_of_loc m l))%Z by (by destruct l as [|[]]).
  destruct (_ - e)%Z; cbn; [done| |done]. by apply iter_shr_1_nonneg.
Qed.

Lemma round_nearest_even_nonneg m l :
  (0 <= m)%Z -> (0 <= round_nearest_even m l)%Z.
Proof. intros H. destruct l as [|[]]; cbn; [done| |done|lia]. destruct (Z.even m); lia. Qed.

Lemma binary_round_aux_sign s m e l :
  (0 <= m)%Z -> has_sign s (binary_round_aux JS.prec JS.emax s m e l).
Proof.
  intros H. unfold binary_round_aux.
  pose proof (shr_fexp_nonneg m e l H) as H1.
  destruct (shr_fexp JS.prec JS.emax m e l) as [r1 e1]. cbn in H1.
  pose proof (shr_fexp_nonneg _ e1 loc_Exact
                (round_nearest_even_nonneg _ (loc_of_shr_record r1) H1)) as H2.
  destruct (shr_fexp JS.prec JS.emax _ e1 loc_Exact) as [r2 e2]. cbn in H2.
  destruct (shr_m r2) as [|q|q]; [by left| |lia].
  destruct (e2 <=? _)%Z; [right; right; eauto|right; by left].
Qed.

Lemma SFdiv_core_nonneg m1 e1 m2 e2 :
  (0 <= (SFdiv_core_binary JS.prec JS.emax (Zpos m1) e1 (Zpos m2) e2).1.1)%Z.
Proof.
  unfold SFdiv_core_binary.
  set (s := (_ - _ - _)%Z).
  set (m' := match s with Zpos _ => _ | Z0 => _ | Zneg _ => _ end).
  assert (0 <= m')%Z as Hm.
  { subst m'. destruct s; [lia| |lia]. apply Z.shiftl_nonneg. lia. }
  pose proof (Z_div_mod m' (Zpos m2) eq_refl) as H.
  destruct (Z.div_eucl m' (Z.pos m2)) as [q r]. cbn. nia.
Qed.

Lemma fdiv_sign s1 m1 e1 s2 m2 e2 :
  has_sign (xorb s1 s2)
    (JS.fdiv (S754_finite s1 m1 e1) (S754_finite s2 m2 e2)).
Proof.
  unfold JS.fdiv, SFdiv.
  pose proof (SFdiv_core_nonneg m1 e1 m2 e2) as H.
  destruct (SFdiv_core_binary _ _ _ _ _ _) as [[mz ez] lz]. cbn in H.
  by apply binary_round_aux_sign.
Qed.

Lemma fmul_sign s1 m1 e1 s2 m2 e2 :
  has_sign (xorb s1 s2)
    (JS.fmul (S754_finite s1 m1 e1) (S754_finite s2 m2 e2)).
Proof. unfold JS.fmul, SFmul. by apply binary_round_aux_sign. Qed.

(** The Number read from a numeral has the sign of the numeral. *)
Lemma of_Q_sign (q : Q) :
  ((q == 0)%Q -> JS.of_Q q = S754_zero false) /\
  ((0 < q)%Q -> has_sign false (JS.of_Q q)) /\
  ((q < 0)%Q -> has_sign true (JS.of_Q q)).
Proof.
  destruct q as [[|n|n] d]; unfold JS.of_Q, Qeq, Qlt; cbn; repeat split;
    intros H; try lia; try reflexivity.
  - apply (fdiv_sign false n 0 false d 0).
  - apply (fdiv_sign true n 0 false d 0).
Qed.

Lemma gt0_true (x : JS.double) :
  JS.gt0 x = true <->
  x = S754_infinity false \/ exists m e, x = S754_finite false m e.
Proof.
  unfold JS.gt0, SFltb. destruct x as [s|s| |s m e]; cbn; try destruct s; cbn;
    split; intros H; try done; eauto;
    destruct H as [H|(? & ? & H)]; congruence.
Qed.

Lemma gt0_sign (s : bool) (x : JS.double) :
  has_sign s x -> JS.gt0 x = negb s && match x with S754_zero _ => false | _ => true end.
Proof.
  intros [->|[->|(m & e & ->)]]; unfold JS.gt0, SFltb; cbn; by destruct s.
Qed.

Lemma fdiv_of_nat_sign (n : nat) (x : JS.double) :
  JS.gt0 x = true -> has_sign false (JS.fdiv (JS.of_nat n) x).
Proof.
  intros H. apply gt0_true in H as [->|(m & e & ->)]; destruct n as [|n]; cbn.
  - by left.
  - by left.
  - by left.
  - apply (fdiv_sign false _ 0 false m e).
Qed.

Lemma fmul_sixty_sign (x : JS.double) :
  has_sign false x -> has_sign false (JS.fmul x JS.sixty).
Proof.
  intros [->|[->|(m & e & ->)]]; cbn.
  - by left.
  - right; by left.
  - apply (fmul_sign false m e false).
Qed.

Lemma Math_round_sign (x : JS.double) :
  has_sign false x ->
  JS.Math_round x = JS.Inf false \/ exists k, JS.Math_round x = JS.Fin (inject_Z k).
Proof.
  intros [->|[->|(m & e & ->)]]; cbn; [right; by exists 0%Z|by left|right; eauto].
Qed.

Lemma wpm_unguarded (n : nat) (duration : Q) :
  JS.gt0 (JS.of_Q duration) = false -> wpm n duration = JS.Fin 0.
Proof. intros H. unfold wpm. by rewrite H. Qed.

Lemma wpm_nonpositive (n : nat) (duration : Q) :
  (duration <= 0)%Q -> wpm n duration = JS.Fin 0.
Proof.
  intros H. apply wpm_unguarded.
  destruct (Qlt_le_dec duration 0) as [Hlt|Hge].
  - rewrite (gt0_sign true) by by apply of_Q_sign. done.
  - rewrite (proj1 (of_Q_sign duration)) by lra. done.
Qed.

Lemma wpm_range (n : nat) (duration : Q) :
  wpm n duration = JS.Inf false \/ exists k, wpm n duration = JS.Fin (inject_Z k).
Proof.
  unfold wpm. destruct (JS.gt0 (JS.of_Q duration)) eqn:E.
  - by apply Math_round_sign, fmul_sixty_sign, fdiv_of_nat_sign.
  - right. by exists 0%Z.
Qed.

Ltac destruct_world w :=
  destruct w as [[sid tst cpi ci rsp st shT sv md rst aat cau ds]
                 [mr strm stt ti ot os mxd]
                 [ivs ops rmrs smrs plg nid]
                 [pS pR pC pT pH cls pM] cp v wd dg u hb];
  cbn in *.

Lemma view_write g f w : view (write g f w) = view w.
Proof. unfold write. by case_match. Qed.
Lemma page_write g f w : page (write g f w) = page w.
Proof. unfold write. by case_match. Qed.
Lemma write_current (f : Widgets -> Widgets) (w : World) (g : nat) :
  g = domGen w -> has_widgets (view w) = true ->
  write g f w = with_widgets (f (widgets w)) w.
Proof.
  intros -> H. unfold write. rewrite H, bool_decide_eq_true_2 by done. done.
Qed.

Lemma net_write g f w : net (write g f w) = net w.
Proof. unfold write. by case_match. Qed.
Lemma net_Recorder_stop w : net (Recorder_stop w) = net w.
Proof. unfold Recorder_stop. by repeat case_match. Qed.

(** A tap that is answered at once, in one piece: the handler runs
    through when the page is idle and stops at its guards otherwise. *)
Lemma tap_record_eq (now : Z) (mic : MicOutcome) (w : World) :
  tap_record now mic w
  = if has_widgets (view w) then
      match state (page w) with
      | idle =>
          record_click_resume (domGen w) mic now
            (Recorder_start_begin (domGen w) None w)
      | _ => record_click now w
      end
    else w.
Proof.
  unfold tap_record, click_record, mic_answered.
  destruct (has_widgets (view w)) eqn:Hv.
  2: { by rewrite lookup_ge_None_2 by lia. }
  unfold record_click. destruct (state (page w)) eqn:Hs.
  - cbn [net on_net with_net with_pendingMic pendingMic Recorder_start_begin
         on_rec with_rec].
    rewrite list_lookup_middle by done. f_equal.
    unfold Recorder_start_begin, on_net, on_rec. destruct_world w.
    by rewrite delete_middle, app_nil_r.
  - destruct (_ <? 5000)%Z.
    + rewrite net_write. by rewrite lookup_ge_None_2 by lia.
    + rewrite net_write. cbn [net on_page with_page].
      rewrite net_Recorder_stop. by rewrite lookup_ge_None_2 by lia.
  - by rewrite lookup_ge_None_2 by lia.
Qed.

(** The two turns of a tap, as events. *)
Lemma TapRecord_two_turns (now : Z) (mic : MicOutcome) (w : World) :
  step w (TapRecord now mic)
  = run w [ClickRecord now; MicAnswered (length (pendingMic (net w))) mic now].
Proof. reflexivity. Qed.

Lemma ceil_remaining_bounds (ms : Z) :
  (1000 * (ceil_remaining ms - 1) < 5000 - ms <= 1000 * ceil_remaining ms)%Z.
Proof.
  unfold ceil_remaining.
  pose proof (Z.div_mod (ms - 5000) 1000 ltac:(lia)).
  pose proof (Z.mod_pos_bound (ms - 5000) 1000 ltac:(lia)).
  lia.
Qed.

(** C3. A tap on the record button while the page is recording and
    fewer than 5 seconds have elapsed only changes the hint, which
    shows the remaining seconds rounded up: the page fields (responses,
    prompt index, recording state), the recorder, the media recorders
    and the requests are untouched, so [Recorder.stop] was not called. *)
Theorem early_stop_rejected (w : World) (now : Z) (mic : MicOutcome) :
  has_widgets (view w) = true ->
  state (page w) = recording ->
  (now - default 0 (recordingStartTime (page w)) < 5000)%Z ->
  let remaining :=
    ceil_remaining (now - default 0 (recordingStartTime (page w)))%Z in
  let w' := step w (TapRecord now mic) in
  page w' = page w /\ rec w' = rec w /\ env w' = env w /\ net w' = net w /\
  view w' = view w /\
  state (page w') = recording /\
  responses (page w') = responses (page w) /\
  currentIndex (page w') = currentIndex (page w) /\
  stoppingMRs (env w') = stoppingMRs (env w) /\
  Recorder_isRecording w' = Recorder_isRecording w /\
  widgets w' = with_hint (WaitMore remaining) (widgets w) /\
  (1000 * (remaining - 1) < 5000 - (now - default 0 (recordingStartTime (page w)))
   <= 1000 * remaining)%Z.
Proof.
  intros Hv Hs Hlt remaining w'.
  assert (Hw : w' = with_widgets (with_hint (WaitMore remaining) (widgets w)) w).
  { subst w'. cbn [step]. rewrite tap_record_eq, Hv, Hs.
    unfold record_click. rewrite Hs.
    rewrite (proj2 (Z.ltb_lt _ _) Hlt). by rewrite write_current. }
  rewrite Hw. cbn.
  repeat split; try done; apply ceil_remaining_bounds.
Qed.
Lemma record_click_starts (w : World) (now : Z) :
  has_widgets (view w) = true ->
  state (page w) = idle ->
  let w' := tap_record now true w in
  state (page w') = recording /\
  recordingStartTime (page w') = Some now /\
  Recorder_isRecording w' = true /\
  view w' = view w /\
  currentPartIndex (page w') = currentPartIndex (page w) /\
  currentIndex (page w') = currentIndex (page w) /\
  responses (page w') = responses (page w).
Proof.
  intros Hv Hs. rewrite tap_record_eq, Hv, Hs.
  unfold record_click_resume, Recorder_start_resume, Recorder_start_begin,
    setInterval.
  cbn zeta. cbn [fst snd mic_of_bool].
  rewrite view_write, !page_write.
  unfold Recorder_isRecording, write.
  destruct_world w. subst.
  destruct cau; cbn; destruct (bool_decide (dg = dg) && has_widgets v); cbn;
    rewrite bool_decide_eq_true_2 by set_solver; done.
Qed.

(** C4. When the respond request of a suspended [handleRecording] is
    rejected, nothing is appended, the responses and both indices are
    as before, the screen is the same and the page is idle again; a
    following tap on the record button (microphone granted) records for
    the same prompt. If the widgets are still in the document they show
    the failure and the hint to try again. *)
Theorem submit_failure_allows_retry (w : World) (i : nat) (sub : Submission)
    (message : string) (now : Z) :
  pendingRespond (net w) !! i = Some sub ->
  let w' := step w (RespondResult i (Rejected message)) in
  let w'' := step w' (TapRecord now true) in
  responses (page w') = responses (page w) /\
  currentPartIndex (page w') = currentPartIndex (page w) /\
  currentIndex (page w') = currentIndex (page w) /\
  view w' = view w /\
  state (page w') = idle /\
  (has_widgets (view w) = true ->
     state (page w'') = recording /\
     Recorder_isRecording w'' = true /\
     view w'' = view w /\
     currentPartIndex (page w'') = currentPartIndex (page w) /\
     currentIndex (page w'') = currentIndex (page w) /\
     responses (page w'') = responses (page w)) /\
  (has_widgets (view w) = true -> sub_gen sub = domGen w ->
     transcriptionArea (widgets w') = TFailed message /\
     hint (widgets w') = TapToTryAgain).
Proof.
  intros Hsub w'.
  assert (Hw' : w' = handleRecording_catch (sub_gen sub) message
                       (on_net (fun n => with_pendingRespond
                                  (delete i (pendingRespond n)) n) w)).
  { subst w'. cbn [step]. by rewrite Hsub. }
  clearbody w'. intros w''.
  assert (Hpage : page w' = with_state idle (page w)).
  { subst w'. unfold handleRecording_catch. rewrite page_write. cbn.
    by rewrite page_write. }
  assert (Hview : view w' = view w).
  { subst w'. unfold handleRecording_catch. rewrite view_write. cbn.
    by rewrite view_write. }
  rewrite Hpage, Hview.
  split; [done|]. split; [done|]. split; [done|]. split; [done|].
  split; [done|]. split.
  - intros Hv. subst w''. cbn [step].
    destruct (record_click_starts w' now) as (H1 & _ & H3 & H4 & H5 & H6 & H7).
    { by rewrite Hview. }
    { by rewrite Hpage. }
    rewrite H1, H3, H4, H5, H6, H7, Hpage, Hview. repeat split; reflexivity.
  - intros Hv Hg. subst w'. unfold handleRecording_catch.
    clear Hview Hpage w''. unfold write. destruct_world w. subst dg.
    rewrite Hv, (bool_decide_eq_true_2 (sub_gen sub = sub_gen sub)) by done.
    cbn. rewrite Hv, bool_decide_eq_true_2 by done. split; reflexivity.
Qed.

Section ResponsesFrame.

Local Abbreviation rs w := (responses (page w)).

Lemma rs_write g f w : rs (write g f w) = rs w.
Proof. unfold write. by case_match. Qed.
Lemma rs_navigate_home w : rs (navigate_home w) = rs w.
Proof. unfold navigate_home. by case_match. Qed.
Lemma rs_Recorder_start_resume mic now w :
  rs (Recorder_start_resume mic now w).2 = rs w.
Proof. unfold Recorder_start_resume. by destruct mic as [|[]]. Qed.
Lemma rs_Recorder_start g d mic now w :
  rs (Recorder_start g d mic now w).2 = rs w.
Proof. unfold Recorder_start. by rewrite rs_Recorder_start_resume. Qed.
Lemma rs_Recorder_stop w : rs (Recorder_stop w) = rs w.
Proof. unfold Recorder_stop. by repeat case_match. Qed.
Lemma rs_Recorder_cleanup w : rs (Recorder_cleanup w) = rs w.
Proof. unfold Recorder_cleanup. by repeat case_match. Qed.
Lemma rs_clearAutoAdvance w : rs (clearAutoAdvance w) = rs w.
Proof. unfold clearAutoAdvance. by case_match. Qed.
Lemma rs_playQuestion t w : rs (playQuestion t w) = rs w.
Proof. unfold playQuestion. by repeat case_match. Qed.
Lemma rs_playQuestion_resume ok w : rs (playQuestion_resume ok w) = rs w.
Proof. unfold playQuestion_resume. by repeat case_match. Qed.
Lemma rs_showResults w : rs (showResults w) = rs w.
Proof. unfold showResults. cbn. apply rs_clearAutoAdvance. Qed.
Lemma rs_showResults_resume r w : rs (showResults_resume r w) = rs w.
Proof. unfold showResults_resume. by repeat case_match. Qed.
Lemma rs_renderPartTransition w : rs (renderPartTransition w) = rs w.
Proof. unfold renderPartTransition. cbn. apply rs_clearAutoAdvance. Qed.
Lemma rs_renderDebateRecording w : rs (renderDebateRecording w) = rs w.
Proof. unfold renderDebateRecording. by rewrite rs_playQuestion. Qed.
Lemma rs_renderQuestion w : rs (renderQuestion w) = rs w.
Proof.
  unfold renderQuestion.
  repeat case_match;
    rewrite ?rs_renderDebateRecording, ?rs_renderPartTransition,
      ?rs_showResults, ?rs_playQuestion; cbn;
    auto using rs_clearAutoAdvance.
Qed.

Lemma rs_render_resume r w : rs (render_resume r w) = rs w.
Proof. unfold render_resume. by repeat case_match. Qed.
Lemma rs_home_rendered w : rs (home_rendered w) = rs w.
Proof. unfold home_rendered. by case_match. Qed.
Lemma rs_leave_exam w : rs (leave_exam w) = rs w.
Proof.
  unfold leave_exam. rewrite rs_navigate_home.
  case_match; rewrite ?rs_Recorder_stop; apply rs_clearAutoAdvance.
Qed.
Lemma rs_back_click w : rs (back_click w) = rs w.
Proof.
  unfold back_click. case_match; auto using rs_leave_exam, rs_navigate_home.
Qed.
Lemma rs_finish_click w : rs (finish_click w) = rs w.
Proof.
  unfold finish_click. case_match; auto using rs_leave_exam, rs_navigate_home.
Qed.
Lemma rs_home_click w : rs (home_click w) = rs w.
Proof. unfold home_click. repeat case_match; auto using rs_navigate_home. Qed.
Lemma rs_record_click now w : rs (record_click now w) = rs w.
Proof.
  unfold record_click. destruct (state (page w)).
  - done.
  - case_match; rewrite ?rs_write; [done|]. cbn. apply rs_Recorder_stop.
  - done.
Qed.
Lemma rs_record_click_resume gen mic now w :
  rs (record_click_resume gen mic now w) = rs w.
Proof.
  unfold record_click_resume.
  pose proof (rs_Recorder_start_resume mic now w) as H.
  destruct (Recorder_start_resume _ _ _) as [started w1]. simpl in H.
  destruct started; rewrite ?rs_write; [|done].
  case_match; cbn; done.
Qed.
Lemma rs_click_record now w : rs (click_record now w) = rs w.
Proof. unfold click_record. case_match; [apply rs_record_click|done]. Qed.
Lemma rs_mic_answered i mic now w : rs (mic_answered i mic now w) = rs w.
Proof.
  unfold mic_answered. case_match; [|done]. by rewrite rs_record_click_resume.
Qed.
Lemma rs_tap_record now mic w : rs (tap_record now mic w) = rs w.
Proof. unfold tap_record. by rewrite rs_mic_answered, rs_click_record. Qed.
Lemma rs_goNext w : rs (goNext w) = rs w.
Proof. unfold goNext. rewrite rs_renderQuestion. cbn. apply rs_clearAutoAdvance. Qed.
Lemma rs_showNextWithAutoAdvance g w : rs (showNextWithAutoAdvance g w) = rs w.
Proof. unfold showNextWithAutoAdvance. cbn. apply rs_write. Qed.
Lemma rs_handleRecording_catch g m w : rs (handleRecording_catch g m w) = rs w.
Proof. unfold handleRecording_catch. rewrite rs_write. cbn. apply rs_write. Qed.
Lemma rs_handleRecording w : rs (handleRecording w) = rs w.
Proof.
  unfold handleRecording. repeat case_match;
    rewrite ?rs_handleRecording_catch; cbn; rewrite ?rs_write; done.
Qed.
Lemma rs_mediaRecorder_onstop w : rs (mediaRecorder_onstop w) = rs w.
Proof.
  unfold mediaRecorder_onstop. case_match; rewrite ?rs_handleRecording;
    apply rs_Recorder_cleanup.
Qed.
Lemma rs_recorder_tick now w : rs (recorder_tick now w) = rs w.
Proof.
  unfold recorder_tick. repeat case_match; rewrite ?rs_Recorder_stop, ?rs_write; done.
Qed.
Lemma rs_autoAdvance_tick id c g w : rs (autoAdvance_tick id c g w) = rs w.
Proof.
  unfold autoAdvance_tick. case_match; rewrite ?rs_goNext, ?rs_write; done.
Qed.

Lemma rs_handleRecording_resume sub r w :
  rs (handleRecording_resume sub r w)
  = (rs w ++ match r with
             | Resolved result =>
                 [{| part := sub_part sub; question := sub_question sub;
                     transcription := r_transcription result;
                     duration := r_duration result |}]
             | Rejected _ => []
             end)%list.
Proof.
  unfold handleRecording_resume. destruct r as [result|message].
  - rewrite rs_write. change (rs (on_page (with_state idle) ?x)) with (rs x).
    destruct (sub_isDebate sub); rewrite ?rs_showNextWithAutoAdvance, ?rs_write;
      case_match; rewrite rs_write; reflexivity.
  - rewrite rs_handleRecording_catch, app_nil_r. done.
Qed.

End ResponsesFrame.

Lemma step_responses (w : World) (e : Event) :
  e <> OpenMockTest ->
  responses (page (step w e)) = (responses (page w) ++ pushed w e)%list.
Proof.
  intros He. destruct e; try done; cbn [step pushed]; rewrite ?app_nil_r.
  all: repeat case_match; rewrite ?app_nil_r; try reflexivity.
  all: rewrite ?rs_render_resume, ?rs_home_rendered, ?rs_back_click,
         ?rs_home_click, ?rs_finish_click, ?rs_renderQuestion,
         ?rs_renderDebateRecording, ?rs_tap_record, ?rs_click_record,
         ?rs_mic_answered, ?rs_goNext,
         ?rs_showResults, ?rs_recorder_tick, ?rs_autoAdvance_tick,
         ?rs_mediaRecorder_onstop, ?rs_showResults_resume,
         ?rs_playQuestion_resume, ?rs_handleRecording_resume;
       rewrite ?app_nil_r; try reflexivity.
  unfold voice_click. cbn. by case_match.
Qed.

Lemma run_responses (es : list Event) : forall w : World,
  Forall (fun e => e <> OpenMockTest) es ->
  responses (page (run w es)) = (responses (page w) ++ appended w es)%list.
Proof.
  induction es as [|e es IH]; intros w Hes; cbn [run foldl appended].
  - by rewrite app_nil_r.
  - inversion_clear Hes as [|? ? He Hes'].
    change (foldl step (step w e) es) with (run (step w e) es).
    rewrite IH, step_responses, app_assoc by done. done.
Qed.

Lemma appended_length (es : list Event) : forall w : World,
  length (appended w es) = successes w es.
Proof.
  induction es as [|e es IH]; intros w; cbn [appended successes]; [done|].
  rewrite length_app, IH. f_equal.
  destruct e; try done. cbn [pushed]. destruct r; [|done].
  destruct (pendingRespond (net w) !! i) eqn:E.
  - rewrite bool_decide_eq_true_2 by eauto. done.
  - rewrite bool_decide_eq_false_2; [done|]. by intros [? ?].
Qed.

Module PracticeFacts.
Import Practice.

Local Abbreviation rs w := (responses (page w)).

Lemma practice_rs_write g f w : (forall x, rs (f x) = rs x) -> rs (write g f w) = rs w.
Proof. intros Hf. unfold write. case_match; [apply Hf|done]. Qed.

Lemma practice_rs_handleRecording_catch g m w : rs (handleRecording_catch g m w) = rs w.
Proof.
  unfold handleRecording_catch. rewrite practice_rs_write by done.
  change (rs (on_page (with_state idle) ?x)) with (rs x). by rewrite practice_rs_write.
Qed.

Lemma practice_rs_handleRecording w : rs (handleRecording w) = rs w.
Proof.
  unfold handleRecording. destruct (has_widgets (view w)); [|done].
  cbv zeta.
  match goal with |- context [match ?q with Some _ => _ | None => _ end] =>
    destruct q end.
  - change (rs (with_pendingRespond ?l ?x)) with (rs x). by rewrite practice_rs_write.
  - rewrite practice_rs_handleRecording_catch. by rewrite practice_rs_write.
Qed.

Lemma practice_rs_record_click mic w : rs (record_click mic w) = rs w.
Proof. unfold record_click. repeat case_match; by rewrite ?practice_rs_write. Qed.

Lemma practice_rs_startSession_resume r w : rs (startSession_resume r w) = rs w.
Proof. unfold startSession_resume. by repeat case_match. Qed.

Lemma practice_rs_next_click b w : rs (next_click b w) = rs w.
Proof. unfold next_click. by case_match. Qed.

Lemma practice_rs_handleRecording_resume sub r w :
  rs (handleRecording_resume sub r w)
  = (rs w ++ match r with
             | Resolved result =>
                 [{| question := sub_question sub;
                     transcription := r_transcription result;
                     duration := r_duration result |}]
             | Rejected _ => []
             end)%list.
Proof.
  unfold handleRecording_resume. destruct r as [result|message].
  - rewrite practice_rs_write by done.
    change (rs (on_page (with_state idle) ?x)) with (rs x).
    destruct (sub_isDebate sub); rewrite !practice_rs_write by done; reflexivity.
  - by rewrite practice_rs_handleRecording_catch, app_nil_r.
Qed.

Lemma practice_step_responses (w : World) (e : Event) :
  rs (step w e) = (rs w ++ pushed w e)%list.
Proof.
  destruct e; cbn [step pushed]; rewrite ?app_nil_r.
  - apply practice_rs_startSession_resume.
  - case_match; [apply practice_rs_record_click|done].
  - case_match; try done. by rewrite practice_rs_handleRecording.
  - destruct (pendingRespond w !! i) as [sub|] eqn:E.
    + by rewrite practice_rs_handleRecording_resume.
    + destruct r; by rewrite app_nil_r.
  - repeat case_match; try done. apply practice_rs_next_click.
  - by case_match.
  - by case_match.
Qed.

Lemma practice_run_responses (es : list Event) : forall w : World,
  rs (run w es) = (rs w ++ appended w es)%list.
Proof.
  induction es as [|e es IH]; intros w; cbn [run foldl appended].
  - by rewrite app_nil_r.
  - change (foldl step (step w e) es) with (run (step w e) es).
    by rewrite IH, practice_step_responses, app_assoc.
Qed.

Lemma practice_appended_length (es : list Event) : forall w : World,
  length (appended w es) = successes w es.
Proof.
  induction es as [|e es IH]; intros w; cbn [appended successes]; [done|].
  rewrite length_app, IH. f_equal.
  destruct e; try done. cbn [pushed]. destruct r; [|done].
  destruct (pendingRespond w !! i) eqn:E.
  - rewrite bool_decide_eq_true_2 by eauto. done.
  - rewrite bool_decide_eq_false_2; [done|]. by intros [? ?].
Qed.

End PracticeFacts.

(** *** Finish *)

(** C1, as stated, fails: with two responses collected in the middle of
    part 1.2, Finish sends no scoring request and does not show the
    finalization screen. The only request is the one the home page
    makes for itself, in the build that has it; in the other build the
    home screen replaces the question at once. *)
Lemma finish_with_responses_goes_home :
  length (responses (page two_answers_mid_part_2)) = 2 /\
  view two_answers_mid_part_2 = VQuestion (Some "1.2") 1 3 "b2" /\
  calls (net (step two_answers_mid_part_2 TapFinish))
  = (calls (net two_answers_mid_part_2) ++ [GetSessionInfo])%list /\
  view (step two_answers_mid_part_2 TapFinish) = view two_answers_mid_part_2 /\
  calls (net (step (with_homeBuild home_static two_answers_mid_part_2) TapFinish))
  = calls (net two_answers_mid_part_2) /\
  view (step (with_homeBuild home_static two_answers_mid_part_2) TapFinish)
  = VHome /\
  ~ finish_finalizes two_answers_mid_part_2 /\
  ~ finish_finalizes (with_homeBuild home_static two_answers_mid_part_2).
Proof.
  split; [vm_compute; reflexivity|].
  split; [vm_compute; reflexivity|].
  split; [vm_compute; reflexivity|].
  split; [vm_compute; reflexivity|].
  split; [vm_compute; reflexivity|].
  split; [vm_compute; reflexivity|].
  split; intros H; destruct H as [H _].
  - vm_compute. discriminate.
  - vm_compute. reflexivity.
  - vm_compute in H. discriminate.
  - vm_compute. discriminate.
  - vm_compute. reflexivity.
  - vm_compute in H. discriminate.
Qed.

Lemma finish_is_back (w : World) :
  has_finish (view w) = true -> step w TapFinish = step w TapBack.
Proof. cbn [step]. unfold finish_click, back_click. by destruct (view w). Qed.

Lemma navigate_home_frame (w : World) :
  currentPage (navigate_home w) = route_home /\
  pendingComplete (net (navigate_home w)) = pendingComplete (net w) /\
  responses (page (navigate_home w)) = responses (page w) /\
  match homeBuild w with
  | home_fetches =>
      calls (net (navigate_home w)) = (calls (net w) ++ [GetSessionInfo])%list /\
      pendingHome (net (navigate_home w)) = S (pendingHome (net w)) /\
      view (navigate_home w) = view w /\
      view (step (navigate_home w) HomeRendered) = VHome
  | home_static =>
      calls (net (navigate_home w)) = calls (net w) /\
      pendingHome (net (navigate_home w)) = pendingHome (net w) /\
      view (navigate_home w) = VHome
  end.
Proof. unfold navigate_home. destruct_world w. by destruct hb. Qed.

Lemma leave_exam_frame (w : World) :
  currentPage (leave_exam w) = route_home /\
  pendingComplete (net (leave_exam w)) = pendingComplete (net w) /\
  responses (page (leave_exam w)) = responses (page w) /\
  match homeBuild w with
  | home_fetches =>
      calls (net (leave_exam w)) = (calls (net w) ++ [GetSessionInfo])%list /\
      pendingHome (net (leave_exam w)) = S (pendingHome (net w)) /\
      view (leave_exam w) = view w /\
      view (step (leave_exam w) HomeRendered) = VHome
  | home_static =>
      calls (net (leave_exam w)) = calls (net w) /\
      pendingHome (net (leave_exam w)) = pendingHome (net w) /\
      view (leave_exam w) = VHome
  end.
Proof.
  unfold leave_exam, navigate_home, Recorder_isRecording, Recorder_stop,
    clearAutoAdvance, clearInterval.
  destruct_world w. destruct hb, aat, mr; cbn; repeat case_match; cbn; done.
Qed.

(** C1, amended. On every screen that has it, Finish does what Back
    does: it hands the container to the home page and sends no scoring
    request; the responses stay as they are, however many were
    collected, and the finalization screen is not shown. In the build
    whose home page asks for the session info, that request is the only
    one sent and the exam screen stays until it is answered; in the
    other build nothing is sent and the home screen is shown at once. *)
Theorem finish_leaves_without_scoring (w : World) :
  has_finish (view w) = true ->
  let w' := step w TapFinish in
  w' = step w TapBack /\
  currentPage w' = route_home /\
  pendingComplete (net w') = pendingComplete (net w) /\
  responses (page w') = responses (page w) /\
  view w' <> VGenerating /\
  match homeBuild w with
  | home_fetches =>
      calls (net w') = (calls (net w) ++ [GetSessionInfo])%list /\
      pendingHome (net w') = S (pendingHome (net w)) /\
      view w' = view w /\
      view (step w' HomeRendered) = VHome
  | home_static =>
      calls (net w') = calls (net w) /\
      pendingHome (net w') = pendingHome (net w) /\
      view w' = VHome
  end.
Proof.
  intros Hf w'. split; [by apply finish_is_back|].
  assert (currentPage w' = route_home /\
          pendingComplete (net w') = pendingComplete (net w) /\
          responses (page w') = responses (page w) /\
          match homeBuild w with
          | home_fetches =>
              calls (net w') = (calls (net w) ++ [GetSessionInfo])%list /\
              pendingHome (net w') = S (pendingHome (net w)) /\
              view w' = view w /\
              view (step w' HomeRendered) = VHome
          | home_static =>
              calls (net w') = calls (net w) /\
              pendingHome (net w') = pendingHome (net w) /\
              view w' = VHome
          end) as (H1 & H2 & H3 & H4).
  { assert (w' = leave_exam w \/ w' = navigate_home w) as [->| ->].
    { subst w'. cbn [step]. unfold finish_click.
      destruct (view w); try discriminate; auto. }
    - apply leave_exam_frame.
    - apply navigate_home_frame. }
  repeat (split; [done|]). split; [|done].
  destruct (homeBuild w).
  - destruct H4 as (_ & _ & -> & _). by destruct (view w).
  - destruct H4 as (_ & _ & ->). done.
Qed.

Lemma finish_leaves_without_scoring_witness :
  currentPage (step two_answers_mid_part_2 TapFinish) = route_home /\
  pendingComplete (net (step two_answers_mid_part_2 TapFinish)) = 0 /\
  view (step two_answers_mid_part_2 TapFinish) <> VGenerating.
Proof.
  pose proof (finish_leaves_without_scoring two_answers_mid_part_2 eq_refl)
    as (_ & H1 & H2 & _ & H3 & _).
  split; [exact H1|]. split; [|exact H3]. rewrite H2. vm_compute. reflexivity.
Defined.

(** *** Leaving the exam *)

(** C5, as stated, fails: Back on a question screen while the prompt is
    being read leaves the audio element playing after the home page has
    replaced the exam. And a capture that the recorder no longer tracks
    (a second [start] reached through the auto-advance countdown) keeps
    its stream open and its tick timer live after Back. *)
Lemma playback_survives_leaving :
  playing (env voice_reading) = {[1]} /\
  view (run voice_reading [TapBack; HomeRendered]) = VHome /\
  playing (env (run voice_reading [TapBack; HomeRendered])) = {[1]} /\
  ~ released (run voice_reading [TapBack; HomeRendered]) /\
  view (run tap_across_auto_advance [TapBack; MediaStopped 9; HomeRendered])
  = VHome /\
  openStreams
    (env (run tap_across_auto_advance [TapBack; MediaStopped 9; HomeRendered]))
  = {[5]} /\
  intervals
    (env (run tap_across_auto_advance [TapBack; MediaStopped 9; HomeRendered]))
  = {[7 := RecorderTick]}.
Proof.
  assert (H : playing (env (run voice_reading [TapBack; HomeRendered])) = {[1]})
    by (vm_compute; reflexivity).
  split; [vm_compute; reflexivity|].
  split; [vm_compute; reflexivity|].
  split; [exact H|].
  split.
  { intros (_ & _ & Hp). rewrite H in Hp.
    by apply (non_empty_singleton_L (C := gset nat)) in Hp. }
  split; [vm_compute; reflexivity|].
  split; vm_compute; reflexivity.
Qed.

Lemma handleRecording_catch_env g m w :
  env (handleRecording_catch g m w) = env w /\
  rec (handleRecording_catch g m w) = rec w.
Proof.
  unfold handleRecording_catch, write. destruct_world w.
  repeat (case_match; cbn); done.
Qed.

Lemma handleRecording_env w :
  env (handleRecording w) = env w /\ rec (handleRecording w) = rec w.
Proof.
  unfold handleRecording. destruct (has_widgets (view w)); [|done].
  cbv zeta.
  match goal with |- context [match ?q with Some _ => _ | None => _ end] =>
    destruct q end.
  - unfold write. by case_match.
  - destruct (handleRecording_catch_env (domGen w) type_error
                (write (domGen w)
                   (with_transcriptionArea (TLoading (showTranscription (page w)))) w))
      as [-> ->].
    unfold write. by case_match.
Qed.

Lemma Recorder_cleanup_releases (w : World) :
  let w' := Recorder_cleanup w in
  stream (rec w') = None /\ timerInterval (rec w') = None /\
  (forall s, stream (rec w) = Some s -> s ∉ openStreams (env w')) /\
  (forall t, timerInterval (rec w) = Some t -> intervals (env w') !! t = None).
Proof.
  unfold Recorder_cleanup, clearInterval. destruct_world w.
  destruct ti, strm; cbn; repeat split; try done;
    intros ? ?; simplify_eq; try set_solver; by rewrite lookup_delete_eq.
Qed.

Lemma mediaRecorder_onstop_releases (w : World) :
  let w' := mediaRecorder_onstop w in
  stream (rec w') = None /\ timerInterval (rec w') = None /\
  (forall s, stream (rec w) = Some s -> s ∉ openStreams (env w')) /\
  (forall t, timerInterval (rec w) = Some t -> intervals (env w') !! t = None).
Proof.
  unfold mediaRecorder_onstop. cbv zeta.
  destruct (onStop (rec (Recorder_cleanup w))).
  - destruct (handleRecording_env (Recorder_cleanup w)) as [-> ->].
    apply Recorder_cleanup_releases.
  - apply Recorder_cleanup_releases.
Qed.

Lemma leave_exam_stops (w : World) :
  let w' := leave_exam w in
  currentPage w' = route_home /\
  autoAdvanceTimer (page w') = None /\
  (forall t, autoAdvanceTimer (page w) = Some t -> intervals (env w') !! t = None) /\
  Recorder_isRecording w' = false /\
  rec w' = rec w /\
  (forall m, mediaRecorder (rec w) = Some m -> m ∈ recordingMRs (env w) ->
     m ∈ stoppingMRs (env w')).
Proof.
  unfold leave_exam, navigate_home, Recorder_isRecording, Recorder_stop,
    clearAutoAdvance, clearInterval.
  destruct_world w.
  destruct hb, aat as [t|], mr as [m|]; cbn;
    try destruct (decide (m ∈ rmrs)) as [Hin|Hout];
    rewrite ?(bool_decide_eq_true_2 _ Hin), ?(bool_decide_eq_false_2 _ Hout);
    cbn;
    rewrite ?(bool_decide_eq_true_2 _ Hin), ?(bool_decide_eq_false_2 _ Hout);
    cbn; repeat split; try done;
    try (intros ? ?; simplify_eq); try (by rewrite lookup_delete_eq);
    try (apply bool_decide_eq_false_2; set_solver);
    try (intros; set_solver).
Qed.

(** C5, amended. Back or Finish on a screen with the recorder clears
    the auto-advance timer and, when the recorder is recording, stops
    it: [isRecording] is false at once, and when the stop event of that
    media recorder is delivered the recorder's stream is closed and its
    tick timer cleared. *)
Theorem leaving_stops_timer_and_recorder (w : World) (e : Event) :
  e = TapBack \/ e = TapFinish ->
  has_widgets (view w) = true ->
  let w' := step w e in
  currentPage w' = route_home /\
  autoAdvanceTimer (page w') = None /\
  (forall t, autoAdvanceTimer (page w) = Some t -> intervals (env w') !! t = None) /\
  Recorder_isRecording w' = false /\
  (forall m, mediaRecorder (rec w) = Some m -> m ∈ recordingMRs (env w) ->
     m ∈ stoppingMRs (env w') /\
     let w'' := step w' (MediaStopped m) in
     stream (rec w'') = None /\ timerInterval (rec w'') = None /\
     (forall s, stream (rec w) = Some s -> s ∉ openStreams (env w'')) /\
     (forall t, timerInterval (rec w) = Some t -> intervals (env w'') !! t = None)).
Proof.
  intros He Hv w'.
  assert (Hw' : w' = leave_exam w).
  { subst w'. destruct He as [-> | ->]; cbn [step];
      unfold back_click, finish_click; by destruct (view w). }
  clearbody w'. subst w'.
  destruct (leave_exam_stops w) as (H1 & H2 & H3 & H4 & H5 & H6).
  split; [done|]. split; [done|]. split; [done|]. split; [done|].
  intros m Hm Hin. specialize (H6 m Hm Hin). split; [done|].
  cbn [step]. rewrite bool_decide_eq_true_2 by done.
  set (w1 := on_env _ (leave_exam w)).
  assert (Hrec : rec w1 = rec w) by (subst w1; by rewrite <- H5).
  destruct (mediaRecorder_onstop_releases w1) as (R1 & R2 & R3 & R4).
  rewrite Hrec in R3, R4. done.
Qed.

Lemma leaving_stops_timer_and_recorder_witness :
  let w := run init [OpenMockTest; StartResult sample_start; TapStart;
                     TapRecord 0 true] in
  Recorder_isRecording w = true /\
  Recorder_isRecording (step w TapBack) = false /\
  openStreams (env (run w [TapBack; MediaStopped 2])) = ∅.
Proof.
  intros w.
  destruct (leaving_stops_timer_and_recorder w TapBack (or_introl eq_refl) eq_refl)
    as (_ & _ & _ & H & _).
  split; [vm_compute; reflexivity|]. split; [exact H|].
  vm_compute. reflexivity.
Defined.

(** *** A part without questions *)

(** C6, as stated, fails for the mock test: the empty part 1.2 is not
    reported; Continue moves straight on to the transition screen of
    part 2, and from there to its first question. *)
Lemma empty_part_is_skipped_not_reported :
  view before_empty_part = VPartTransition (Some "1.2") /\
  currentQuestions before_empty_part = [] /\
  view (step before_empty_part TapContinue) = VPartTransition (Some "2") /\
  view (run before_empty_part [TapContinue; TapContinue])
  = VQuestion (Some "2") 0 1 "c1" /\
  ~ stops_at_empty_part before_empty_part.
Proof.
  split; [vm_compute; reflexivity|].
  split; [vm_compute; reflexivity|].
  split; [vm_compute; reflexivity|].
  split; [vm_compute; reflexivity|].
  intros H. destruct H as [H _]; [vm_compute; reflexivity|].
  vm_compute in H. discriminate.
Qed.

Lemma currentPart_not_debate (w : World) :
  currentPartIndex (page w) < 3 -> currentPart w <> Some "3".
Proof.
  unfold currentPart, parts. intros H.
  destruct (currentPartIndex (page w)) as [|[|[|n]]]; cbn; try discriminate; lia.
Qed.

Lemma renderPartTransition_frame (w : World) :
  let w' := renderPartTransition w in
  view w' = VPartTransition (currentPart w) /\
  currentPartIndex (page w') = currentPartIndex (page w) /\
  currentIndex (page w') = currentIndex (page w) /\
  responses (page w') = responses (page w) /\
  uncaught w' = uncaught w /\
  calls (net w') = calls (net w).
Proof.
  unfold renderPartTransition, clearAutoAdvance, clearInterval, currentPart.
  destruct_world w. destruct aat; cbn; done.
Qed.

Lemma clearAutoAdvance_frame (w : World) :
  currentPartIndex (page (clearAutoAdvance w)) = currentPartIndex (page w) /\
  currentIndex (page (clearAutoAdvance w)) = currentIndex (page w) /\
  responses (page (clearAutoAdvance w)) = responses (page w) /\
  test (page (clearAutoAdvance w)) = test (page w) /\
  uncaught (clearAutoAdvance w) = uncaught w /\
  calls (net (clearAutoAdvance w)) = calls (net w).
Proof.
  unfold clearAutoAdvance, clearInterval. destruct_world w. by destruct aat.
Qed.

Lemma renderQuestion_end_of_part (w : World) :
  currentPartIndex (page w) < 3 ->
  length (currentQuestions w) <= currentIndex (page w) ->
  renderQuestion w
  = renderPartTransition
      (on_page (fun p => p |> with_currentPartIndex (S (currentPartIndex p))
                          |> with_currentIndex 0
                          |> with_debateSide None)
         (clearAutoAdvance w)).
Proof.
  intros Hp Hq. unfold renderQuestion. cbv zeta.
  assert (Hpart : currentPart (clearAutoAdvance w) = currentPart w).
  { unfold currentPart. by destruct (clearAutoAdvance_frame w) as (-> & _). }
  assert (Hqs : currentQuestions (clearAutoAdvance w) = currentQuestions w).
  { unfold currentQuestions, currentPartData. rewrite Hpart.
    by destruct (clearAutoAdvance_frame w) as (_ & _ & _ & -> & _). }
  destruct (clearAutoAdvance_frame w) as (Hi & Hc & _).
  rewrite Hpart, Hqs, Hi, Hc.
  rewrite bool_decide_eq_false_2 by by apply currentPart_not_debate.
  rewrite bool_decide_eq_true_2 by done.
  rewrite bool_decide_eq_true_2 by (cbn; lia). done.
Qed.

(** C6, amended. In the mock test a part before the debate whose
    question list is empty is skipped: rendering it moves to the
    transition screen of the next part with no exception and with the
    responses kept, and Back leaves the exam from there. In the
    practice page a session that starts with no questions (and is not a
    debate) shows the no-questions screen, whose Back button leaves. *)
Theorem empty_part_skipped (w : World) (pw : Practice.World)
    (start : Practice.StartOk) :
  currentPartIndex (page w) < 3 ->
  currentQuestions w = [] ->
  0 < Practice.pendingStart pw ->
  Practice.start_questions start = [] ->
  ~ (Practice.part (Practice.page pw) = "3" /\ is_Some (Practice.part_data start)) ->
  let w' := renderQuestion w in
  let pw' := Practice.step pw (Practice.StartResult (Resolved start)) in
  (view w' = VPartTransition (parts !! S (currentPartIndex (page w))) /\
   currentPartIndex (page w') = S (currentPartIndex (page w)) /\
   currentIndex (page w') = 0 /\
   responses (page w') = responses (page w) /\
   uncaught w' = uncaught w /\
   currentPage (step w' TapBack) = route_home) /\
  (Practice.view pw' = Practice.VNoQuestions (Practice.part (Practice.page pw)) /\
   Practice.uncaught pw' = Practice.uncaught pw /\
   Practice.responses (Practice.page pw') = Practice.responses (Practice.page pw) /\
   Practice.view (Practice.step pw' Practice.TapBack) = Practice.VHome).
Proof.
  intros Hp Hq Hps Hsq Hnd w' pw'. split.
  - subst w'. rewrite renderQuestion_end_of_part by (rewrite ?Hq; cbn; lia).
    set (w1 := on_page _ _).
    destruct (renderPartTransition_frame w1) as (H1 & H2 & H3 & H4 & H5 & H6).
    destruct (clearAutoAdvance_frame w) as (Hi & Hc & Hr & _ & Hu & _).
    rewrite H1, H2, H3, H4, H5. subst w1. cbn.
    rewrite Hi, Hr, Hu. repeat split; try done.
    apply navigate_home_frame.
  - subst pw'. cbn [Practice.step]. unfold Practice.startSession_resume.
    destruct (Practice.pendingStart pw) as [|k] eqn:Hk; [lia|].
    cbn. rewrite Hsq. cbn.
    destruct (bool_decide (Practice.part (Practice.page pw) = "3")) eqn:E1;
      destruct (bool_decide (is_Some (Practice.part_data start))) eqn:E2;
      cbn; try done.
    apply bool_decide_eq_true_1 in E1, E2. tauto.
Qed.

Lemma empty_part_skipped_witness :
  view (renderQuestion before_empty_part) = VPartTransition (Some "2") /\
  responses (page (renderQuestion before_empty_part))
  = responses (page before_empty_part) /\
  Practice.view
    (Practice.step (Practice.open (Some "2"))
       (Practice.StartResult
          (Resolved {| Practice.session_id := "p";
                       Practice.start_questions := [];
                       Practice.start_images := [];
                       Practice.part_data := None |})))
  = Practice.VNoQuestions "2".
Proof.
  assert (H3 : ~ (Practice.part (Practice.page (Practice.open (Some "2"))) = "3"
                  /\ is_Some (None : option Practice.DebateData))).
  { intros [H _]. vm_compute in H. discriminate. }
  destruct (empty_part_skipped before_empty_part (Practice.open (Some "2"))
              {| Practice.session_id := "p"; Practice.start_questions := [];
                 Practice.start_images := []; Practice.part_data := None |}
              ltac:(vm_compute; lia) ltac:(vm_compute; reflexivity)
              ltac:(vm_compute; lia) eq_refl H3)
    as ((H1 & _ & _ & H2 & _) & (P1 & _)).
  split; [exact H1|]. split; [exact H2|]. exact P1.
Defined.

(** *** Session start *)

(** C7, as stated, fails: nothing ties a pending request or a running
    countdown to the exam it belongs to. A transcript of an exam left
    earlier that arrives after the refusal starts the countdown of that
    exam, which redraws the container: the transition screen of part
    1.2 shows, and from there the debate with its record button. *)
Lemma late_transcript_prompts_after_limit :
  pendingStart (net reopened_mid_upload) = 1 /\
  view (step reopened_mid_upload
          (StartResult (Rejected "Daily mock limit reached")))
  = VStartFailed true "Daily mock limit reached" /\
  view (run (step reopened_mid_upload
               (StartResult (Rejected "Daily mock limit reached")))
          (take 6 late_transcript))
  = VPartTransition (Some "1.2") /\
  view (run (step reopened_mid_upload
               (StartResult (Rejected "Daily mock limit reached")))
          late_transcript)
  = VDebateRecording /\
  ~ limit_never_prompts reopened_mid_upload "Daily mock limit reached".
Proof.
  split; [vm_compute; reflexivity|].
  split; [vm_compute; reflexivity|].
  split; [vm_compute; reflexivity|].
  split; [vm_compute; reflexivity|].
  intros H. specialize (H eq_refl eq_refl late_transcript).
  assert (Hes : Forall (fun e => e <> OpenMockTest) late_transcript)
    by (repeat constructor; discriminate).
  specialize (H Hes). vm_compute in H. discriminate.
Qed.

Lemma record_click_resume_quiet (gen : nat) (mic : MicOutcome) (now : Z)
    (w : World) :
  let w' := record_click_resume gen mic now w in
  view w' = view w /\
  pendingStart (net w') = pendingStart (net w) /\
  pendingRespond (net w') = pendingRespond (net w) /\
  pendingComplete (net w') = pendingComplete (net w) /\
  forall id c g, intervals (env w') !! id = Some (AutoAdvance c g) ->
    intervals (env w) !! id = Some (AutoAdvance c g).
Proof.
  unfold record_click_resume, Recorder_start_resume, setInterval, write, pause.
  destruct_world w.
  destruct mic as [|[]]; cbn; repeat (case_match; cbn); repeat split; try done.
  all: intros id c g; rewrite lookup_insert_Some; intros [[_ ?]|[_ ?]]; done.
Qed.

Lemma mediaRecorder_onstop_quiet (w : World) :
  has_widgets (view w) = false ->
  let w' := mediaRecorder_onstop w in
  view w' = view w /\ net w' = net w /\
  forall id c g, intervals (env w') !! id = Some (AutoAdvance c g) ->
    intervals (env w) !! id = Some (AutoAdvance c g).
Proof.
  intros Hv.
  unfold mediaRecorder_onstop, handleRecording, Recorder_cleanup,
    clearInterval, throw_uncaught.
  destruct_world w.
  destruct ti, strm; cbn; rewrite ?Hv; repeat (case_match; cbn);
    repeat split; try done.
  all: intros id c g; rewrite lookup_delete_Some; by intros [_ ?].
Qed.

Lemma recorder_tick_quiet (now : Z) (w : World) :
  let w' := recorder_tick now w in
  view w' = view w /\ net w' = net w /\
  intervals (env w') = intervals (env w).
Proof.
  unfold recorder_tick, Recorder_stop, write. destruct_world w.
  repeat (case_match; cbn); done.
Qed.

Lemma navigate_home_quiet (w : World) :
  let w' := navigate_home w in
  (view w' = view w \/ view w' = VHome) /\
  pendingStart (net w') = pendingStart (net w) /\
  pendingRespond (net w') = pendingRespond (net w) /\
  pendingComplete (net w') = pendingComplete (net w) /\
  env w' = env w.
Proof. unfold navigate_home. destruct_world w. destruct hb; cbn; auto. Qed.

Lemma limit_screen_step (message : string) (w : World) (e : Event) :
  e <> OpenMockTest -> limit_screen message w -> limit_screen message (step w e).
Proof.
  intros He (Hv & Hs & Hr & Hc & Hi). unfold limit_screen, quiet.
  assert (Hnw : has_widgets (view w) = false) by (destruct Hv as [-> | ->]; done).
  assert (Hni : is_intro (view w) = false) by (destruct Hv as [-> | ->]; done).
  assert (Hw : limit_screen message w) by (repeat split; done).
  unfold limit_screen, quiet in Hw.
  assert (Hnav : limit_screen message (navigate_home w)).
  { destruct (navigate_home_quiet w) as (H1 & H2 & H3 & H4 & H5).
    unfold limit_screen, quiet. rewrite H2, H3, H4, H5.
    repeat split; try done. destruct H1 as [-> | ->]; auto. }
  unfold limit_screen, quiet in Hnav.
  destruct e; cbn [step]; rewrite ?Hnw, ?Hni; try done.
  - unfold home_rendered. destruct (pendingHome (net w)); cbn; repeat split; auto.
  - unfold render_resume. by rewrite Hs.
  - unfold back_click. destruct Hv as [E | E]; rewrite E; done.
  - unfold home_click. destruct Hv as [E | E]; rewrite E; done.
  - unfold finish_click. destruct Hv as [E | E]; rewrite E; done.
  - destruct Hv as [E | E]; rewrite E; done.
  - destruct Hv as [E | E]; rewrite E; done.
  - by rewrite tap_record_eq, Hnw.
  - destruct (intervals (env w) !! id) as [[|c g]|] eqn:E; [|by destruct (Hi id c g)|done].
    destruct (recorder_tick_quiet now w) as (-> & -> & ->). done.
  - case_match; [|done].
    set (w1 := on_env _ w).
    destruct (mediaRecorder_onstop_quiet w1 Hnw) as (-> & -> & H3).
    repeat split; try done. intros id c g E. by destruct (Hi id c g), (H3 id c g).
  - by rewrite Hr.
  - unfold showResults_resume. by rewrite Hc.
  - unfold playQuestion_resume. destruct (pendingTts (net w)); [done|].
    destruct ok; cbn; repeat split; auto.
  - unfold click_record. by rewrite Hnw.
  - unfold mic_answered. case_match; [|done].
    set (w1 := on_net _ w).
    destruct (record_click_resume_quiet n mic now w1) as (-> & -> & -> & -> & H5).
    repeat split; try done. intros id c g E. by destruct (Hi id c g), (H5 id c g).
Qed.

Lemma limit_screen_run (message : string) (es : list Event) : forall w : World,
  Forall (fun e => e <> OpenMockTest) es ->
  limit_screen message w -> limit_screen message (run w es).
Proof.
  induction es as [|e es IH]; intros w Hes Hw; [done|].
  inversion_clear Hes. cbn [run foldl]. apply IH; [done|].
  by apply limit_screen_step.
Qed.

(** C7, amended. When the only start request in flight is rejected with
    a message that contains the daily-limit text, the screen is the
    upgrade prompt, which differs from the screen shown for any other
    message. If moreover no respond or complete request of an earlier
    exam is in flight and no auto-advance countdown is running, then,
    as long as the mock test is not opened anew, every later screen is
    that prompt or the home page, so no intro, question or debate
    screen is ever shown. *)
Theorem limit_exceeded_never_prompts (w : World) (message : string)
    (es : list Event) :
  pendingStart (net w) = 1 ->
  JS.includes message "Daily mock limit" = true ->
  let w' := step w (StartResult (Rejected message)) in
  view w' = VStartFailed true message /\
  (forall other, JS.includes other "Daily mock limit" = false ->
     view (step w (StartResult (Rejected other))) = VStartFailed false other) /\
  (quiet w ->
   Forall (fun e => e <> OpenMockTest) es ->
   (view (run w' es) = VStartFailed true message \/ view (run w' es) = VHome) /\
   has_widgets (view (run w' es)) = false /\
   view (run w' es) <> VIntro /\
   view (run w' es) <> VDebateSelection).
Proof.
  intros Hs Hm w'.
  assert (Hv : view w' = VStartFailed true message).
  { subst w'. cbn [step]. unfold render_resume. rewrite Hs. cbn. by rewrite Hm. }
  split; [done|]. split.
  { intros other Ho. cbn [step]. unfold render_resume. rewrite Hs. cbn.
    by rewrite Ho. }
  intros Hq Hes.
  assert (Hl : limit_screen message w').
  { split; [by left|]. subst w'. cbn [step]. unfold render_resume.
    rewrite Hs. cbn. done. }
  destruct (limit_screen_run message es w' Hes Hl) as (Hr & _).
  split; [done|]. destruct Hr as [-> | ->]; done.
Qed.

Lemma limit_exceeded_never_prompts_witness :
  has_widgets
    (view (run (step (run init [OpenMockTest])
                  (StartResult (Rejected "Daily mock limit reached")))
             [TapStart; TapRecord 0 true; TapBack; HomeRendered]))
  = false.
Proof.
  destruct (limit_exceeded_never_prompts (run init [OpenMockTest])
              "Daily mock limit reached"
              [TapStart; TapRecord 0 true; TapBack; HomeRendered]
              eq_refl eq_refl) as (_ & _ & H).
  destruct H as (_ & H & _).
  - split; [reflexivity|]. split; [reflexivity|].
    intros id c g. vm_compute. discriminate.
  - repeat constructor; discriminate.
  - exact H.
Defined.

(** *** Recorder.start while recording *)

(** C8, as stated, fails: a second [start] while recording reports
    success and begins a second capture; the first stream and media
    recorder stay live, so two recordings are active. The page reaches
    such a second [start] through the auto-advance countdown, and
    through a second tap before the microphone has answered the
    first. *)
Lemma second_start_restarts :
  size (recordingMRs (env tap_across_auto_advance)) = 2 /\
  size (openStreams (env tap_across_auto_advance)) = 2 /\
  size (recordingMRs (env double_tap)) = 2 /\
  size (openStreams (env double_tap)) = 2 /\
  Recorder_isRecording first_recording = true /\
  (Recorder_start 0 None true 1000 first_recording).1 = true /\
  size (recordingMRs (env (Recorder_start 0 None true 1000 first_recording).2)) = 2 /\
  size (openStreams (env (Recorder_start 0 None true 1000 first_recording).2)) = 2 /\
  ~ start_refused_when_recording first_recording.
Proof.
  split; [vm_compute; reflexivity|].
  split; [vm_compute; reflexivity|].
  split; [vm_compute; reflexivity|].
  split; [vm_compute; reflexivity|].
  split; [vm_compute; reflexivity|].
  split; [reflexivity|].
  split; [vm_compute; reflexivity|].
  split; [vm_compute; reflexivity|].
  intros H. destruct (H ltac:(vm_compute; reflexivity) 0 None true 1000%Z) as [H1 _].
  discriminate H1.
Qed.

Lemma Recorder_start_tracks (gen : nat) (maxDur : option Z) (now : Z) (w : World) :
  let w' := (Recorder_start gen maxDur true now w).2 in
  (Recorder_start gen maxDur true now w).1 = true /\
  stream (rec w') = Some (nextId (env w)) /\
  mediaRecorder (rec w') = Some (S (nextId (env w))) /\
  openStreams (env w') = {[nextId (env w)]} ∪ openStreams (env w) /\
  recordingMRs (env w') = {[S (nextId (env w))]} ∪ recordingMRs (env w).
Proof.
  unfold Recorder_start, Recorder_start_resume, Recorder_start_begin,
    setInterval.
  destruct_world w. done.
Qed.

Lemma Recorder_start_throws (gen : nat) (maxDur : option Z) (now : Z)
    (w : World) (c : Capture) :
  c <> capture_started ->
  let w' := (Recorder_start gen maxDur (mic_granted c) now w).2 in
  (Recorder_start gen maxDur (mic_granted c) now w).1 = false /\
  stream (rec w') = Some (nextId (env w)) /\
  mediaRecorder (rec w')
  = match c with
    | capture_start_throws => Some (S (nextId (env w)))
    | _ => mediaRecorder (rec w)
    end /\
  openStreams (env w') = {[nextId (env w)]} ∪ openStreams (env w) /\
  recordingMRs (env w') = recordingMRs (env w) /\
  intervals (env w') = intervals (env w).
Proof.
  intros Hc.
  unfold Recorder_start, Recorder_start_resume, Recorder_start_begin.
  destruct_world w. by destruct c.
Qed.

Lemma Recorder_start_refused (gen : nat) (maxDur : option Z) (now : Z)
    (w : World) :
  let w' := (Recorder_start gen maxDur false now w).2 in
  (Recorder_start gen maxDur false now w).1 = false /\
  env w' = env w /\
  stream (rec w') = stream (rec w) /\
  mediaRecorder (rec w') = mediaRecorder (rec w).
Proof. done. Qed.

Lemma record_click_busy (w : World) (now : Z) :
  state (page w) <> idle ->
  let w' := record_click now w in
  mediaRecorder (rec w') = mediaRecorder (rec w) /\
  stream (rec w') = stream (rec w) /\
  openStreams (env w') = openStreams (env w) /\
  recordingMRs (env w') ⊆ recordingMRs (env w) /\
  pendingMic (net w') = pendingMic (net w).
Proof.
  intros Hs. unfold record_click, Recorder_stop, write.
  destruct_world w. destruct st; [done| |done].
  destruct (now - default 0 rst <? 5000)%Z; cbn.
  - by case_match.
  - destruct mr as [m|]; cbn; [|by case_match].
    destruct (bool_decide (m ∈ rmrs)); cbn; case_match; cbn;
      repeat split; try done; set_solver.
Qed.

Lemma record_click_asks (w : World) (now : Z) :
  state (page w) = idle ->
  let w' := record_click now w in
  pendingMic (net w') = (pendingMic (net w) ++ [domGen w])%list /\
  state (page w') = idle /\
  env w' = env w.
Proof. intros Hs. unfold record_click. by rewrite Hs. Qed.

(** C8, amended. [Recorder.start] does not look at a recording in
    progress and has no error of its own. When the microphone is
    granted and the media recorder starts, it reports success and
    tracks a new stream and media recorder next to the ones already
    live; when creating or starting the media recorder throws, it
    reports failure and the stream just opened stays open; when the
    microphone is refused it reports failure and opens nothing. What
    keeps a second capture from starting is the page, and only while
    its state is recording or processing: a tap on the record button
    then never starts the recorder. While the page is idle, which it
    still is between a tap and the answer of the microphone, every tap
    asks again. *)
Theorem start_unguarded_page_guards (w : World) (gen : nat)
    (maxDur : option Z) (now : Z) (mic : MicOutcome) (c : Capture) :
  let started := Recorder_start gen maxDur true now w in
  let thrown := Recorder_start gen maxDur (mic_granted c) now w in
  let refused := Recorder_start gen maxDur false now w in
  let clicked := step w (ClickRecord now) in
  let tapped := step w (TapRecord now mic) in
  (started.1 = true /\
   mediaRecorder (rec started.2) = Some (S (nextId (env w))) /\
   openStreams (env started.2) = {[nextId (env w)]} ∪ openStreams (env w) /\
   recordingMRs (env started.2) = {[S (nextId (env w))]} ∪ recordingMRs (env w)) /\
  (c <> capture_started ->
   thrown.1 = false /\
   stream (rec thrown.2) = Some (nextId (env w)) /\
   openStreams (env thrown.2) = {[nextId (env w)]} ∪ openStreams (env w) /\
   recordingMRs (env thrown.2) = recordingMRs (env w) /\
   intervals (env thrown.2) = intervals (env w)) /\
  (refused.1 = false /\ env refused.2 = env w /\
   stream (rec refused.2) = stream (rec w) /\
   mediaRecorder (rec refused.2) = mediaRecorder (rec w)) /\
  (state (page w) <> idle ->
   (mediaRecorder (rec tapped) = mediaRecorder (rec w) /\
    openStreams (env tapped) = openStreams (env w) /\
    recordingMRs (env tapped) ⊆ recordingMRs (env w)) /\
   (mediaRecorder (rec clicked) = mediaRecorder (rec w) /\
    openStreams (env clicked) = openStreams (env w) /\
    recordingMRs (env clicked) ⊆ recordingMRs (env w) /\
    pendingMic (net clicked) = pendingMic (net w))) /\
  (state (page w) = idle -> has_widgets (view w) = true ->
   pendingMic (net clicked) = (pendingMic (net w) ++ [domGen w])%list /\
   state (page clicked) = idle /\
   env clicked = env w).
Proof.
  intros started thrown refused clicked tapped. split.
  { destruct (Recorder_start_tracks gen maxDur now w) as (H1 & _ & H3 & H4 & H5).
    done. }
  split.
  { intros Hc.
    destruct (Recorder_start_throws gen maxDur now w c Hc)
      as (H1 & H2 & _ & H4 & H5 & H6). done. }
  split; [apply Recorder_start_refused|]. split.
  - intros Hs.
    destruct (record_click_busy w now Hs) as (H1 & _ & H3 & H4 & H5).
    split.
    + subst tapped. cbn [step]. rewrite tap_record_eq.
      destruct (has_widgets (view w)); [|done].
      destruct (state (page w)); done.
    + subst clicked. cbn [step]. unfold click_record.
      destruct (has_widgets (view w)); done.
  - intros Hs Hv. subst clicked. cbn [step]. unfold click_record. rewrite Hv.
    by apply record_click_asks.
Qed.

Lemma start_unguarded_page_guards_witness :
  let w := run init [OpenMockTest; StartResult sample_start; TapStart;
                     TapRecord 0 true] in
  let w0 := run init [OpenMockTest; StartResult sample_start; TapStart;
                      ClickRecord 0] in
  openStreams (env (step w (TapRecord 1000 true))) = openStreams (env w) /\
  length (pendingMic (net (step w0 (ClickRecord 100)))) = 2 /\
  (Recorder_start 0 None (mic_granted capture_unsupported) 0 w).1 = false.
Proof.
  intros w w0. split; [|split].
  - destruct (start_unguarded_page_guards w 0 None 1000 true capture_started)
      as (_ & _ & _ & H & _).
    destruct H as ((_ & H & _) & _); [vm_compute; discriminate|]. exact H.
  - destruct (start_unguarded_page_guards w0 0 None 100 true capture_started)
      as (_ & _ & _ & _ & H).
    destruct H as (H & _); [reflexivity..|]. rewrite H. vm_compute.
    reflexivity.
  - destruct (start_unguarded_page_guards w 0 None 0 true capture_unsupported)
      as (_ & H & _).
    destruct H as (H & _); [discriminate|]. exact H.
Defined.

(** *** The list of responses *)

(** C2, as stated, fails: after the first answer the practice page
    invites to record again, and a second recording of the same prompt
    adds a second entry while the prompt index has not moved; in the
    mock test the debate topic can be answered twice in the same way. *)
Lemma rerecording_adds_second_entry :
  NoDup (Practice.start_questions two_prompts) /\
  Practice.currentIndex (Practice.page answered_twice) = 0 /\
  Practice.hint answered_twice = Practice.RecordAgainOrContinue /\
  Practice.question <$> Practice.responses (Practice.page answered_twice)
  = [Some "q1"; Some "q1"] /\
  ~ one_entry_per_prompt answered_twice /\
  view debate_answered_twice = VDebateRecording /\
  (fun r => (part r, question r)) <$> responses (page debate_answered_twice)
  = [(Some "3", Some "T"); (Some "3", Some "T")].
Proof.
  split; [repeat constructor; set_solver|].
  split; [vm_compute; reflexivity|].
  split; [vm_compute; reflexivity|].
  split; [vm_compute; reflexivity|].
  split.
  { unfold one_entry_per_prompt.
    replace (Practice.question <$> Practice.responses (Practice.page answered_twice))
      with [Some "q1"; Some "q1"] by (vm_compute; reflexivity).
    intros H. apply NoDup_cons_1_1 in H. set_solver. }
  split; vm_compute; reflexivity.
Qed.

Lemma handleRecording_submits (w : World) (q : Question) :
  has_widgets (view w) = true ->
  currentPart w <> Some "3" ->
  currentQuestions w !! currentIndex (page w) = Some q ->
  pendingRespond (net (handleRecording w))
  = (pendingRespond (net w)
     ++ [{| sub_part := currentPart w; sub_question := Some (q_question q);
            sub_isDebate := false; sub_gen := domGen w |}])%list /\
  responses (page (handleRecording w)) = responses (page w).
Proof.
  intros Hv Hp Hq. unfold handleRecording. rewrite Hv.
  rewrite (write_current _ w (domGen w)) by done.
  cbv zeta.
  change (currentPart (with_widgets ?x w)) with (currentPart w).
  change (currentQuestions (with_widgets ?x w)) with (currentQuestions w).
  change (currentIndex (page (with_widgets ?x w))) with (currentIndex (page w)).
  rewrite (bool_decide_eq_false_2 _ Hp), Hq. done.
Qed.

(** C2, amended. Along any run that does not open the mock test anew,
    and along any run of the practice page, [responses] only grows at
    its end: after a later stretch of events it is the earlier list
    followed by one entry per submission that succeeded in that
    stretch, in the order they succeeded, each carrying the part and
    prompt text captured by that submission with the returned
    transcript and duration. Its length grows by the number of those
    successes and never shrinks. A submission is made when a recording
    is handed in and captures the prompt at the current index; a prompt
    answered again gets a further entry. *)
Theorem responses_append_only (w : World) (es1 es2 : list Event)
    (pw : Practice.World) (pes1 pes2 : list Practice.Event) :
  Forall (fun e => e <> OpenMockTest) (es1 ++ es2) ->
  (responses (page (run w (es1 ++ es2)))
   = (responses (page (run w es1)) ++ appended (run w es1) es2)%list /\
   length (appended (run w es1) es2) = successes (run w es1) es2 /\
   length (responses (page (run w es1)))
   <= length (responses (page (run w (es1 ++ es2))))) /\
  (Practice.responses (Practice.page (Practice.run pw (pes1 ++ pes2)))
   = (Practice.responses (Practice.page (Practice.run pw pes1))
      ++ Practice.appended (Practice.run pw pes1) pes2)%list /\
   length (Practice.appended (Practice.run pw pes1) pes2)
   = Practice.successes (Practice.run pw pes1) pes2 /\
   length (Practice.responses (Practice.page (Practice.run pw pes1)))
   <= length (Practice.responses (Practice.page (Practice.run pw (pes1 ++ pes2))))) /\
  (forall (w0 : World) (q : Question),
     has_widgets (view w0) = true ->
     currentPart w0 <> Some "3" ->
     currentQuestions w0 !! currentIndex (page w0) = Some q ->
     pendingRespond (net (handleRecording w0))
     = (pendingRespond (net w0)
        ++ [{| sub_part := currentPart w0; sub_question := Some (q_question q);
               sub_isDebate := false; sub_gen := domGen w0 |}])%list /\
     responses (page (handleRecording w0)) = responses (page w0)).
Proof.
  intros Hes. apply Forall_app in Hes as [_ Hes2]. split; [|split].
  - assert (Hrun : run w (es1 ++ es2) = run (run w es1) es2)
      by (unfold run; apply foldl_app).
    rewrite Hrun, (run_responses es2 (run w es1) Hes2).
    split; [done|]. split; [apply appended_length|].
    rewrite length_app. lia.
  - assert (Hrun : Practice.run pw (pes1 ++ pes2)
                   = Practice.run (Practice.run pw pes1) pes2)
      by (unfold Practice.run; apply foldl_app).
    rewrite Hrun, (PracticeFacts.practice_run_responses pes2 (Practice.run pw pes1)).
    split; [done|]. split; [apply PracticeFacts.practice_appended_length|].
    rewrite length_app. lia.
  - apply handleRecording_submits.
Qed.

Lemma responses_append_only_witness :
  responses (page (run (run init [OpenMockTest]) (opening ++ answering)))
  = (responses (page (run (run init [OpenMockTest]) opening))
     ++ appended (run (run init [OpenMockTest]) opening) answering)%list.
Proof.
  assert (Hes : Forall (fun e => e <> OpenMockTest) (opening ++ answering))
    by (unfold opening, answering; cbn [app]; repeat constructor; discriminate).
  destruct (responses_append_only (run init [OpenMockTest]) opening answering
              (Practice.open None) [] [] Hes) as [[H _] _].
  exact H.
Defined.

(** *** Words per minute *)

Lemma handleRecording_resume_card (sub : Submission) (result : RespondOk)
    (w : World) :
  sub_gen sub = domGen w ->
  has_widgets (view w) = true ->
  showTranscription (page w) = true ->
  transcriptionArea (widgets (handleRecording_resume sub (Resolved result) w))
  = TCard (r_transcription result) (words (r_transcription result))
      (wpm (words (r_transcription result)) (r_duration result))
      (r_duration result).
Proof.
  intros Hg Hv Hs. unfold handleRecording_resume, showNextWithAutoAdvance,
    setInterval, write.
  destruct_world w. subst dg shT. cbn.
  rewrite Hv, !(bool_decide_eq_true_2 (sub_gen sub = sub_gen sub)) by done. cbn.
  destruct (sub_isDebate sub); cbn;
    rewrite Hv, !(bool_decide_eq_true_2 (sub_gen sub = sub_gen sub)) by done;
    cbn; rewrite ?Hv, ?(bool_decide_eq_true_2 (sub_gen sub = sub_gen sub)) by done;
    reflexivity.
Qed.

(** C9. The word count is the number of maximal runs of non-space code
    units of the transcript. The duration is the double [d] read from
    the response. With a zero duration the speaking rate is 0, and so
    it is whenever [d > 0] fails, which a duration that is zero or
    negative makes it; when [d > 0] holds, [d] is not a zero and the
    rate is [Math.round((words / d) * 60)] computed on doubles. A
    positive duration passes the guard unless it is so small that it
    reads as zero. The rate is never [NaN]: it is an integer or, when
    the quotient overflows, plus infinity. On a successful submission
    with transcription shown, the card displays these values. *)
Theorem wpm_guarded (transcription : JS.str) (duration : Q) (w : World)
    (sub : Submission) :
  let n := words transcription in
  let d := JS.of_Q duration in
  n = tokens transcription /\
  ((duration == 0)%Q -> d = S754_zero false /\ wpm n duration = JS.Fin 0) /\
  (JS.gt0 d = false -> wpm n duration = JS.Fin 0) /\
  (JS.gt0 d = true ->
     d <> S754_zero false /\ d <> S754_zero true /\
     wpm n duration
     = JS.Math_round (JS.fmul (JS.fdiv (JS.of_nat n) d) JS.sixty)) /\
  ((duration <= 0)%Q -> JS.gt0 d = false) /\
  ((0 < duration)%Q -> JS.gt0 d = true \/ d = S754_zero false) /\
  (wpm n duration = JS.Inf false \/
   exists k, wpm n duration = JS.Fin (inject_Z k)) /\
  (sub_gen sub = domGen w -> has_widgets (view w) = true ->
   showTranscription (page w) = true ->
   transcriptionArea
     (widgets (handleRecording_resume sub
                 (Resolved {| r_transcription := transcription;
                              r_duration := duration |}) w))
   = TCard transcription n (wpm n duration) duration).
Proof.
  intros n d. split; [apply words_tokens|]. split.
  { intros H. split; [by apply of_Q_sign|]. apply wpm_nonpositive. lra. }
  split; [apply wpm_unguarded|]. split.
  { intros H. repeat split.
    - intros E. rewrite E in H. done.
    - intros E. rewrite E in H. done.
    - unfold wpm. fold d. by rewrite H. }
  split.
  { intros H. destruct (Qlt_le_dec duration 0) as [Hlt|Hge].
    - by rewrite (gt0_sign true) by by apply of_Q_sign.
    - subst d. by rewrite (proj1 (of_Q_sign duration)) by lra. }
  split.
  { intros H. apply of_Q_sign in H. fold d in H.
    destruct H as [H|[H|(m & e & H)]]; [by right|left; by rewrite H..]. }
  split; [apply wpm_range|].
  intros Hg Hv Hs. by rewrite handleRecording_resume_card.
Qed.

Lemma wpm_guarded_witness :
  wpm (words [104; 105; 32; 116; 104; 101; 114; 101]%N) 0 = JS.Fin 0 /\
  wpm (words [104; 105; 32; 116; 104; 101; 114; 101]%N) (5 # 2) = JS.Fin 48.
Proof.
  split.
  - destruct (wpm_guarded [104; 105; 32; 116; 104; 101; 114; 101]%N 0 init
             {| sub_part := None; sub_question := None; sub_isDebate := false;
                sub_gen := 0 |}) as (_ & H & _).
    apply H. reflexivity.
  - destruct (wpm_guarded [104; 105; 32; 116; 104; 101; 114; 101]%N (5 # 2) init
             {| sub_part := None; sub_question := None; sub_isDebate := false;
                sub_gen := 0 |}) as (_ & _ & _ & H & _).
    destruct H as (_ & _ & H); [reflexivity|]. rewrite H. reflexivity.
Defined.

(** The rate is rounded from the double, not from the exact quotient:
    49 words in 24 seconds are 122.49999999999999 words a minute, and a
    duration below the least positive normal double overflows the
    quotient. *)
Lemma wpm_rounds_the_double :
  wpm 49 24 = JS.Fin 122 /\ wpm 41 40 = JS.Fin 61 /\
  wpm 82 80 = JS.Fin 61 /\ wpm 101 24 = JS.Fin 252 /\
  wpm 2 (5 # 2) = JS.Fin 48 /\ wpm 100 (1 # 10) = JS.Fin 60000 /\
  wpm 3 (1 # 10 ^ 320) = JS.Inf false /\ wpm 3 (1 # 10 ^ 400) = JS.Fin 0.
Proof. vm_compute. done. Qed.

(** *** Witnesses for the stop and retry rules *)

Lemma early_stop_rejected_witness :
  hint (widgets (step recording_since_0 (TapRecord 2000 true))) = WaitMore 3 /\
  state (page (step recording_since_0 (TapRecord 2000 true))) = recording /\
  responses (page (step recording_since_0 (TapRecord 2000 true))) = [].
Proof.
  destruct (early_stop_rejected recording_since_0 2000 true eq_refl eq_refl
              ltac:(vm_compute; reflexivity))
    as (_ & _ & _ & _ & _ & H1 & H2 & _ & _ & _ & H3 & _).
  split; [rewrite H3; vm_compute; reflexivity|].
  split; [exact H1|]. rewrite H2. vm_compute. reflexivity.
Defined.

Lemma submit_failure_allows_retry_witness :
  responses (page (step awaiting_transcript (RespondResult 0 (Rejected "Service error"))))
  = responses (page awaiting_transcript) /\
  hint (widgets (step awaiting_transcript (RespondResult 0 (Rejected "Service error"))))
  = TapToTryAgain.
Proof.
  destruct (submit_failure_allows_retry awaiting_transcript 0
              {| sub_part := Some "1.1"; sub_question := Some "a1";
                 sub_isDebate := false; sub_gen := 3 |}
              "Service error" 7000 ltac:(vm_compute; reflexivity))
    as (H1 & _ & _ & _ & _ & _ & H2).
  split; [exact H1|]. apply H2; vm_compute; reflexivity.
Defined.

(** ** Further properties of the code *)

(** *** The time display *)

Lemma length_append (s t : string) :
  String.length (s +:+ t) = String.length s + String.length t.
Proof.
  induction s as [|c s IH]; [done|].
  change (S (String.length (s +:+ t)) = S (String.length s + String.length t)).
  by rewrite IH.
Qed.

Lemma append_assoc (s t u : string) : (s +:+ t) +:+ u = s +:+ t +:+ u.
Proof.
  induction s as [|c s IH]; [done|].
  change (String c ((s +:+ t) +:+ u) = String c (s +:+ t +:+ u)).
  by rewrite IH.
Qed.

Lemma append_inj_length (s1 s2 t1 t2 : string) :
  s1 +:+ t1 = s2 +:+ t2 -> String.length t1 = String.length t2 ->
  s1 = s2 /\ t1 = t2.
Proof.
  revert s2. induction s1 as [|c s1 IH]; intros [|d s2] H Hl.
  - done.
  - change (t1 = String d (s2 +:+ t2)) in H. rewrite H in Hl.
    cbn in Hl. rewrite length_append in Hl. lia.
  - change (String c (s1 +:+ t1) = t2) in H. rewrite <- H in Hl.
    cbn in Hl. rewrite length_append in Hl. lia.
  - change (String c (s1 +:+ t1) = String d (s2 +:+ t2)) in H.
    injection H as -> H. destruct (IH _ H Hl) as [-> ->]. done.
Qed.

Lemma padStart2_two_digits (r : Z) :
  (0 <= r < 60)%Z -> padStart2 (pretty r) = two_digits r.
Proof.
  intros Hr. replace r with (Z.of_nat (Z.to_nat r)) by lia.
  assert (Hn : Z.to_nat r < 60) by lia.
  set (n := Z.to_nat r) in *. clearbody n. clear Hr.
  do 60 (destruct n as [|n]; [vm_compute; reflexivity|]). lia.
Qed.

Lemma digit_char_inj (a b : Z) :
  (0 <= a < 10)%Z -> (0 <= b < 10)%Z -> digit_char a = digit_char b -> a = b.
Proof.
  intros Ha Hb H. unfold digit_char in H.
  apply (f_equal Ascii.nat_of_ascii) in H.
  rewrite !Ascii.nat_ascii_embedding in H by lia. lia.
Qed.

Lemma two_digits_inj (r r' : Z) :
  (0 <= r < 60)%Z -> (0 <= r' < 60)%Z -> two_digits r = two_digits r' -> r = r'.
Proof.
  intros Hr Hr' H. unfold two_digits in H. injection H as H1 H0.
  apply digit_char_inj in H1; [|split; [apply Z.div_pos|apply Z.div_lt_upper_bound]; lia..].
  apply digit_char_inj in H0; [|apply Z.mod_pos_bound; lia..].
  rewrite (Z.div_mod r 10), (Z.div_mod r' 10) by lia. lia.
Qed.

(** X1. For a time that is not negative, [formatTime] shows the whole
    minutes, a colon and the remaining seconds as exactly two digits,
    and different times are shown differently. *)
Theorem formatTime_minutes_seconds (seconds : Z) :
  (0 <= seconds)%Z ->
  formatTime seconds
  = pretty (seconds / 60)%Z +:+ ":" +:+ two_digits (seconds mod 60) /\
  (forall other, (0 <= other)%Z ->
     formatTime seconds = formatTime other -> seconds = other).
Proof.
  assert (Hshape : forall s, (0 <= s)%Z ->
            formatTime s = pretty (s / 60)%Z +:+ ":" +:+ two_digits (s mod 60)).
  { intros s Hs. unfold formatTime. cbv zeta.
    rewrite Z.rem_mod_nonneg by lia.
    rewrite padStart2_two_digits by (apply Z.mod_pos_bound; lia). done. }
  intros Hs. split; [by apply Hshape|].
  intros other Ho H. rewrite !Hshape in H by done.
  apply append_inj_length in H as [H1 H2]; [|done].
  assert (H3 : two_digits (seconds mod 60) = two_digits (other mod 60))
    by (apply (append_inj_length ":" ":") in H2 as [_ H2]; done).
  clear H2. rename H3 into H2.
  apply (inj pretty) in H1.
  apply two_digits_inj in H2; [|apply Z.mod_pos_bound; lia..].
  rewrite (Z.div_mod seconds 60), (Z.div_mod other 60) by lia. lia.
Qed.

Lemma formatTime_minutes_seconds_witness :
  formatTime 75 = "1:15" /\ formatTime 5 = "0:05".
Proof.
  split.
  - rewrite (proj1 (formatTime_minutes_seconds 75 ltac:(lia))). vm_compute. reflexivity.
  - rewrite (proj1 (formatTime_minutes_seconds 5 ltac:(lia))). vm_compute. reflexivity.
Defined.

(** *** The uploaded file name *)

(** X2. Whatever the browser supports, the recorder's mime type is one
    of its four candidates, and the name of the uploaded file carries
    the extension of that container: webm when a webm candidate is
    supported or none is, ogg when ogg is the first supported, m4a when
    only mp4 is. The mp3 entry of the table is never used, and the
    .ogg default only applies before the recorder was ever started. *)
Theorem upload_name_follows_container (isTypeSupported : string -> bool) :
  let mimeType := Recorder_mimeType isTypeSupported in
  (mimeType ∈ mimeTypes) /\
  (isTypeSupported "audio/webm;codecs=opus" = true \/
   isTypeSupported "audio/webm" = true ->
     recording_name mimeType = "recording.webm") /\
  (isTypeSupported "audio/webm;codecs=opus" = false ->
   isTypeSupported "audio/webm" = false ->
   isTypeSupported "audio/ogg;codecs=opus" = true ->
     mimeType = "audio/ogg;codecs=opus" /\
     recording_name mimeType = "recording.ogg") /\
  (isTypeSupported "audio/webm;codecs=opus" = false ->
   isTypeSupported "audio/webm" = false ->
   isTypeSupported "audio/ogg;codecs=opus" = false ->
   isTypeSupported "audio/mp4" = true ->
     mimeType = "audio/mp4" /\ recording_name mimeType = "recording.m4a") /\
  (isTypeSupported "audio/webm;codecs=opus" = false ->
   isTypeSupported "audio/webm" = false ->
   isTypeSupported "audio/ogg;codecs=opus" = false ->
   isTypeSupported "audio/mp4" = false ->
     mimeType = "audio/webm" /\ recording_name mimeType = "recording.webm") /\
  recording_name mimeType <> "recording.mp3" /\
  recording_name EmptyString = "recording.ogg".
Proof.
  unfold Recorder_mimeType, pick_mimeType, mimeTypes.
  rewrite !filter_cons, filter_nil.
  destruct (isTypeSupported "audio/webm;codecs=opus") eqn:E1,
    (isTypeSupported "audio/webm") eqn:E2,
    (isTypeSupported "audio/ogg;codecs=opus") eqn:E3,
    (isTypeSupported "audio/mp4") eqn:E4;
    (split; [vm_compute;
             repeat first [apply list_elem_of_here | apply list_elem_of_further]|]);
    vm_compute; repeat split; try reflexivity; try discriminate;
    try (intros [?|?]; discriminate).
Qed.

Lemma upload_name_follows_container_witness :
  recording_name
    (Recorder_mimeType (fun t => bool_decide (t = "audio/mp4")))
  = "recording.m4a".
Proof.
  apply (upload_name_follows_container (fun t => bool_decide (t = "audio/mp4")));
    reflexivity.
Defined.

(** *** Errors of the API client on the start screen *)

Lemma includes_needs_first_char (c : Ascii.ascii) (pat s : string) :
  occurs c s = false -> JS.includes s (String c pat) = false.
Proof.
  induction s as [|a s IH]; [done|].
  cbn. intros H. apply orb_false_elim in H as [Ha Hs].
  rewrite Ascii.eqb_sym in Ha. rewrite (Ascii.eqb_sym c a), Ha, IH by done. done.
Qed.

Lemma occurs_append (c : Ascii.ascii) (s t : string) :
  occurs c (s +:+ t) = occurs c s || occurs c t.
Proof.
  induction s as [|a s IH]; [done|].
  change (Ascii.eqb c a || occurs c (s +:+ t)
          = Ascii.eqb c a || occurs c s || occurs c t).
  by rewrite IH, orb_assoc.
Qed.

Lemma occurs_pretty_N_go (c : Ascii.ascii) (x : N) :
  (forall d, pretty_N_char d <> c) ->
  forall s, occurs c (pretty_N_go x s) = occurs c s.
Proof.
  intros Hc. induction (N.lt_wf_0 x) as [x _ IH]. intros s.
  destruct (decide (x = 0)%N) as [->|Hx]; [by rewrite pretty_N_go_0|].
  rewrite pretty_N_go_step by lia.
  rewrite IH by (apply N.div_lt; lia). cbn.
  destruct (Ascii.eqb_spec c (pretty_N_char (x mod 10))) as [->|]; [|done].
  by destruct (Hc (x mod 10)%N).
Qed.

Lemma occurs_pretty_nat (c : Ascii.ascii) (n : nat) :
  (forall d, pretty_N_char d <> c) -> c <> Ascii.ascii_of_nat 48 ->
  occurs c (pretty n) = false.
Proof.
  intros Hc H0. unfold pretty, pretty_nat, pretty, pretty_N.
  case_decide.
  - cbn. rewrite orb_false_r. apply Ascii.eqb_neq. exact H0.
  - by rewrite occurs_pretty_N_go.
Qed.

Lemma http_status_is_not_limit (status : nat) :
  JS.includes ("HTTP " +:+ pretty status) "Daily mock limit" = false.
Proof.
  apply includes_needs_first_char. rewrite occurs_append.
  rewrite occurs_pretty_nat; [done| |done].
  intros d. unfold pretty_N_char. by repeat case_match.
Qed.

Lemma render_resume_rejected (w : World) (message : string) :
  0 < pendingStart (net w) ->
  view (render_resume (Rejected message) w)
  = VStartFailed (JS.includes message "Daily mock limit") message.
Proof.
  intros Hp. unfold render_resume.
  destruct (pendingStart (net w)) as [|k]; [lia|]. reflexivity.
Qed.

(** X3. A start request answered with a status that is not ok always
    ends on the error screen, never on the intro. The upgrade prompt is
    shown exactly when the JSON body has a non-empty [detail] text that
    contains the daily-limit words; a body that is not JSON is reported
    as "Request failed", and a body without [detail] as "HTTP" and the
    status, both as plain errors whatever the status code is. *)
Theorem start_error_by_detail (w : World) (status : nat)
    (body : Body StartOk) :
  0 < pendingStart (net w) ->
  let shown := view (render_resume (API_request (Response false status body)) w) in
  (body = NotJson -> shown = VStartFailed false "Request failed") /\
  (forall value detail, body = Json detail value ->
     detail = None \/ detail = Some EmptyString ->
     shown = VStartFailed false ("HTTP " +:+ pretty status)) /\
  (forall value d, body = Json (Some d) value -> d <> EmptyString ->
     shown = VStartFailed (JS.includes d "Daily mock limit") d) /\
  shown <> VIntro.
Proof.
  intros Hp shown. subst shown. repeat split.
  - intros ->. change (API_request _) with (@Rejected StartOk "Request failed").
    by rewrite render_resume_rejected.
  - intros value detail -> Hd.
    assert (He : API_request (Response false status (Json detail value))
                 = Rejected ("HTTP " +:+ pretty status))
      by (destruct Hd as [-> | ->]; reflexivity).
    rewrite He, render_resume_rejected by done.
    by rewrite http_status_is_not_limit.
  - intros value d -> Hd.
    assert (He : API_request (Response false status (Json (Some d) value))
                 = Rejected d).
    { unfold API_request. by rewrite bool_decide_eq_false_2. }
    by rewrite He, render_resume_rejected.
  - assert (He : exists m, API_request (Response false status body) = Rejected m).
    { destruct body as [|[d|] value]; unfold API_request;
        try case_bool_decide; eauto. }
    destruct He as [m ->]. by rewrite render_resume_rejected.
Qed.

Lemma start_error_by_detail_witness :
  view (render_resume
          (API_request (Response false 429 (NotJson : Body StartOk)))
          (run init [OpenMockTest]))
  = VStartFailed false "Request failed".
Proof.
  apply (start_error_by_detail (run init [OpenMockTest]) 429 NotJson).
  - vm_compute. lia.
  - reflexivity.
Defined.

(** *** The preparation countdown *)

Lemma prep_tick_running (id : nat) (p : Prep.State) (s : Z) (txt : string) :
  Prep.timers p !! id = Some s -> Prep.prepTime p = Some txt -> (1 < s)%Z ->
  Prep.tick id p
  = {| Prep.prepTimer := Prep.prepTimer p;
       Prep.timers := <[id := (s - 1)%Z]> (Prep.timers p);
       Prep.nextTimer := Prep.nextTimer p;
       Prep.prepTime := Some (formatTime (s - 1));
       Prep.recorderHidden := Prep.recorderHidden p |}.
Proof.
  intros Ht Hp Hs. unfold Prep.tick. rewrite Ht. cbn.
  rewrite (proj2 (Z.leb_gt _ _)) by lia. by rewrite Hp.
Qed.

Lemma prep_tick_expires (id : nat) (p : Prep.State) (s : Z) :
  Prep.timers p !! id = Some s -> Prep.prepTimer p = Some id -> (s <= 1)%Z ->
  Prep.tick id p
  = {| Prep.prepTimer := None;
       Prep.timers := delete id (Prep.timers p);
       Prep.nextTimer := Prep.nextTimer p;
       Prep.prepTime := None;
       Prep.recorderHidden := false |}.
Proof.
  intros Ht Hp Hs. unfold Prep.tick. rewrite Ht. cbn.
  rewrite (proj2 (Z.leb_le _ _)) by lia.
  unfold Prep.endPrep. cbn. rewrite Hp. by rewrite delete_insert_eq.
Qed.

Lemma prep_ticks_running (id : nat) (k : nat) : forall (p : Prep.State) (s : Z)
    (txt : string),
  Prep.timers p !! id = Some s -> Prep.prepTime p = Some txt ->
  0 < k -> (Z.of_nat k < s)%Z ->
  Prep.ticks k id p
  = {| Prep.prepTimer := Prep.prepTimer p;
       Prep.timers := <[id := (s - Z.of_nat k)%Z]> (Prep.timers p);
       Prep.nextTimer := Prep.nextTimer p;
       Prep.prepTime := Some (formatTime (s - Z.of_nat k));
       Prep.recorderHidden := Prep.recorderHidden p |}.
Proof.
  induction k as [|k IH]; intros p s txt Ht Hp Hk Hs; [lia|].
  cbn [Prep.ticks]. rewrite (prep_tick_running id p s txt) by (done || lia).
  destruct k as [|k].
  - cbn [Prep.ticks]. by replace (s - Z.of_nat 1)%Z with (s - 1)%Z by lia.
  - rewrite (IH _ (s - 1)%Z (formatTime (s - 1))); cbn;
      [|by rewrite lookup_insert_eq|done|lia|lia].
    rewrite insert_insert_eq.
    by replace (s - 1 - Z.of_nat (S k))%Z with (s - Z.of_nat (S (S k)))%Z by lia.
Qed.

(** X4. After [startPrepTimer] the countdown shows the remaining time
    at every tick and leaves the recorder area as it was (hidden); the
    60th tick ends the preparation: the recorder area is revealed, the
    prep area emptied and the timer cleared, so that a further tick
    does nothing. *)
Theorem prep_timer_expires_after_60 (p0 : Prep.State) (k : nat) :
  let id := Prep.nextTimer p0 in
  let p := Prep.startPrepTimer p0 in
  (k < 60 ->
     Prep.recorderHidden (Prep.ticks k id p) = Prep.recorderHidden p0 /\
     Prep.prepTime (Prep.ticks k id p) = Some (formatTime (60 - Z.of_nat k)) /\
     Prep.prepTimer (Prep.ticks k id p) = Some id) /\
  Prep.recorderHidden (Prep.ticks 60 id p) = false /\
  Prep.prepTime (Prep.ticks 60 id p) = None /\
  Prep.prepTimer (Prep.ticks 60 id p) = None /\
  Prep.timers (Prep.ticks 60 id p) !! id = None /\
  Prep.tick id (Prep.ticks 60 id p) = Prep.ticks 60 id p.
Proof.
  intros id p.
  assert (Ht : Prep.timers p !! id = Some 60%Z) by apply lookup_insert_eq.
  assert (Hp : Prep.prepTime p = Some "1:00") by done.
  split.
  - intros Hk. destruct k as [|k]; [done|].
    rewrite (prep_ticks_running id (S k) p 60 "1:00") by (done || lia). done.
  - change 60 with (59 + 1) at 1 2 3 4 5 6.
    assert (He : Prep.ticks (59 + 1) id p = Prep.tick id (Prep.ticks 59 id p)).
    { generalize 59. intros n. generalize p. induction n as [|n IH]; intros q; [done|].
      cbn [Nat.add Prep.ticks]. apply IH. }
    rewrite He, (prep_ticks_running id 59 p 60 "1:00") by (done || lia).
    rewrite (prep_tick_expires id _ 1); cbn;
      [|by rewrite lookup_insert_eq|done|lia].
    repeat split; try done.
    + by rewrite lookup_delete_eq.
    + unfold Prep.tick. cbn. by rewrite lookup_delete_eq.
Qed.

Lemma prep_timer_expires_after_60_witness :
  Prep.prepTime
    (Prep.ticks 15 (Prep.nextTimer (Prep.rendered None ∅ 0))
       (Prep.startPrepTimer (Prep.rendered None ∅ 0)))
  = Some (formatTime (60 - Z.of_nat 15)).
Proof.
  destruct (prep_timer_expires_after_60 (Prep.rendered None ∅ 0) 15) as [H _].
  destruct H as (_ & H & _); [lia|]. exact H.
Defined.

(** X5. While the countdown runs, Skip ends the preparation at once:
    the recorder area is revealed and the timer cleared, so that no
    later tick of that timer and no second Skip changes anything; and
    the back handler clears the timer as well. Expiry and Skip thus
    never both take effect. *)
Theorem prep_skip_ends_once (p : Prep.State) (id : nat) (txt : string) :
  Prep.prepTimer p = Some id ->
  Prep.prepTime p = Some txt ->
  Prep.recorderHidden (Prep.skip p) = false /\
  Prep.prepTimer (Prep.skip p) = None /\
  Prep.timers (Prep.skip p) !! id = None /\
  Prep.tick id (Prep.skip p) = Prep.skip p /\
  Prep.skip (Prep.skip p) = Prep.skip p /\
  Prep.timers (Prep.back p) !! id = None /\
  Prep.tick id (Prep.back p) = Prep.back p.
Proof.
  intros Hi Hp. unfold Prep.skip, Prep.back, Prep.endPrep, Prep.tick.
  rewrite Hp, Hi. cbn. rewrite !lookup_delete_eq. done.
Qed.

Lemma prep_skip_ends_once_witness :
  Prep.recorderHidden (Prep.skip (Prep.startPrepTimer (Prep.rendered None ∅ 0)))
  = false.
Proof.
  destruct (prep_skip_ends_once (Prep.startPrepTimer (Prep.rendered None ∅ 0))
              0 "1:00" eq_refl eq_refl) as [H _].
  exact H.
Defined.

Ltac setters :=
  lazy beta iota zeta delta [with_sessionId with_test with_currentPartIndex
    with_currentIndex with_responses with_state with_showTranscription
    with_selectedVoice with_mood with_recordingStartTime with_autoAdvanceTimer
    with_currentAudio with_debateSide with_mediaRecorder with_stream
    with_startTime with_timerInterval with_onTick with_onStop with_maxDuration
    with_intervals with_openStreams with_recordingMRs with_stoppingMRs
    with_playing with_nextId with_pendingStart with_pendingRespond
    with_pendingComplete with_pendingTts with_pendingHome with_calls
    with_pendingMic with_homeBuild
    with_btnRecording with_btnDisabled with_timer with_hint
    with_transcriptionArea with_actionArea with_page with_rec with_env with_net
    with_currentPage with_view with_widgets with_domGen with_uncaught
    on_page on_rec on_env on_net log_call
    page rec env net currentPage view widgets domGen uncaught
    sessionId test currentPartIndex currentIndex responses state
    showTranscription selectedVoice mood recordingStartTime autoAdvanceTimer
    currentAudio debateSide
    mediaRecorder stream startTime timerInterval onTick onStop maxDuration
    intervals openStreams recordingMRs stoppingMRs playing nextId
    pendingStart pendingRespond pendingComplete pendingTts pendingHome calls
    pendingMic homeBuild].

Lemma renderQuestion_widgets (g : Widgets) (w : World) :
  renderQuestion (with_widgets g w) = renderQuestion w.
Proof.
  unfold renderQuestion, renderDebateSelection, renderDebateRecording,
    renderPartTransition, showResults, playQuestion, clearAutoAdvance,
    clearInterval, set_innerHTML, currentQuestions, currentPartData, currentPart.
  destruct_world w.
  destruct aat; cbn; repeat (case_match; cbn; try done);
    exfalso;
    match goal with
    | Hb : bool_decide (_ <= _) = false, Hn : _ !! _ = None |- _ =>
        apply bool_decide_eq_false_1 in Hb; apply lookup_ge_None in Hn; lia
    end.
Qed.

Lemma renderQuestion_intervals (w : World) :
  intervals (env (renderQuestion w)) = intervals (env (clearAutoAdvance w)).
Proof.
  unfold renderQuestion, renderDebateSelection, renderDebateRecording,
    renderPartTransition, showResults, playQuestion, clearAutoAdvance,
    clearInterval, set_innerHTML, currentQuestions, currentPartData, currentPart.
  destruct_world w.
  destruct aat; cbn; repeat (case_match; cbn; try done).
Qed.

Lemma counting_again t c c' gen w :
  counting t c gen (counting t c' gen w) = counting t c gen w.
Proof.
  unfold counting, write. destruct_world w.
  destruct (bool_decide (gen = dg) && has_widgets v) eqn:E; setters; rewrite ?E;
    setters; by rewrite insert_insert_eq.
Qed.

Lemma showNext_counting gen w0 :
  showNextWithAutoAdvance gen w0
  = counting (nextId (env w0)) 5 gen
      (w0 |> on_env (with_nextId (S (nextId (env w0))))
          |> on_page (with_autoAdvanceTimer (Some (nextId (env w0))))).
Proof.
  unfold showNextWithAutoAdvance, counting, write, setInterval. destruct_world w0.
  case_match; setters; done.
Qed.

Lemma goNext_counting t c k gen w :
  autoAdvanceTimer (page w) = Some t ->
  goNext (on_env (fun e => with_intervals (<[t:=k]> (intervals e)) e)
            (counting t c gen w)) = goNext w.
Proof.
  intros Ht. unfold goNext.
  set (adv := on_page (fun p => p |> with_currentIndex (S (currentIndex p))
                                  |> with_state idle)).
  assert (exists g,
    adv (clearAutoAdvance
           (on_env (fun e => with_intervals (<[t:=k]> (intervals e)) e)
              (counting t c gen w)))
    = with_widgets g (adv (clearAutoAdvance w))) as [g ->].
  { subst adv. unfold counting, write, clearAutoAdvance, clearInterval.
    destruct_world w. subst aat.
    destruct (bool_decide (gen = dg) && has_widgets v) eqn:E; setters;
      rewrite delete_insert_eq, delete_insert_eq; eauto. }
  apply renderQuestion_widgets.
Qed.

Lemma tick_counting t c gen w now :
  autoAdvanceTimer (page w) = Some t ->
  step (counting t c gen w) (IntervalFired t now)
  = if (c - 1 <=? 0)%Z then goNext w else counting t (c - 1) gen w.
Proof.
  intros Ht. cbn [step].
  assert (intervals (env (counting t c gen w)) !! t = Some (AutoAdvance c gen)) as ->.
  { unfold counting, write. case_match; cbn; by rewrite lookup_insert_eq. }
  unfold autoAdvance_tick. case_match.
  - by apply goNext_counting.
  - unfold counting, write. destruct_world w.
    destruct (bool_decide (gen = dg) && has_widgets v) eqn:E; setters; rewrite ?E;
      setters; by rewrite insert_insert_eq.
Qed.

Lemma goNext_timer_dead t w now :
  autoAdvanceTimer (page w) = Some t ->
  step (goNext w) (IntervalFired t now) = goNext w.
Proof.
  intros Ht. cbn [step].
  assert (intervals (env (goNext w)) !! t = None) as ->; [|done].
  unfold goNext. rewrite renderQuestion_intervals.
  unfold clearAutoAdvance, clearInterval. destruct_world w. subst aat.
  setters. by rewrite lookup_delete_eq.
Qed.

Lemma run_app (w : World) (es1 es2 : list Event) :
  run w (es1 ++ es2) = run (run w es1) es2.
Proof. apply foldl_app. Qed.

Lemma countdown (t : nat) (gen : nat) (w : World) (nows : list Z) :
  autoAdvanceTimer (page w) = Some t ->
  forall c : Z,
  (Z.of_nat (length nows) < c)%Z ->
  run (counting t c gen w) (ticks t nows)
  = counting t (c - Z.of_nat (length nows)) gen w.
Proof.
  intros Ht. induction nows as [|now nows IH] using rev_ind; intros c Hc.
  - cbn. f_equal. lia.
  - unfold ticks in *. rewrite fmap_app, run_app, length_app in *. cbn [length] in *.
    rewrite IH by lia. cbn [fmap list_fmap run foldl].
    rewrite tick_counting by done.
    destruct (Z.leb_spec (c - Z.of_nat (length nows) - 1) 0); [lia|].
    f_equal. lia.
Qed.

Lemma counting_id t c gen w :
  intervals (env w) !! t = Some (AutoAdvance c gen) ->
  (gen = domGen w -> has_widgets (view w) = true ->
   actionArea (widgets w) = ANext c) ->
  counting t c gen w = w.
Proof.
  intros Hi Ha. unfold counting, write. destruct_world w.
  destruct (bool_decide_reflect (gen = dg)) as [->|]; cbn [andb]; setters.
  - destruct (has_widgets v) eqn:Hv; rewrite insert_id by done; [|done].
    destruct wd; cbn in *. by rewrite Ha.
  - by rewrite insert_id.
Qed.

Lemma env_write g f w : env (write g f w) = env w.
Proof. unfold write. by case_match. Qed.
Lemma domGen_write g f w : domGen (write g f w) = domGen w.
Proof. unfold write. by case_match. Qed.
Lemma actionArea_write g f w :
  (forall x, actionArea (f x) = actionArea x) ->
  actionArea (widgets (write g f w)) = actionArea (widgets w).
Proof. intros Hf. unfold write. case_match; [apply Hf|done]. Qed.

Lemma armed_showNext gen w :
  armed (nextId (env w)) 5 gen (showNextWithAutoAdvance gen w).
Proof.
  rewrite showNext_counting. unfold armed, counting.
  rewrite page_write, env_write, view_write, domGen_write. cbn.
  rewrite lookup_insert_eq. repeat split.
  intros Hg Hv. by rewrite write_current.
Qed.

Lemma armed_idle t c gen g f w :
  (forall x, actionArea (f x) = actionArea x) ->
  armed t c gen w ->
  armed t c gen (write g f (on_page (with_state idle) w)).
Proof.
  intros Hf (Ht & Hi & Ha). unfold armed.
  rewrite page_write, env_write, view_write, domGen_write, actionArea_write by done.
  done.
Qed.

Lemma resume_arms (w : World) (i : nat) (sub : Submission) (result : RespondOk) :
  pendingRespond (net w) !! i = Some sub ->
  sub_isDebate sub = false ->
  armed (nextId (env w)) 5 (sub_gen sub) (step w (RespondResult i (Resolved result))).
Proof.
  intros Hsub Hd. cbn [step]. rewrite Hsub.
  unfold handleRecording_resume. rewrite Hd.
  apply armed_idle; [done|].
  match goal with
  | |- armed _ _ _ (showNextWithAutoAdvance _ ?x) =>
      replace (nextId (env w)) with (nextId (env x));
      [apply armed_showNext|case_match; by rewrite env_write]
  end.
Qed.

Lemma countdown_armed (t : nat) (c : Z) (gen : nat) (w : World) (nows : list Z) :
  armed t c gen w ->
  (Z.of_nat (length nows) < c)%Z ->
  run w (ticks t nows) = counting t (c - Z.of_nat (length nows)) gen w.
Proof.
  intros (Ht & Hi & Ha) Hc.
  rewrite <- (counting_id t c gen w) at 1 by done.
  by apply countdown.
Qed.

Lemma five_ticks (t : nat) (gen : nat) (w : World) (nows : list Z) :
  armed t 5 gen w ->
  length nows = 5 ->
  run w (ticks t nows) = goNext w.
Proof.
  intros Harmed Hlen.
  destruct nows as [|now nows _] using rev_ind; [done|].
  rewrite length_app in Hlen. cbn in Hlen.
  unfold ticks. rewrite fmap_app, run_app.
  fold (ticks t nows).
  rewrite (countdown_armed t 5 gen) by (done || lia).
  cbn [fmap list_fmap run foldl].
  rewrite tick_counting by apply Harmed.
  destruct (Z.leb_spec (5 - Z.of_nat (length nows) - 1) 0); [done|lia].
Qed.

(** X6. Once a transcript has arrived for an ordinary prompt, the
    countdown started by [showNextWithAutoAdvance] only counts for its
    first four ticks: page, recorder, requests and screen stay as they
    are and the button, if still in the document, shows the seconds
    left. The fifth tick runs [goNext], whatever is on screen by then;
    with the button in the document that is exactly what a tap on Next
    does. After the advance the timer is cleared: a late tick changes
    nothing. *)
Theorem auto_advance_counts_then_advances (w : World) (i : nat)
    (sub : Submission) (result : RespondOk) (nows : list Z) :
  pendingRespond (net w) !! i = Some sub ->
  sub_isDebate sub = false ->
  let t := nextId (env w) in
  let w1 := step w (RespondResult i (Resolved result)) in
  let w' := run w1 (ticks t nows) in
  (length nows < 5 ->
     page w' = page w1 /\ rec w' = rec w1 /\ net w' = net w1 /\
     view w' = view w1 /\
     intervals (env w') !! t
     = Some (AutoAdvance (5 - Z.of_nat (length nows)) (sub_gen sub)) /\
     (sub_gen sub = domGen w1 -> has_widgets (view w1) = true ->
      actionArea (widgets w') = ANext (5 - Z.of_nat (length nows)))) /\
  (length nows = 5 ->
     w' = goNext w1 /\
     (sub_gen sub = domGen w1 -> has_widgets (view w1) = true ->
      w' = step w1 TapNext) /\
     forall now, step w' (IntervalFired t now) = w').
Proof.
  intros Hsub Hd t w1 w'.
  pose proof (resume_arms w i sub result Hsub Hd) as Harmed.
  fold t w1 in Harmed. clearbody w1. split.
  - intros Hlen. subst w'.
    rewrite (countdown_armed t 5 (sub_gen sub)) by (done || lia).
    unfold counting.
    rewrite page_write, env_write, view_write. cbn.
    rewrite lookup_insert_eq.
    repeat split; try (unfold write; by case_match).
    intros Hg Hv. by rewrite write_current.
  - intros Hlen.
    assert (w' = goNext w1) as -> by by apply (five_ticks t (sub_gen sub)).
    destruct Harmed as (Ht & Hi & Ha).
    repeat split.
    + intros Hg Hv. cbn [step]. by rewrite Hv, Ha.
    + intros now'. by apply goNext_timer_dead.
Qed.

Lemma auto_advance_counts_then_advances_witness :
  run (step awaiting_transcript
         (RespondResult 0 (Resolved {| r_transcription := [104]%N; r_duration := 6 |})))
      (ticks (nextId (env awaiting_transcript)) [7000; 8000; 9000; 10000; 11000]%Z)
  = step (step awaiting_transcript
            (RespondResult 0 (Resolved {| r_transcription := [104]%N; r_duration := 6 |})))
         TapNext.
Proof.
  destruct (auto_advance_counts_then_advances awaiting_transcript 0
              {| sub_part := Some "1.1"; sub_question := Some "a1";
                 sub_isDebate := false; sub_gen := 3 |}
              {| r_transcription := [104]%N; r_duration := 6 |}
              [7000; 8000; 9000; 10000; 11000]%Z
              ltac:(vm_compute; reflexivity) eq_refl) as [_ H].
  destruct (H eq_refl) as (_ & H1 & _).
  apply H1; vm_compute; reflexivity.
Defined.

Lemma mediaRecorder_onstop_env (w : World) :
  env (mediaRecorder_onstop w) = env (Recorder_cleanup w) /\
  rec (mediaRecorder_onstop w) = rec (Recorder_cleanup w).
Proof.
  unfold mediaRecorder_onstop. cbv zeta. case_match; [|done].
  apply handleRecording_env.
Qed.

(** X7. A recording takes a microphone stream, a media recorder and a
    tick timer, all new. [stop] ends the recording at once and is
    idempotent, but stream and timer stay until the stop event arrives;
    its handler releases both, and the handles in use are then exactly
    those from before the recording. *)
Theorem recording_releases_what_it_took (w : World) (gen : nat)
    (maxDur : option Z) (now : Z) :
  let s := nextId (env w) in
  let m := S s in
  let t := S m in
  s ∉ openStreams (env w) ->
  m ∉ recordingMRs (env w) ->
  m ∉ stoppingMRs (env w) ->
  intervals (env w) !! t = None ->
  let w1 := (Recorder_start gen maxDur true now w).2 in
  let w2 := Recorder_stop w1 in
  let w3 := step w2 (MediaStopped m) in
  (Recorder_start gen maxDur true now w).1 = true /\
  Recorder_isRecording w1 = true /\
  Recorder_isRecording w2 = false /\
  Recorder_stop w2 = w2 /\
  s ∈ openStreams (env w2) /\
  intervals (env w2) !! t = Some RecorderTick /\
  stream (rec w3) = None /\
  timerInterval (rec w3) = None /\
  intervals (env w3) = intervals (env w) /\
  openStreams (env w3) = openStreams (env w) /\
  recordingMRs (env w3) = recordingMRs (env w) /\
  stoppingMRs (env w3) = stoppingMRs (env w).
Proof.
  intros s m t Hs Hm Hm' Ht w1 w2 w3.
  assert (Hw3 : env w3 = env (Recorder_cleanup
                   (on_env (fun e => with_stoppingMRs (stoppingMRs e ∖ {[m]}) e) w2))
                /\ rec w3 = rec (Recorder_cleanup
                   (on_env (fun e => with_stoppingMRs (stoppingMRs e ∖ {[m]}) e) w2))).
  { subst w3. cbn [step].
    assert (m ∈ stoppingMRs (env w2)) as Hin.
    { subst w2 w1 s m t. unfold Recorder_stop, Recorder_start, setInterval.
      destruct_world w. rewrite bool_decide_eq_true_2 by set_solver.
      cbn. set_solver. }
    rewrite bool_decide_eq_true_2 by done. apply mediaRecorder_onstop_env. }
  destruct Hw3 as [-> ->]. clear w3.
  subst w2 w1 s m t.
  unfold Recorder_isRecording, Recorder_stop, Recorder_cleanup, Recorder_start,
    setInterval, clearInterval.
  destruct_world w.
  rewrite !(bool_decide_eq_true_2 (S nid ∈ {[S nid]} ∪ rmrs)) by set_solver.
  cbn.
  rewrite (bool_decide_eq_false_2 (S nid ∈ ({[S nid]} ∪ rmrs) ∖ {[S nid]}))
    by set_solver.
  rewrite lookup_insert_eq, delete_insert_eq, delete_id by done.
  repeat split; try done; set_solver.
Qed.

Lemma recording_releases_what_it_took_witness :
  openStreams
    (env (step (Recorder_stop
                  (Recorder_start 2 None true 0
                     (run init [OpenMockTest; StartResult sample_start; TapStart])).2)
               (MediaStopped
                  (S (nextId (env (run init [OpenMockTest; StartResult sample_start;
                                             TapStart])))))))
  = openStreams (env (run init [OpenMockTest; StartResult sample_start; TapStart])).
Proof.
  destruct (recording_releases_what_it_took
              (run init [OpenMockTest; StartResult sample_start; TapStart])
              2 None 0
              ltac:(apply (bool_decide_unpack _); vm_compute; exact I)
              ltac:(apply (bool_decide_unpack _); vm_compute; exact I)
              ltac:(apply (bool_decide_unpack _); vm_compute; exact I)
              ltac:(vm_compute; reflexivity))
    as (_ & _ & _ & _ & _ & _ & _ & _ & _ & H & _).
  exact H.
Defined.

Ltac handlers :=
  unfold navigate_mock_test, render, render_resume, renderIntro, home_rendered,
    back_click, finish_click, home_click, leave_exam, navigate_home, voice_click,
    tap_record, click_record, mic_answered, record_click, record_click_resume,
    mediaRecorder_onstop, handleRecording, handleRecording_resume,
    handleRecording_catch, showNextWithAutoAdvance, recorder_tick,
    autoAdvance_tick, goNext, renderQuestion, renderDebateSelection,
    renderDebateRecording, renderPartTransition, showResults, showResults_resume,
    playQuestion, playQuestion_resume, clearAutoAdvance, Recorder_start,
    Recorder_start_begin, Recorder_start_resume,
    Recorder_stop, Recorder_cleanup, Recorder_isRecording, setInterval,
    clearInterval, pause, set_innerHTML, write, throw_uncaught,
    currentQuestions, currentPartData, currentPart.

Ltac brute w :=
  rewrite ?tap_record_eq; handlers; destruct_world w;
  try done; repeat (case_match; simplify_eq; cbn in *; try done).

Section RecorderFrame.

Lemma rec_write g f w : rec (write g f w) = rec w.
Proof. unfold write. by case_match. Qed.
Lemma rec_clearAutoAdvance w : rec (clearAutoAdvance w) = rec w.
Proof. unfold clearAutoAdvance. by case_match. Qed.
Lemma rec_renderQuestion w : rec (renderQuestion w) = rec w.
Proof. brute w. Qed.
Lemma rec_goNext w : rec (goNext w) = rec w.
Proof. unfold goNext. rewrite rec_renderQuestion. cbn. apply rec_clearAutoAdvance. Qed.
Lemma rec_showNextWithAutoAdvance g w : rec (showNextWithAutoAdvance g w) = rec w.
Proof. unfold showNextWithAutoAdvance. cbn. apply rec_write. Qed.
Lemma rec_handleRecording_resume sub r w : rec (handleRecording_resume sub r w) = rec w.
Proof.
  unfold handleRecording_resume. destruct r as [result|message].
  - rewrite rec_write. change (rec (on_page (with_state idle) ?x)) with (rec x).
    destruct (sub_isDebate sub); rewrite ?rec_showNextWithAutoAdvance, ?rec_write;
      case_match; rewrite rec_write; reflexivity.
  - apply handleRecording_catch_env.
Qed.
Lemma rec_autoAdvance_tick id c g w : rec (autoAdvance_tick id c g w) = rec w.
Proof. unfold autoAdvance_tick. case_match; rewrite ?rec_goNext, ?rec_write; done. Qed.
Lemma rec_Recorder_stop w : rec (Recorder_stop w) = rec w.
Proof. unfold Recorder_stop. by repeat case_match. Qed.
Lemma rec_recorder_tick now w : rec (recorder_tick now w) = rec w.
Proof.
  unfold recorder_tick. repeat case_match; rewrite ?rec_Recorder_stop, ?rec_write; done.
Qed.
Lemma maxDuration_Recorder_cleanup w :
  maxDuration (rec (Recorder_cleanup w)) = maxDuration (rec w).
Proof. unfold Recorder_cleanup, clearInterval. by repeat case_match. Qed.

End RecorderFrame.

Lemma no_limit_step (w : World) (e : Event) :
  maxDuration (rec w) = None -> maxDuration (rec (step w e)) = None.
Proof.
  intros H. destruct e; cbn [step].
  15: { repeat case_match; rewrite ?rec_goNext; done. }
  16: { repeat case_match;
        rewrite ?rec_recorder_tick, ?rec_autoAdvance_tick; done. }
  16: { case_match; [|done].
        destruct (mediaRecorder_onstop_env
                    (on_env (fun e => with_stoppingMRs (stoppingMRs e ∖ {[m]}) e) w))
          as [_ ->].
        by rewrite maxDuration_Recorder_cleanup. }
  16: { case_match; [|done]. by rewrite rec_handleRecording_resume. }
  all: brute w.
Qed.

Lemma no_limit_run (es : list Event) : forall w : World,
  maxDuration (rec w) = None -> maxDuration (rec (run w es)) = None.
Proof.
  induction es as [|e es IH]; intros w H; [done|].
  cbn [run foldl]. apply IH. by apply no_limit_step.
Qed.

Section RecordingFrame.

Local Abbreviation mrs w := (recordingMRs (env w)).

Lemma mrs_write g f w : mrs (write g f w) = mrs w.
Proof. by rewrite env_write. Qed.
Lemma mrs_clearAutoAdvance w : mrs (clearAutoAdvance w) = mrs w.
Proof. unfold clearAutoAdvance. by case_match. Qed.
Lemma mrs_renderQuestion w : mrs (renderQuestion w) = mrs w.
Proof. brute w. Qed.
Lemma mrs_goNext w : mrs (goNext w) = mrs w.
Proof. unfold goNext. rewrite mrs_renderQuestion. cbn. apply mrs_clearAutoAdvance. Qed.
Lemma mrs_showNextWithAutoAdvance g w : mrs (showNextWithAutoAdvance g w) = mrs w.
Proof. unfold showNextWithAutoAdvance. cbn. apply mrs_write. Qed.
Lemma mrs_handleRecording_resume sub r w : mrs (handleRecording_resume sub r w) = mrs w.
Proof.
  unfold handleRecording_resume. destruct r as [result|message].
  - rewrite mrs_write. change (mrs (on_page (with_state idle) ?x)) with (mrs x).
    destruct (sub_isDebate sub); rewrite ?mrs_showNextWithAutoAdvance, ?mrs_write;
      case_match; rewrite mrs_write; reflexivity.
  - by destruct (handleRecording_catch_env (sub_gen sub) message w) as [-> _].
Qed.
Lemma mrs_autoAdvance_tick id c g w : mrs (autoAdvance_tick id c g w) = mrs w.
Proof. unfold autoAdvance_tick. case_match; rewrite ?mrs_goNext, ?mrs_write; done. Qed.
Lemma mrs_Recorder_cleanup w : mrs (Recorder_cleanup w) = mrs w.
Proof. unfold Recorder_cleanup, clearInterval. by repeat case_match. Qed.
Lemma mrs_recorder_tick now w :
  maxDuration (rec w) = None -> mrs (recorder_tick now w) = mrs w.
Proof.
  intros H. unfold recorder_tick. cbv zeta.
  destruct (onTick (rec w)); rewrite ?rec_write, H, ?mrs_write; done.
Qed.

End RecordingFrame.

Lemma recording_kept_step (w : World) (e : Event) :
  maxDuration (rec w) = None ->
  ends_recording e = false ->
  recordingMRs (env (step w e)) = recordingMRs (env w).
Proof.
  intros H He. destruct e; try discriminate He; cbn [step].
  12: { repeat case_match; rewrite ?mrs_goNext; done. }
  13: { repeat case_match;
        rewrite ?mrs_recorder_tick, ?mrs_autoAdvance_tick; done. }
  13: { case_match; [|done].
        destruct (mediaRecorder_onstop_env
                    (on_env (fun e => with_stoppingMRs (stoppingMRs e ∖ {[m]}) e) w))
          as [-> _].
        by rewrite mrs_Recorder_cleanup. }
  13: { case_match; [|done]. by rewrite mrs_handleRecording_resume. }
  all: brute w.
Qed.

(** X9. The mock test starts every recording without a time limit, so
    in no run does the clock end a recording: only a tap on the record
    button, Back or Finish takes a media recorder out of state
    recording. *)
Theorem mock_recording_has_no_time_limit (es : list Event) (e : Event) :
  ends_recording e = false ->
  maxDuration (rec (run init es)) = None /\
  recordingMRs (env (step (run init es) e)) = recordingMRs (env (run init es)).
Proof.
  intros He.
  assert (maxDuration (rec (run init es)) = None) by by apply no_limit_run.
  split; [done|]. by apply recording_kept_step.
Qed.

Lemma mock_recording_has_no_time_limit_witness :
  recordingMRs (env (step (run init [OpenMockTest; StartResult sample_start;
                                     TapStart; TapRecord 0 true])
                       (IntervalFired 3 3600000)))
  = recordingMRs (env (run init [OpenMockTest; StartResult sample_start;
                                 TapStart; TapRecord 0 true])).
Proof.
  destruct (mock_recording_has_no_time_limit
              [OpenMockTest; StartResult sample_start; TapStart; TapRecord 0 true]
              (IntervalFired 3 3600000) eq_refl) as [_ H].
  exact H.
Defined.

Lemma recorder_tick_env (now : Z) (w : World) :
  env (recorder_tick now w)
  = env (if limit_reached now w then Recorder_stop w else w) /\
  rec (recorder_tick now w) = rec w.
Proof.
  split; [|apply rec_recorder_tick].
  unfold recorder_tick, limit_reached. cbv zeta.
  destruct (onTick (rec w)); rewrite ?rec_write;
    destruct (maxDuration (rec w)); try done; rewrite ?env_write; try done;
    case_match; rewrite ?env_write; try done.
  unfold write. case_match; [|done].
  unfold Recorder_stop. cbn. by repeat case_match.
Qed.

Lemma Recorder_start_state (w : World) (gen : nat) (maxDur : option Z) (start : Z) :
  let w1 := (Recorder_start gen maxDur true start w).2 in
  mediaRecorder (rec w1) = Some (S (nextId (env w))) /\
  startTime (rec w1) = Some start /\
  maxDuration (rec w1) = match maxDur with
                         | Some 0%Z | None => None
                         | Some d => Some d
                         end /\
  recordingMRs (env w1) = {[S (nextId (env w))]} ∪ recordingMRs (env w).
Proof.
  unfold Recorder_start, Recorder_start_resume, Recorder_start_begin,
    setInterval.
  by destruct_world w.
Qed.

(** X8. [Recorder.start] with a limit of [d] seconds: a tick stops the
    recorder exactly when [d] is not zero and the whole seconds elapsed
    have reached it; with no limit, or a limit of zero, no tick does.
    Stream and timer are untouched by the stop. *)
Theorem limit_stops_recording (w : World) (gen : nat) (maxDur : option Z)
    (start now : Z) :
  S (nextId (env w)) ∉ recordingMRs (env w) ->
  let w1 := (Recorder_start gen maxDur true start w).2 in
  let elapsed := ((now - start) / 1000)%Z in
  let w2 := recorder_tick now w1 in
  Recorder_isRecording w1 = true /\
  Recorder_isRecording w2
  = match maxDur with
    | Some d => negb (negb (d =? 0)%Z && (d <=? elapsed)%Z)
    | None => true
    end /\
  (Recorder_isRecording w2 = false ->
     S (nextId (env w)) ∈ stoppingMRs (env w2)) /\
  intervals (env w2) = intervals (env w1) /\
  openStreams (env w2) = openStreams (env w1).
Proof.
  intros Hm w1 elapsed w2.
  destruct (Recorder_start_state w gen maxDur start) as (Hmr & Hst & Hmd & Hrec).
  fold w1 in Hmr, Hst, Hmd, Hrec.
  destruct (recorder_tick_env now w1) as [Henv Hr]. fold w2 in Henv, Hr.
  clearbody w1 w2. unfold Recorder_isRecording. rewrite Hr, Henv, Hmr.
  assert (Hlim : limit_reached now w1
                 = match maxDur with
                   | Some d => negb (d =? 0)%Z && (d <=? elapsed)%Z
                   | None => false
                   end).
  { unfold limit_reached. rewrite Hmd, Hst. by destruct maxDur as [[| |]|]. }
  rewrite Hlim. clear Hlim Henv Hr w2.
  set (m := S (nextId (env w))) in *.
  assert (Hin : m ∈ recordingMRs (env w1)) by (rewrite Hrec; set_solver).
  split; [by apply bool_decide_eq_true_2|].
  assert (Hstop : (m ∉ recordingMRs (env (Recorder_stop w1))) /\
                  m ∈ stoppingMRs (env (Recorder_stop w1)) /\
                  intervals (env (Recorder_stop w1)) = intervals (env w1) /\
                  openStreams (env (Recorder_stop w1)) = openStreams (env w1)).
  { unfold Recorder_stop. rewrite Hmr, bool_decide_eq_true_2 by done. cbn.
    repeat split; set_solver. }
  destruct Hstop as (S1 & S2 & S3 & S4).
  destruct maxDur as [d|]; cbn.
  - destruct (negb (d =? 0)%Z && (d <=? elapsed)%Z); cbn.
    + rewrite bool_decide_eq_false_2 by done. done.
    + rewrite bool_decide_eq_true_2 by done. done.
  - rewrite bool_decide_eq_true_2 by done. done.
Qed.

Lemma limit_stops_recording_witness :
  Recorder_isRecording
    (recorder_tick 10400 (Recorder_start 0 (Some 10%Z) true 0 init).2) = false /\
  Recorder_isRecording
    (recorder_tick 9999 (Recorder_start 0 (Some 10%Z) true 0 init).2) = true.
Proof.
  split.
  - destruct (limit_stops_recording init 0 (Some 10%Z) 0 10400
                ltac:(apply (bool_decide_unpack _); vm_compute; exact I))
      as (_ & H & _).
    rewrite H. reflexivity.
  - destruct (limit_stops_recording init 0 (Some 10%Z) 0 9999
                ltac:(apply (bool_decide_unpack _); vm_compute; exact I))
      as (_ & H & _).
    rewrite H. reflexivity.
Defined.

Lemma tame_refl w : tame w w.
Proof. by intros H. Qed.
Lemma tame_trans w1 w2 w3 : tame w1 w2 -> tame w2 w3 -> tame w1 w3.
Proof.
  intros H12 H23 H. destruct (H12 H) as [H2 E2]. destruct (H23 H2) as [H3 E3].
  split; [done|congruence].
Qed.

Ltac tame_brute w :=
  unfold tame, scoring_calls; intros Hle; handlers; destruct_world w;
  try done;
  repeat (case_match; simplify_eq; cbn in *; try done);
  rewrite ?List.filter_app, ?length_app; cbn;
  try (split; lia).

Lemma tame_write g f w : tame w (write g f w).
Proof. tame_brute w. Qed.
Lemma tame_on_env f w : tame w (on_env f w).
Proof. by intros H. Qed.
Lemma tame_clearAutoAdvance w : tame w (clearAutoAdvance w).
Proof. tame_brute w. Qed.
Lemma tame_handleRecording_catch g m w : tame w (handleRecording_catch g m w).
Proof. tame_brute w. Qed.
Lemma tame_handleRecording w : tame w (handleRecording w).
Proof. tame_brute w. Qed.
Lemma tame_showNextWithAutoAdvance g w : tame w (showNextWithAutoAdvance g w).
Proof. tame_brute w. Qed.
Lemma tame_Recorder_cleanup w : tame w (Recorder_cleanup w).
Proof. tame_brute w. Qed.
Lemma tame_Recorder_stop w : tame w (Recorder_stop w).
Proof. tame_brute w. Qed.
Lemma tame_record_click now w : tame w (record_click now w).
Proof. tame_brute w. Qed.
Lemma tame_click_record now w : tame w (click_record now w).
Proof.
  unfold click_record. case_match; [apply tame_record_click|apply tame_refl].
Qed.
Lemma tame_mic_answered i mic now w : tame w (mic_answered i mic now w).
Proof. tame_brute w. Qed.
Lemma tame_tap_record now mic w : tame w (tap_record now mic w).
Proof.
  unfold tap_record.
  eapply tame_trans; [apply tame_click_record|apply tame_mic_answered].
Qed.

Lemma tame_renderQuestion w : tame w (renderQuestion w).
Proof.
  tame_brute w.
  all: repeat match goal with
       | Hb : bool_decide (_ < _) = true |- _ =>
           apply bool_decide_eq_true_1 in Hb; cbn in Hb
       | Hb : bool_decide (_ < _) = false |- _ =>
           apply bool_decide_eq_false_1 in Hb; cbn in Hb
       end; try (split; lia).
  all: exfalso; assert (cpi = 3) as -> by lia.
  all: cbn in *; simplify_eq.
  all: match goal with
       | Hb : bool_decide (Some _ = Some _) = false |- _ =>
           by apply bool_decide_eq_false_1 in Hb
       end.
Qed.

Lemma tame_goNext w : tame w (goNext w).
Proof.
  unfold goNext.
  eapply tame_trans; [apply tame_clearAutoAdvance|].
  eapply tame_trans; [|apply tame_renderQuestion].
  by intros H.
Qed.

Lemma tame_autoAdvance_tick id c g w : tame w (autoAdvance_tick id c g w).
Proof.
  unfold autoAdvance_tick. cbv zeta.
  eapply tame_trans; [apply tame_on_env|].
  case_match; [apply tame_goNext|apply tame_write].
Qed.

Lemma tame_recorder_tick now w : tame w (recorder_tick now w).
Proof. tame_brute w. Qed.

Lemma tame_mediaRecorder_onstop w : tame w (mediaRecorder_onstop w).
Proof.
  unfold mediaRecorder_onstop. cbv zeta.
  eapply tame_trans; [apply tame_Recorder_cleanup|].
  case_match; [apply tame_handleRecording|apply tame_refl].
Qed.

Lemma tame_handleRecording_resume sub r w : tame w (handleRecording_resume sub r w).
Proof.
  unfold handleRecording_resume. destruct r as [result|message];
    [|apply tame_handleRecording_catch].
  cbv zeta.
  eapply tame_trans; [|apply tame_write].
  eapply tame_trans; [|by intros H].
  destruct (sub_isDebate sub), (showTranscription _);
    (eapply tame_trans; [|apply tame_write || apply tame_showNextWithAutoAdvance]);
    (eapply tame_trans; [|apply tame_write]); by intros H.
Qed.

Lemma step_tame (w : World) (e : Event) :
  e <> TapSeeResults -> tame w (step w e).
Proof.
  intros He. destruct e; cbn [step].
  - (* OpenMockTest *) tame_brute w.
  - (* HomeRendered *) tame_brute w.
  - (* StartResult *) tame_brute w.
  - (* TapBack *) tame_brute w.
  - (* TapHome *) tame_brute w.
  - (* TapUpgrade *) apply tame_refl.
  - (* TapMood *) tame_brute w.
  - (* TapTranscriptionToggle *) tame_brute w.
  - (* TapVoice *) tame_brute w.
  - (* TapStart *) case_match; [apply tame_renderQuestion|apply tame_refl].
  - (* TapFinish *) tame_brute w.
  - (* TapContinue *) case_match; try apply tame_refl. apply tame_renderQuestion.
  - (* TapSide *) tame_brute w.
  - (* TapRecord *) apply tame_tap_record.
  - (* TapNext *) repeat case_match; try apply tame_refl. apply tame_goNext.
  - (* TapSeeResults *) done.
  - (* IntervalFired *)
    repeat case_match;
      auto using tame_refl, tame_recorder_tick, tame_autoAdvance_tick.
  - (* MediaStopped *)
    case_match; [|apply tame_refl].
    eapply tame_trans; [apply tame_on_env|apply tame_mediaRecorder_onstop].
  - (* RespondResult *)
    case_match; [|apply tame_refl].
    eapply tame_trans; [|apply tame_handleRecording_resume]. by intros ?.
  - (* CompleteResult *) tame_brute w.
  - (* TtsResult *) tame_brute w.
  - (* AudioEnded *) tame_brute w.
  - (* ClickRecord *) apply tame_click_record.
  - (* MicAnswered *) apply tame_mic_answered.
Qed.

Lemma part_index_step (w : World) (e : Event) :
  currentPartIndex (page w) <= 3 -> currentPartIndex (page (step w e)) <= 3.
Proof.
  intros H.
  assert (e = TapSeeResults \/ e <> TapSeeResults) as [->|He]
    by (destruct e; (by left) || by right).
  - cbn [step]. brute w.
  - by apply step_tame.
Qed.

Lemma part_index_run (es : list Event) : forall w : World,
  currentPartIndex (page w) <= 3 -> currentPartIndex (page (run w es)) <= 3.
Proof.
  induction es as [|e es IH]; intros w H; [done|].
  cbn [run foldl]. apply IH. by apply part_index_step.
Qed.

(** X10. In every run the part index stays within the four parts of
    the exam, and the request that scores the session is sent by a tap
    on See results and by nothing else: the branch of [renderQuestion]
    that calls [showResults] after the last part is never taken, since
    the last part is the debate. A tap on See results, with the button
    on screen, sends the request once and shows the waiting screen. *)
Theorem scoring_only_on_request (es : list Event) (e : Event) :
  let w := run init es in
  currentPartIndex (page w) <= 3 /\
  (e <> TapSeeResults -> scoring_calls (step w e) = scoring_calls w) /\
  (has_widgets (view w) = true -> actionArea (widgets w) = ASeeResults ->
   scoring_calls (step w TapSeeResults) = S (scoring_calls w) /\
   view (step w TapSeeResults) = VGenerating).
Proof.
  intros w.
  assert (Hle : currentPartIndex (page w) <= 3).
  { apply part_index_run. cbn. lia. }
  split; [done|]. split.
  - intros He. by apply step_tame.
  - intros Hv Ha. cbn [step]. rewrite Hv, Ha.
    unfold showResults, scoring_calls. cbn.
    rewrite List.filter_app, length_app. cbn.
    split; [|done].
    assert (calls (net (clearAutoAdvance w)) = calls (net w)) as ->
      by (unfold clearAutoAdvance; by case_match).
    lia.
Qed.

Lemma scoring_only_on_request_witness :
  scoring_calls (step (run init (OpenMockTest :: opening ++ answering)) TapContinue)
  = scoring_calls (run init (OpenMockTest :: opening ++ answering)).
Proof.
  destruct (scoring_only_on_request (OpenMockTest :: opening ++ answering) TapContinue)
    as (_ & H & _).
  apply H. discriminate.
Defined.

Ltac silent_brute w :=
  unfold silent; intros (Hsv & Hca & Hpt & Hpl & Hcl);
  handlers; destruct_world w; subst;
  repeat (case_match; simplify_eq; cbn in *; try done);
  rewrite ?List.filter_app, ?Hcl; cbn;
  try (repeat split; (done || set_solver)).

Lemma silent_write g f w : silent w -> silent (write g f w).
Proof. silent_brute w. Qed.
Lemma silent_clearAutoAdvance w : silent w -> silent (clearAutoAdvance w).
Proof. silent_brute w. Qed.
Lemma silent_renderQuestion w : silent w -> silent (renderQuestion w).
Proof. silent_brute w. Qed.
Lemma silent_goNext w : silent w -> silent (goNext w).
Proof.
  intros H. unfold goNext. apply silent_renderQuestion.
  by apply silent_clearAutoAdvance in H.
Qed.
Lemma silent_autoAdvance_tick id c g w : silent w -> silent (autoAdvance_tick id c g w).
Proof.
  intros H. unfold autoAdvance_tick. cbv zeta.
  case_match; [apply silent_goNext|apply silent_write]; done.
Qed.
Lemma silent_recorder_tick now w : silent w -> silent (recorder_tick now w).
Proof. silent_brute w. Qed.
Lemma silent_record_click now w : silent w -> silent (record_click now w).
Proof. silent_brute w. Qed.
Lemma silent_click_record now w : silent w -> silent (click_record now w).
Proof. unfold click_record. case_match; [apply silent_record_click|done]. Qed.
Lemma silent_mic_answered i mic now w :
  silent w -> silent (mic_answered i mic now w).
Proof. silent_brute w. Qed.
Lemma silent_tap_record now mic w : silent w -> silent (tap_record now mic w).
Proof.
  intros H. unfold tap_record. by apply silent_mic_answered, silent_click_record.
Qed.
Lemma silent_Recorder_cleanup w : silent w -> silent (Recorder_cleanup w).
Proof. silent_brute w. Qed.
Lemma silent_handleRecording w : silent w -> silent (handleRecording w).
Proof. silent_brute w. Qed.
Lemma silent_handleRecording_catch g m w :
  silent w -> silent (handleRecording_catch g m w).
Proof. silent_brute w. Qed.
Lemma silent_showNextWithAutoAdvance g w :
  silent w -> silent (showNextWithAutoAdvance g w).
Proof. silent_brute w. Qed.
Lemma silent_mediaRecorder_onstop w : silent w -> silent (mediaRecorder_onstop w).
Proof.
  intros H. unfold mediaRecorder_onstop. cbv zeta.
  apply silent_Recorder_cleanup in H.
  case_match; [by apply silent_handleRecording|done].
Qed.
Lemma silent_handleRecording_resume sub r w :
  silent w -> silent (handleRecording_resume sub r w).
Proof.
  intros H. unfold handleRecording_resume. destruct r as [result|message];
    [|by apply silent_handleRecording_catch].
  cbv zeta. apply silent_write.
  assert (forall x, silent x -> silent (on_page (with_state idle) x)) as Hidle
    by (by intros x Hx).
  apply Hidle.
  destruct (sub_isDebate sub), (showTranscription _);
    (apply silent_write || apply silent_showNextWithAutoAdvance);
    apply silent_write; done.
Qed.

Lemma silent_step (w : World) (e : Event) :
  picks_voice e = false -> silent w -> silent (step w e).
Proof.
  intros He. destruct e; try discriminate He; cbn [step].
  - (* OpenMockTest *) silent_brute w.
  - (* HomeRendered *) silent_brute w.
  - (* StartResult *) silent_brute w.
  - (* TapBack *) silent_brute w.
  - (* TapHome *) silent_brute w.
  - (* TapUpgrade *) done.
  - (* TapMood *) silent_brute w.
  - (* TapTranscriptionToggle *) silent_brute w.
  - (* TapStart *) case_match; [apply silent_renderQuestion|done].
  - (* TapFinish *) silent_brute w.
  - (* TapContinue *) case_match; try done. apply silent_renderQuestion.
  - (* TapSide *) silent_brute w.
  - (* TapRecord *) apply silent_tap_record.
  - (* TapNext *) repeat case_match; try done. apply silent_goNext.
  - (* TapSeeResults *) silent_brute w.
  - (* IntervalFired *)
    repeat case_match;
      auto using silent_recorder_tick, silent_autoAdvance_tick.
  - (* MediaStopped *)
    case_match; [|done]. intros Hs. apply silent_mediaRecorder_onstop. done.
  - (* RespondResult *)
    case_match; [|done]. intros Hs. apply silent_handleRecording_resume. done.
  - (* CompleteResult *) silent_brute w.
  - (* TtsResult *) silent_brute w.
  - (* AudioEnded *) silent_brute w.
  - (* ClickRecord *) apply silent_click_record.
  - (* MicAnswered *) apply silent_mic_answered.
Qed.

Lemma silent_run (es : list Event) : forall w : World,
  Forall (fun e => picks_voice e = false) es -> silent w -> silent (run w es).
Proof.
  induction es as [|e es IH]; intros w Hes H; [done|].
  inversion_clear Hes as [|? ? He Hes'].
  cbn [run foldl]. apply IH; [done|]. by apply silent_step.
Qed.

(** X11. Reading the prompts aloud is opt-in: in a run without a tap
    on a voice card no speech request is sent and no audio element is
    ever created or playing, whatever else happens. *)
Theorem no_voice_no_speech (es : list Event) :
  Forall (fun e => picks_voice e = false) es ->
  let w := run init es in
  selectedVoice (page w) = None /\
  List.filter is_tts (calls (net w)) = [] /\
  pendingTts (net w) = 0 /\
  currentAudio (page w) = None /\
  playing (env w) = ∅.
Proof.
  intros Hes w.
  destruct (silent_run es init Hes) as (H1 & H2 & H3 & H4 & H5); [by repeat split|].
  done.
Qed.

Lemma no_voice_no_speech_witness :
  List.filter is_tts (calls (net (run init (OpenMockTest :: opening ++ answering)))) = [].
Proof.
  destruct (no_voice_no_speech (OpenMockTest :: opening ++ answering)
              ltac:(unfold opening, answering; cbn [app]; repeat constructor))
    as (_ & H & _).
  exact H.
Defined.

Lemma renderQuestion_screen (w : World) :
  exam_screen (view (renderQuestion w)) = true /\
  currentPage (renderQuestion w) = currentPage w.
Proof.
  handlers. destruct_world w.
  repeat (case_match; simplify_eq; cbn in *; try done).
  all: exfalso;
    match goal with
    | Hb : bool_decide (_ <= _) = false, Hn : _ !! _ = None |- _ =>
        apply bool_decide_eq_false_1 in Hb; apply lookup_ge_None in Hn; lia
    end.
Qed.

Lemma goNext_screen (w : World) :
  exam_screen (view (goNext w)) = true /\
  currentPage (goNext w) = currentPage w.
Proof.
  unfold goNext.
  destruct (renderQuestion_screen
              (on_page (fun p => p |> with_currentIndex (S (currentIndex p))
                                   |> with_state idle) (clearAutoAdvance w)))
    as [-> ->].
  split; [done|]. unfold clearAutoAdvance. by case_match.
Qed.

Lemma currentPage_write g f w : currentPage (write g f w) = currentPage w.
Proof. unfold write. by case_match. Qed.

Lemma currentPage_handleRecording_resume sub r w :
  currentPage (handleRecording_resume sub r w) = currentPage w.
Proof.
  unfold handleRecording_resume. destruct r as [result|message].
  - rewrite currentPage_write.
    change (currentPage (on_page (with_state idle) ?x)) with (currentPage x).
    destruct (sub_isDebate sub); unfold showNextWithAutoAdvance; cbn;
      rewrite ?currentPage_write; case_match; by rewrite currentPage_write.
  - unfold handleRecording_catch. rewrite currentPage_write. cbn.
    by rewrite currentPage_write.
Qed.

(** X12. A transcript that arrives for an ordinary prompt starts the
    countdown whatever page the app is on; five ticks later the exam
    draws its next screen into the shared container. So after the
    candidate has left the exam while the answer was being processed,
    the exam comes back over the page they went to: the router still
    names that page, the container shows an exam screen, and the
    answer has been added to the responses. *)
Theorem late_transcript_reopens_exam (w : World) (i : nat) (sub : Submission)
    (result : RespondOk) (nows : list Z) :
  pendingRespond (net w) !! i = Some sub ->
  sub_isDebate sub = false ->
  length nows = 5 ->
  let w' := run (step w (RespondResult i (Resolved result)))
                (ticks (nextId (env w)) nows) in
  currentPage w' = currentPage w /\
  exam_screen (view w') = true /\
  responses (page w')
  = (responses (page w)
     ++ [{| part := sub_part sub; question := sub_question sub;
            transcription := r_transcription result;
            duration := r_duration result |}])%list.
Proof.
  intros Hsub Hd Hlen w'.
  pose proof (resume_arms w i sub result Hsub Hd) as Harmed.
  assert (Hw' : w' = goNext (step w (RespondResult i (Resolved result))))
    by by apply (five_ticks _ (sub_gen sub)).
  clearbody w'. subst w'.
  destruct (goNext_screen (step w (RespondResult i (Resolved result)))) as [-> ->].
  rewrite rs_goNext. cbn [step]. rewrite Hsub.
  rewrite currentPage_handleRecording_resume, rs_handleRecording_resume.
  done.
Qed.

Lemma late_transcript_reopens_exam_witness :
  currentPage (step awaiting_transcript TapBack) = route_home /\
  exam_screen
    (view (run (step (step awaiting_transcript TapBack)
                  (RespondResult 0
                     (Resolved {| r_transcription := [104]%N; r_duration := 6 |})))
               (ticks (nextId (env (step awaiting_transcript TapBack)))
                  [7000; 8000; 9000; 10000; 11000]%Z))) = true.
Proof.
  split; [vm_compute; reflexivity|].
  destruct (late_transcript_reopens_exam (step awaiting_transcript TapBack) 0
              {| sub_part := Some "1.1"; sub_question := Some "a1";
                 sub_isDebate := false; sub_gen := 3 |}
              {| r_transcription := [104]%N; r_duration := 6 |}
              [7000; 8000; 9000; 10000; 11000]%Z
              ltac:(vm_compute; reflexivity) eq_refl eq_refl) as (_ & H & _).
  exact H.
Defined.

Ltac position_brute w :=
  unfold position; handlers; destruct_world w;
  try done; repeat (case_match; simplify_eq; cbn in *; try done).

Section PositionFrame.

Lemma position_write g f w : position (write g f w) = position w.
Proof. position_brute w. Qed.
Lemma position_clearAutoAdvance w : position (clearAutoAdvance w) = position w.
Proof. position_brute w. Qed.
Lemma position_handleRecording_catch g m w :
  position (handleRecording_catch g m w) = position w.
Proof. position_brute w. Qed.
Lemma position_handleRecording w : position (handleRecording w) = position w.
Proof. position_brute w. Qed.
Lemma position_showNextWithAutoAdvance g w :
  position (showNextWithAutoAdvance g w) = position w.
Proof. position_brute w. Qed.
Lemma position_Recorder_cleanup w : position (Recorder_cleanup w) = position w.
Proof. position_brute w. Qed.
Lemma position_recorder_tick now w : position (recorder_tick now w) = position w.
Proof. position_brute w. Qed.
Lemma position_record_click now w : position (record_click now w) = position w.
Proof. position_brute w. Qed.
Lemma position_click_record now w : position (click_record now w) = position w.
Proof. unfold click_record. case_match; [apply position_record_click|done]. Qed.
Lemma position_mic_answered i mic now w : position (mic_answered i mic now w) = position w.
Proof. position_brute w. Qed.
Lemma position_tap_record now mic w : position (tap_record now mic w) = position w.
Proof. unfold tap_record. by rewrite position_mic_answered, position_click_record. Qed.
Lemma position_mediaRecorder_onstop w :
  position (mediaRecorder_onstop w) = position w.
Proof.
  unfold mediaRecorder_onstop. cbv zeta.
  case_match; rewrite ?position_handleRecording; apply position_Recorder_cleanup.
Qed.
Lemma position_handleRecording_resume sub r w :
  position (handleRecording_resume sub r w) = position w.
Proof.
  unfold handleRecording_resume. destruct r as [result|message];
    [|apply position_handleRecording_catch].
  rewrite position_write.
  change (position (on_page (with_state idle) ?x)) with (position x).
  destruct (sub_isDebate sub);
    rewrite ?position_showNextWithAutoAdvance, ?position_write;
    case_match; by rewrite position_write.
Qed.

Lemma renderQuestion_position w :
  position (renderQuestion w) = position w \/
  position (renderQuestion w) = (S (currentPartIndex (page w)), 0).
Proof. position_brute w; auto. Qed.

Lemma goNext_advance w : advance (position w) (position (goNext w)).
Proof.
  unfold goNext, advance.
  pose proof (position_clearAutoAdvance w) as Hc. unfold position in Hc.
  injection Hc as H1 H2.
  destruct (renderQuestion_position
              (on_page (fun p => p |> with_currentIndex (S (currentIndex p))
                                   |> with_state idle) (clearAutoAdvance w)))
    as [-> | ->].
  - right; left. unfold position. cbn. by rewrite H1, H2.
  - right; right. unfold position. cbn. by rewrite H1.
Qed.

End PositionFrame.

Lemma step_advance (w : World) (e : Event) :
  reopens e = false -> advance (position w) (position (step w e)).
Proof.
  intros He. unfold advance. destruct e; try discriminate He; cbn [step].
  - (* HomeRendered *) left. position_brute w.
  - (* StartResult *) left. position_brute w.
  - (* TapBack *) left. position_brute w.
  - (* TapHome *) left. position_brute w.
  - (* TapUpgrade *) by left.
  - (* TapMood *) left. position_brute w.
  - (* TapTranscriptionToggle *) left. position_brute w.
  - (* TapVoice *) left. position_brute w.
  - (* TapStart *)
    case_match; [|by left].
    destruct (renderQuestion_position w) as [-> | ->]; auto.
  - (* TapFinish *) left. position_brute w.
  - (* TapContinue *)
    case_match; try by left.
    destruct (renderQuestion_position w) as [-> | ->]; auto.
  - (* TapSide *) left. position_brute w.
  - (* TapRecord *) left. apply position_tap_record.
  - (* TapNext *) repeat case_match; try by left. apply goNext_advance.
  - (* TapSeeResults *) left. position_brute w.
  - (* IntervalFired *)
    repeat case_match; try by left.
    + left. apply position_recorder_tick.
    + unfold autoAdvance_tick. cbv zeta. case_match.
      * apply (goNext_advance (on_env _ w)).
      * left. by rewrite position_write.
  - (* MediaStopped *)
    left. case_match; [|done]. by rewrite position_mediaRecorder_onstop.
  - (* RespondResult *)
    left. case_match; [|done]. by rewrite position_handleRecording_resume.
  - (* CompleteResult *) left. position_brute w.
  - (* TtsResult *) left. position_brute w.
  - (* AudioEnded *) left. position_brute w.
  - (* ClickRecord *) left. apply position_click_record.
  - (* MicAnswered *) left. apply position_mic_answered.
Qed.

Lemma advance_not_before p p' : advance p p' -> not_before p p'.
Proof.
  destruct p as [a b], p' as [a' b'].
  unfold advance, not_before. cbn. intros [H | [H | H]]; simplify_eq; lia.
Qed.

Lemma not_before_trans p1 p2 p3 :
  not_before p1 p2 -> not_before p2 p3 -> not_before p1 p3.
Proof.
  destruct p1 as [a1 b1], p2 as [a2 b2], p3 as [a3 b3].
  unfold not_before. cbn. lia.
Qed.

(** X13. The exam only moves forward. An event other than opening the
    mock test anew leaves the place in the exam where it is, moves to
    the next prompt of the part, or to the start of the next part; so
    over any run without reopening, the place never goes back to an
    earlier part or an earlier prompt of the same part. *)
Theorem exam_only_moves_forward (w : World) (es : list Event) :
  Forall (fun e => reopens e = false) es ->
  not_before (position w) (position (run w es)) /\
  forall e, reopens e = false ->
    advance (position (run w es)) (position (step (run w es) e)).
Proof.
  intros Hes. split; [|intros e He; by apply step_advance].
  revert w. induction es as [|e es IH]; intros w.
  - unfold not_before. right. split; [done|]. cbn. lia.
  - inversion_clear Hes as [|? ? He Hes']. cbn [run foldl].
    eapply not_before_trans; [|by apply IH].
    apply advance_not_before. by apply step_advance.
Qed.

Lemma exam_only_moves_forward_witness :
  not_before (position (run init [OpenMockTest]))
    (position (run (run init [OpenMockTest]) (opening ++ answering))).
Proof.
  destruct (exam_only_moves_forward (run init [OpenMockTest]) (opening ++ answering)
              ltac:(unfold opening, answering; cbn [app]; repeat constructor))
    as [H _].
  exact H.
Defined.

Ltac ledger_brute w :=
  unfold ledger, respond_calls; handlers; destruct_world w;
  try done;
  repeat (case_match; simplify_eq; cbn in *; try done);
  rewrite ?List.filter_app, ?length_app; cbn;
  rewrite ?Nat.add_0_r; try done.

Section LedgerFrame.

Lemma ledger_write g f w : ledger (write g f w) = ledger w.
Proof. ledger_brute w. Qed.
Lemma ledger_clearAutoAdvance w : ledger (clearAutoAdvance w) = ledger w.
Proof. ledger_brute w. Qed.
Lemma ledger_renderQuestion w : ledger (renderQuestion w) = ledger w.
Proof. ledger_brute w. Qed.
Lemma ledger_goNext w : ledger (goNext w) = ledger w.
Proof.
  unfold goNext. rewrite ledger_renderQuestion.
  change (ledger (on_page ?f ?x)) with (ledger x).
  apply ledger_clearAutoAdvance.
Qed.
Lemma ledger_autoAdvance_tick id c g w : ledger (autoAdvance_tick id c g w) = ledger w.
Proof.
  unfold autoAdvance_tick. cbv zeta.
  case_match; rewrite ?ledger_goNext, ?ledger_write; done.
Qed.
Lemma ledger_recorder_tick now w : ledger (recorder_tick now w) = ledger w.
Proof. ledger_brute w. Qed.
Lemma ledger_record_click now w : ledger (record_click now w) = ledger w.
Proof. ledger_brute w. Qed.
Lemma ledger_click_record now w : ledger (click_record now w) = ledger w.
Proof. unfold click_record. case_match; [apply ledger_record_click|done]. Qed.
Lemma ledger_mic_answered i mic now w : ledger (mic_answered i mic now w) = ledger w.
Proof. ledger_brute w. Qed.
Lemma ledger_tap_record now mic w : ledger (tap_record now mic w) = ledger w.
Proof. unfold tap_record. by rewrite ledger_mic_answered, ledger_click_record. Qed.
Lemma ledger_Recorder_cleanup w : ledger (Recorder_cleanup w) = ledger w.
Proof. ledger_brute w. Qed.
Lemma ledger_handleRecording_catch g m w :
  ledger (handleRecording_catch g m w) = ledger w.
Proof. ledger_brute w. Qed.
Lemma ledger_showNextWithAutoAdvance g w :
  ledger (showNextWithAutoAdvance g w) = ledger w.
Proof. ledger_brute w. Qed.

Lemma backed_handleRecording w : backed w -> backed (handleRecording w).
Proof.
  unfold backed, respond_calls. intros H. handlers. destruct_world w.
  repeat (case_match; simplify_eq; cbn in *; try done);
    rewrite ?List.filter_app, ?length_app; cbn; lia.
Qed.

Lemma backed_ledger w w' : ledger w' = ledger w -> backed w -> backed w'.
Proof. unfold ledger, backed. intros [= -> -> ->]. done. Qed.

Lemma backed_handleRecording_resume sub r w :
  length (responses (page w)) + S (length (pendingRespond (net w)))
    <= respond_calls w ->
  backed (handleRecording_resume sub r w).
Proof.
  intros H. unfold backed.
  rewrite rs_handleRecording_resume, length_app.
  assert ((ledger (handleRecording_resume sub r w)).2 = (ledger w).2
          /\ (ledger (handleRecording_resume sub r w)).1.2 = (ledger w).1.2)
    as [Hc Hp].
  { unfold handleRecording_resume. destruct r as [result|message];
      [|by rewrite ledger_handleRecording_catch].
    rewrite ledger_write.
    change (ledger (on_page (with_state idle) ?x)) with (ledger x).
    destruct (sub_isDebate sub);
      rewrite ?ledger_showNextWithAutoAdvance, ?ledger_write;
      case_match; by rewrite ledger_write. }
  cbn in Hc, Hp. rewrite Hc, Hp. destruct r; cbn; lia.
Qed.

End LedgerFrame.

Lemma backed_step (w : World) (e : Event) : backed w -> backed (step w e).
Proof.
  intros H. destruct e; cbn [step].
  - (* OpenMockTest *)
    revert H. unfold backed, respond_calls. handlers. destruct_world w.
    repeat (case_match; simplify_eq; cbn in *; try done);
      rewrite ?List.filter_app, ?length_app; cbn; lia.
  - (* HomeRendered *) apply (backed_ledger w); [ledger_brute w|done].
  - (* StartResult *) apply (backed_ledger w); [ledger_brute w|done].
  - (* TapBack *) apply (backed_ledger w); [ledger_brute w|done].
  - (* TapHome *) apply (backed_ledger w); [ledger_brute w|done].
  - (* TapUpgrade *) done.
  - (* TapMood *) apply (backed_ledger w); [ledger_brute w|done].
  - (* TapTranscriptionToggle *) apply (backed_ledger w); [ledger_brute w|done].
  - (* TapVoice *) apply (backed_ledger w); [ledger_brute w|done].
  - (* TapStart *)
    apply (backed_ledger w); [|done]. case_match; [apply ledger_renderQuestion|done].
  - (* TapFinish *) apply (backed_ledger w); [ledger_brute w|done].
  - (* TapContinue *)
    apply (backed_ledger w); [|done]. case_match; try done. apply ledger_renderQuestion.
  - (* TapSide *) apply (backed_ledger w); [ledger_brute w|done].
  - (* TapRecord *)
    apply (backed_ledger w); [apply ledger_tap_record|done].
  - (* TapNext *)
    apply (backed_ledger w); [|done]. repeat case_match; try done. apply ledger_goNext.
  - (* TapSeeResults *) apply (backed_ledger w); [ledger_brute w|done].
  - (* IntervalFired *)
    apply (backed_ledger w); [|done].
    repeat case_match; auto using ledger_recorder_tick, ledger_autoAdvance_tick.
  - (* MediaStopped *)
    case_match; [|done]. unfold mediaRecorder_onstop. cbv zeta.
    assert (backed (Recorder_cleanup
                      (on_env (fun e => with_stoppingMRs (stoppingMRs e ∖ {[m]}) e) w)))
      by (eapply backed_ledger; [apply ledger_Recorder_cleanup|done]).
    case_match; [by apply backed_handleRecording|done].
  - (* RespondResult *)
    destruct (pendingRespond (net w) !! i) as [sub|] eqn:Hsub; [|done].
    apply backed_handleRecording_resume.
    unfold backed in H. unfold respond_calls in *. cbn.
    pose proof (lookup_lt_Some _ _ _ Hsub) as Hlt.
    rewrite length_delete by eauto. lia.
  - (* CompleteResult *) apply (backed_ledger w); [ledger_brute w|done].
  - (* TtsResult *) apply (backed_ledger w); [ledger_brute w|done].
  - (* AudioEnded *) apply (backed_ledger w); [ledger_brute w|done].
  - (* ClickRecord *) apply (backed_ledger w); [apply ledger_click_record|done].
  - (* MicAnswered *) apply (backed_ledger w); [apply ledger_mic_answered|done].
Qed.

(** X14. No answer without an upload: in every run the responses held
    by the page, together with the uploads still awaiting their
    transcript, never outnumber the respond requests sent so far. *)
Theorem responses_backed_by_requests (es : list Event) :
  length (responses (page (run init es)))
  + length (pendingRespond (net (run init es)))
  <= respond_calls (run init es).
Proof.
  assert (forall w, backed w -> backed (run w es)) as H.
  { induction es as [|e es IH]; intros w Hw; [done|].
    cbn [run foldl]. apply IH. by apply backed_step. }
  apply (H init). unfold backed. cbn. lia.
Qed.

Lemma keeps_side_refl w : keeps_side w w.
Proof. by intros H. Qed.
Lemma keeps_side_trans w1 w2 w3 :
  keeps_side w1 w2 -> keeps_side w2 w3 -> keeps_side w1 w3.
Proof.
  intros H12 H23 H. destruct (H12 H) as [H2 E2]. destruct (H23 H2) as [H3 E3].
  split; [done|]. intros s Hs. auto.
Qed.

Lemma debate_part (n : nat) : parts !! n = Some "3" -> n = 3.
Proof. do 5 (destruct n as [|n]; try done). Qed.

Ltac side_finish :=
  unfold debate_inv, is_Some in *; cbn in *;
  repeat match goal with
         | Hb : bool_decide _ = true |- _ => apply bool_decide_eq_true_1 in Hb
         | Hb : bool_decide _ = false |- _ => apply bool_decide_eq_false_1 in Hb
         end;
  simplify_eq;
  match goal with
  | Hinv : (_ -> _ = 3) /\ _ |- _ =>
      let Hi1 := fresh "Hi" in
      let Hi2 := fresh "Hi" in
      destruct Hinv as [Hi1 Hi2];
      try match type of Hi2 with
          | ?a = ?a -> _ => destruct (Hi2 eq_refl) as [? ?]
          end;
      try match goal with
          | Hp : parts !! _ = Some "3" |- _ => apply debate_part in Hp
          end;
      (split; [split|]);
      [ intros [? ?] | intros ? | intros ? ? ];
      simplify_eq; try done;
      try (apply Hi1; by eauto);
      try (by apply Hi2);
      try (exfalso;
           match goal with
           | Hi : (exists x, Some _ = Some x) -> ?c = 3 |- _ =>
               assert (c = 3) by (apply Hi; by eauto)
           end;
           first [ lia | by simplify_eq ])
  end.

Ltac side_brute w :=
  unfold keeps_side; intros Hinv; handlers; destruct_world w;
  repeat (case_match; simplify_eq; cbn in *; try done);
  side_finish.

Lemma keeps_side_write g f w : keeps_side w (write g f w).
Proof. side_brute w. Qed.
Lemma keeps_side_clearAutoAdvance w : keeps_side w (clearAutoAdvance w).
Proof. side_brute w. Qed.
Lemma keeps_side_renderQuestion w : keeps_side w (renderQuestion w).
Proof. side_brute w. Qed.

Lemma keeps_side_on_env f w : keeps_side w (on_env f w).
Proof. by intros H. Qed.
Lemma keeps_side_goNext w : keeps_side w (goNext w).
Proof.
  unfold goNext.
  eapply keeps_side_trans; [apply keeps_side_clearAutoAdvance|].
  eapply keeps_side_trans; [|apply keeps_side_renderQuestion].
  by intros H.
Qed.
Lemma keeps_side_autoAdvance_tick id c g w : keeps_side w (autoAdvance_tick id c g w).
Proof.
  unfold autoAdvance_tick. cbv zeta.
  eapply keeps_side_trans; [apply keeps_side_on_env|].
  case_match; [apply keeps_side_goNext|apply keeps_side_write].
Qed.
Lemma keeps_side_recorder_tick now w : keeps_side w (recorder_tick now w).
Proof. side_brute w. Qed.
Lemma keeps_side_record_click now w : keeps_side w (record_click now w).
Proof. side_brute w. Qed.
Lemma keeps_side_click_record now w : keeps_side w (click_record now w).
Proof.
  unfold click_record.
  case_match; [apply keeps_side_record_click|apply keeps_side_refl].
Qed.
Lemma keeps_side_mic_answered i mic now w :
  keeps_side w (mic_answered i mic now w).
Proof. side_brute w. Qed.
Lemma keeps_side_tap_record now mic w : keeps_side w (tap_record now mic w).
Proof.
  unfold tap_record.
  eapply keeps_side_trans;
    [apply keeps_side_click_record|apply keeps_side_mic_answered].
Qed.
Lemma keeps_side_Recorder_cleanup w : keeps_side w (Recorder_cleanup w).
Proof. side_brute w. Qed.
Lemma keeps_side_handleRecording_catch g m w :
  keeps_side w (handleRecording_catch g m w).
Proof. side_brute w. Qed.
Lemma keeps_side_handleRecording w : keeps_side w (handleRecording w).
Proof. side_brute w. Qed.
Lemma keeps_side_showNextWithAutoAdvance g w :
  keeps_side w (showNextWithAutoAdvance g w).
Proof. side_brute w. Qed.
Lemma keeps_side_mediaRecorder_onstop w : keeps_side w (mediaRecorder_onstop w).
Proof.
  unfold mediaRecorder_onstop. cbv zeta.
  eapply keeps_side_trans; [apply keeps_side_Recorder_cleanup|].
  case_match; [apply keeps_side_handleRecording|apply keeps_side_refl].
Qed.
Lemma keeps_side_handleRecording_resume sub r w :
  keeps_side w (handleRecording_resume sub r w).
Proof.
  unfold handleRecording_resume. destruct r as [result|message];
    [|apply keeps_side_handleRecording_catch].
  cbv zeta.
  eapply keeps_side_trans; [|apply keeps_side_write].
  eapply keeps_side_trans; [|by intros ?].
  destruct (sub_isDebate sub), (showTranscription _);
    (eapply keeps_side_trans;
       [|apply keeps_side_write || apply keeps_side_showNextWithAutoAdvance]);
    (eapply keeps_side_trans; [|apply keeps_side_write]); by intros ?.
Qed.

Lemma step_keeps_side (w : World) (e : Event) :
  reopens e = false -> keeps_side w (step w e).
Proof.
  intros He. destruct e; try discriminate He; cbn [step].
  - (* HomeRendered *) side_brute w.
  - (* StartResult *) side_brute w.
  - (* TapBack *) side_brute w.
  - (* TapHome *) side_brute w.
  - (* TapUpgrade *) apply keeps_side_refl.
  - (* TapMood *) side_brute w.
  - (* TapTranscriptionToggle *) side_brute w.
  - (* TapVoice *)
    case_match; [|apply keeps_side_refl].
    assert (debateSide (voice_click voice (page w)) = debateSide (page w) /\
            currentPartIndex (voice_click voice (page w)) = currentPartIndex (page w))
      as [Hd Hc] by (unfold voice_click; by case_match).
    intros Hinv. unfold debate_inv. cbn. rewrite Hd, Hc. split; [done|auto].
  - (* TapStart *) case_match; [apply keeps_side_renderQuestion|apply keeps_side_refl].
  - (* TapFinish *) side_brute w.
  - (* TapContinue *)
    case_match; try apply keeps_side_refl. apply keeps_side_renderQuestion.
  - (* TapSide *) side_brute w.
  - (* TapRecord *)
    apply keeps_side_tap_record.
  - (* TapNext *)
    repeat case_match; try apply keeps_side_refl. apply keeps_side_goNext.
  - (* TapSeeResults *) side_brute w.
  - (* IntervalFired *)
    repeat case_match;
      auto using keeps_side_refl, keeps_side_recorder_tick,
        keeps_side_autoAdvance_tick.
  - (* MediaStopped *)
    case_match; [|apply keeps_side_refl].
    eapply keeps_side_trans;
      [apply keeps_side_on_env|apply keeps_side_mediaRecorder_onstop].
  - (* RespondResult *)
    case_match; [|apply keeps_side_refl].
    eapply keeps_side_trans; [|apply keeps_side_handleRecording_resume].
    by intros ?.
  - (* CompleteResult *) side_brute w.
  - (* TtsResult *) side_brute w.
  - (* AudioEnded *) side_brute w.
  - (* ClickRecord *) apply keeps_side_click_record.
  - (* MicAnswered *) apply keeps_side_mic_answered.
Qed.

Lemma debate_inv_step (w : World) (e : Event) :
  debate_inv w -> debate_inv (step w e).
Proof.
  intros H. destruct (reopens e) eqn:He.
  - destruct e; try discriminate He. cbn [step].
    revert H. handlers. destruct_world w. unfold debate_inv, is_Some.
    repeat (case_match; simplify_eq; cbn in *; try done).
    all: intros _; split; [by intros [? ?]|done].
  - by apply step_keeps_side.
Qed.

Lemma debate_inv_run (es : list Event) : forall w : World,
  debate_inv w -> debate_inv (run w es).
Proof.
  induction es as [|e es IH]; intros w H; [done|].
  cbn [run foldl]. apply IH. by apply debate_inv_step.
Qed.

(** X15. The side taken in the debate is final. In every run a side is
    held only in the debate part, the screen that asks for it is up
    only while none is held, and once a side is held no event short of
    opening the mock test anew changes it. *)
Theorem debate_side_is_final (es : list Event) (e : Event) (s : Side) :
  reopens e = false ->
  debateSide (page (run init es)) = Some s ->
  currentPartIndex (page (run init es)) = 3 /\
  view (run init es) <> VDebateSelection /\
  debateSide (page (step (run init es) e)) = Some s.
Proof.
  intros He Hs.
  assert (Hinv : debate_inv (run init es)).
  { apply debate_inv_run. split; [by intros [? ?]|done]. }
  destruct (step_keeps_side (run init es) e He Hinv) as [_ Hkeep].
  destruct Hinv as [H1 H2].
  split; [apply H1; by eauto|]. split; [|by apply Hkeep].
  intros Hv. destruct (H2 Hv) as [Hn _]. congruence.
Qed.

Lemma debate_side_is_final_witness :
  debateSide (page (step (run init side_taken) (TapSide side_against)))
  = Some side_for.
Proof.
  destruct (debate_side_is_final side_taken (TapSide side_against) side_for
              eq_refl ltac:(vm_compute; reflexivity)) as (_ & _ & H).
  exact H.
Defined.

Module PracticeShown.
Import Practice.

Ltac destruct_practice w :=
  destruct w as [[sid qs imgs pd ci prt rsp st ds] v h ta aa dg rc pS pR cC u];
  cbn in *.

Ltac practice_handlers :=
  unfold startSession_resume, record_click, handleRecording, handleRecording_resume,
    handleRecording_catch, showResults, next_click, renderQuestion, write,
    set_innerHTML.

Ltac shown_finish :=
  intros; simplify_eq;
  repeat match goal with
         | H : bool_decide _ = true |- _ => apply bool_decide_eq_true_1 in H
         | H : bool_decide _ = false |- _ => apply bool_decide_eq_false_1 in H
         | H : forall i n t, VQuestion _ _ _ = VQuestion i n t -> _ |- _ =>
             destruct (H _ _ _ eq_refl) as (? & ? & ? & ?); clear H
         | H : forall b, ANext false _ = ANext false b -> _ |- _ =>
             pose proof (H _ eq_refl); clear H
         | H : 1 = 1 -> _ |- _ => destruct (H eq_refl); clear H
         | H : S ?n <= 1 |- _ => assert (n = 0) by lia; subst n; clear H
         end;
  simplify_eq; cbn in *; try done; try lia.

Lemma shown_ok_step (w : World) (e : Event) :
  practice_shown_ok w -> practice_shown_ok (step w e).
Proof.
  unfold practice_shown_ok. intros (Hq & Ha & Hle & Hp).
  destruct e; cbn [step]; practice_handlers; destruct_practice w.
  all: repeat (case_match; simplify_eq; cbn in *; try done).
  all: try (repeat split; shown_finish).
Qed.

Lemma shown_ok_run (es : list Event) : forall w : World,
  practice_shown_ok w -> practice_shown_ok (run w es).
Proof.
  induction es as [|e es IH]; intros w H; [done|].
  cbn [run foldl]. apply IH. by apply shown_ok_step.
Qed.

Lemma shown_ok_open (part : option string) : practice_shown_ok (open part).
Proof. unfold practice_shown_ok. cbn. repeat split; (done || lia). Qed.

End PracticeShown.

(** X16. The practice page never shows a question that is not there.
    In every run of a practice session, a question screen shows the
    question at the current index, that index is within the list
    received from the server, and the text shown is defined. *)
Theorem practice_question_defined (part : option string)
    (es : list Practice.Event) (i n : nat) (t : option string) :
  Practice.view (Practice.run (Practice.open part) es) = Practice.VQuestion i n t ->
  let p := Practice.page (Practice.run (Practice.open part) es) in
  i = Practice.currentIndex p /\
  n = length (Practice.questions p) /\
  i < n /\
  t = Practice.questions p !! i /\
  is_Some t.
Proof.
  intros Hv p.
  destruct (PracticeShown.shown_ok_run es _ (PracticeShown.shown_ok_open part))
    as [Hq _].
  destruct (Hq i n t Hv) as (H1 & H2 & H3 & H4).
  fold p in H1, H2, H3.
  repeat split; try done.
  rewrite H3. apply lookup_lt_is_Some. by rewrite <- H2.
Qed.

Lemma practice_question_defined_witness :
  Some "q2"
  = Practice.questions
      (Practice.page
         (Practice.run (Practice.open (Some "1.1"))
            [Practice.StartResult (Resolved two_prompts);
             Practice.TapRecord true; Practice.TapRecord true;
             Practice.MediaStopped;
             Practice.RespondResult 0 (answer [104]%N 3);
             Practice.TapNext])) !! 1.
Proof.
  destruct (practice_question_defined (Some "1.1")
              [Practice.StartResult (Resolved two_prompts);
               Practice.TapRecord true; Practice.TapRecord true;
               Practice.MediaStopped;
               Practice.RespondResult 0 (answer [104]%N 3);
               Practice.TapNext]
              1 2 (Some "q2") ltac:(vm_compute; reflexivity))
    as (_ & _ & _ & H & _).
  exact H.
Defined.

Lemma screen_ok_frame (w w' : World) :
  screen w' = screen w -> screen_ok w -> screen_ok w'.
Proof.
  unfold screen, screen_ok, currentQuestions, currentPartData, currentPart.
  intros [= -> -> -> ->]. done.
Qed.

Ltac screen_brute w :=
  unfold screen; handlers; destruct_world w;
  try done; repeat (case_match; simplify_eq; cbn in *; try done).

Lemma screen_renderQuestion (w : World) : screen_ok (renderQuestion w).
Proof.
  unfold screen_ok. handlers. destruct_world w.
  repeat (case_match; simplify_eq; cbn in *; try done).
  all: repeat match goal with
         | H : bool_decide _ = true |- _ => apply bool_decide_eq_true_1 in H
         | H : bool_decide _ = false |- _ => apply bool_decide_eq_false_1 in H
         end.
  all: try (repeat split; intros; simplify_eq; cbn; try done;
            try match goal with
                | H : ?l !! ?i = Some _ |- _ <$> ?l !! ?i = _ => by rewrite H
                end).
  all: exfalso;
    match goal with
    | Hn : _ !! _ = None, Hb : ~ _ <= _ |- _ =>
        apply lookup_ge_None in Hn; lia
    end.
Qed.

Lemma screen_goNext (w : World) : screen_ok (goNext w).
Proof. unfold goNext. apply screen_renderQuestion. Qed.

Lemma screen_write g f w : screen (write g f w) = screen w.
Proof. screen_brute w. Qed.
Lemma screen_recorder_tick now w : screen (recorder_tick now w) = screen w.
Proof. screen_brute w. Qed.
Lemma screen_record_click now w : screen (record_click now w) = screen w.
Proof. screen_brute w. Qed.
Lemma screen_click_record now w : screen (click_record now w) = screen w.
Proof. unfold click_record. case_match; [apply screen_record_click|done]. Qed.
Lemma screen_mic_answered i mic now w : screen (mic_answered i mic now w) = screen w.
Proof. screen_brute w. Qed.
Lemma screen_tap_record now mic w : screen (tap_record now mic w) = screen w.
Proof. unfold tap_record. by rewrite screen_mic_answered, screen_click_record. Qed.
Lemma screen_Recorder_cleanup w : screen (Recorder_cleanup w) = screen w.
Proof. screen_brute w. Qed.
Lemma screen_handleRecording_catch g m w :
  screen (handleRecording_catch g m w) = screen w.
Proof. screen_brute w. Qed.
Lemma screen_handleRecording w : screen (handleRecording w) = screen w.
Proof. screen_brute w. Qed.
Lemma screen_showNextWithAutoAdvance g w :
  screen (showNextWithAutoAdvance g w) = screen w.
Proof. screen_brute w. Qed.
Lemma screen_mediaRecorder_onstop w : screen (mediaRecorder_onstop w) = screen w.
Proof.
  unfold mediaRecorder_onstop. cbv zeta.
  case_match; rewrite ?screen_handleRecording; apply screen_Recorder_cleanup.
Qed.
Lemma screen_handleRecording_resume sub r w :
  screen (handleRecording_resume sub r w) = screen w.
Proof.
  unfold handleRecording_resume. destruct r as [result|message];
    [|apply screen_handleRecording_catch].
  rewrite screen_write.
  change (screen (on_page (with_state idle) ?x)) with (screen x).
  destruct (sub_isDebate sub);
    rewrite ?screen_showNextWithAutoAdvance, ?screen_write;
    case_match; by rewrite screen_write.
Qed.

Ltac screen_other w :=
  unfold screen_ok; handlers; destruct_world w;
  repeat (case_match; simplify_eq; cbn in *; try done);
  try (intros (Hq & Hr & Hs); repeat split; intros; simplify_eq; eauto).

Lemma screen_ok_navigate_home (w : World) :
  screen_ok w -> screen_ok (navigate_home w).
Proof. screen_other w. Qed.

Lemma screen_ok_leave_exam (w : World) :
  screen_ok w -> screen_ok (leave_exam w).
Proof.
  intros H. unfold leave_exam. cbv zeta. apply screen_ok_navigate_home.
  revert H. apply screen_ok_frame. screen_brute w.
Qed.

Lemma screen_ok_step (w : World) (e : Event) :
  screen_ok w -> screen_ok (step w e).
Proof.
  destruct e; cbn [step].
  - (* OpenMockTest *) screen_other w.
  - (* HomeRendered *) screen_other w.
  - (* StartResult *) screen_other w.
  - (* TapBack *)
    intros H. unfold back_click.
    case_match; auto using screen_ok_leave_exam, screen_ok_navigate_home.
  - (* TapHome *)
    intros H. unfold home_click.
    repeat case_match; auto using screen_ok_navigate_home.
  - (* TapUpgrade *) done.
  - (* TapMood *) apply screen_ok_frame. screen_brute w.
  - (* TapTranscriptionToggle *) apply screen_ok_frame. screen_brute w.
  - (* TapVoice *)
    apply screen_ok_frame. case_match; [|done].
    unfold screen, voice_click. cbn. by case_match.
  - (* TapStart *) case_match; [intros _; apply screen_renderQuestion|done].
  - (* TapFinish *)
    intros H. unfold finish_click.
    case_match; auto using screen_ok_leave_exam, screen_ok_navigate_home.
  - (* TapContinue *) case_match; try done. intros _. apply screen_renderQuestion.
  - (* TapSide *) screen_other w.
  - (* TapRecord *)
    apply screen_ok_frame. apply screen_tap_record.
  - (* TapNext *) repeat case_match; try done. intros _. apply screen_goNext.
  - (* TapSeeResults *) screen_other w.
  - (* IntervalFired *)
    repeat case_match; try done.
    + apply screen_ok_frame, screen_recorder_tick.
    + unfold autoAdvance_tick. cbv zeta. case_match.
      * intros _. apply screen_goNext.
      * apply screen_ok_frame. by rewrite screen_write.
  - (* MediaStopped *)
    apply screen_ok_frame. case_match; [|done].
    by rewrite screen_mediaRecorder_onstop.
  - (* RespondResult *)
    apply screen_ok_frame. case_match; [|done].
    by rewrite screen_handleRecording_resume.
  - (* CompleteResult *) screen_other w.
  - (* TtsResult *) apply screen_ok_frame. screen_brute w.
  - (* AudioEnded *) apply screen_ok_frame. screen_brute w.
  - (* ClickRecord *) apply screen_ok_frame. apply screen_click_record.
  - (* MicAnswered *) apply screen_ok_frame. apply screen_mic_answered.
Qed.

Lemma screen_ok_run (es : list Event) : forall w : World,
  screen_ok w -> screen_ok (run w es).
Proof.
  induction es as [|e es IH]; intros w H; [done|].
  cbn [run foldl]. apply IH. by apply screen_ok_step.
Qed.

Lemma handleRecording_uploads (w : World) :
  screen_ok w ->
  has_widgets (view w) = true ->
  respond_calls (handleRecording w) = S (respond_calls w) /\
  length (pendingRespond (net (handleRecording w)))
  = S (length (pendingRespond (net w))) /\
  uncaught (handleRecording w) = uncaught w /\
  page (handleRecording w) = page w /\
  transcriptionArea (widgets (handleRecording w))
  = TLoading (showTranscription (page w)).
Proof.
  intros (Hq & Hr & _) Hv. unfold handleRecording. rewrite Hv. cbv zeta.
  rewrite !write_current by done.
  set (w1 := with_widgets _ w).
  assert (exists t,
    (if bool_decide (currentPart w = Some "3")
     then Some (topic (currentPartData w1))
     else (fun q => Some (q_question q)) <$>
            (currentQuestions w1 !! currentIndex (page w1)))
    = Some t) as [t Ht].
  { change (currentQuestions w1) with (currentQuestions w).
    change (page w1) with (page w).
    destruct (view w) eqn:Hview; try discriminate Hv.
    - destruct (Hq _ _ _ _ eq_refl) as (Hp & Hn3 & Hi & Hl). subst.
      rewrite bool_decide_eq_false_2 by done.
      destruct (currentQuestions w !! currentIndex (page w)); [eauto|].
      cbn in Hl. discriminate Hl.
    - rewrite bool_decide_eq_true_2 by auto. eauto. }
  rewrite Ht. unfold respond_calls. subst w1. cbn.
  rewrite List.filter_app, length_app, length_app. cbn.
  repeat split; lia.
Qed.

(** X17. An answer handed in on an exam screen is always uploaded. In
    every run the screen agrees with the place in the exam, so when the
    stop event of a recording arrives while a screen with the recorder
    is up, the prompt is there to be read: one respond request is sent
    and awaited, nothing is thrown, and the page waits for the
    transcript. The branch that would catch a missing prompt is never
    taken. *)
Theorem answer_always_uploaded (es : list Event) (m : nat) :
  m ∈ stoppingMRs (env (run init es)) ->
  onStop (rec (run init es)) = true ->
  has_widgets (view (run init es)) = true ->
  respond_calls (step (run init es) (MediaStopped m))
  = S (respond_calls (run init es)) /\
  length (pendingRespond (net (step (run init es) (MediaStopped m))))
  = S (length (pendingRespond (net (run init es)))) /\
  uncaught (step (run init es) (MediaStopped m)) = uncaught (run init es) /\
  page (step (run init es) (MediaStopped m)) = page (run init es) /\
  transcriptionArea (widgets (step (run init es) (MediaStopped m)))
  = TLoading (showTranscription (page (run init es))).
Proof.
  intros Hm Hstop Hv.
  assert (Hok : screen_ok (run init es)).
  { apply screen_ok_run. unfold screen_ok. cbn. by repeat split. }
  set (w := run init es) in *. clearbody w.
  cbn [step]. rewrite bool_decide_eq_true_2 by done.
  set (w1 := on_env _ w).
  unfold mediaRecorder_onstop. cbv zeta.
  assert (Hrec : onStop (rec (Recorder_cleanup w1)) = true).
  { unfold Recorder_cleanup, clearInterval. subst w1.
    repeat case_match; cbn; done. }
  rewrite Hrec.
  assert (Hs : screen (Recorder_cleanup w1) = screen w)
    by (by rewrite screen_Recorder_cleanup).
  assert (Hl : ledger (Recorder_cleanup w1) = ledger w)
    by (by rewrite ledger_Recorder_cleanup).
  assert (Hp : page (Recorder_cleanup w1) = page w /\
               uncaught (Recorder_cleanup w1) = uncaught w).
  { unfold Recorder_cleanup, clearInterval. subst w1.
    repeat case_match; cbn; done. }
  destruct Hp as [Hp Hu].
  destruct (handleRecording_uploads (Recorder_cleanup w1)) as (H1 & H2 & H3 & H4 & H5).
  - by apply (screen_ok_frame w).
  - unfold screen in Hs. injection Hs as -> _ _ _. done.
  - unfold ledger in Hl. injection Hl as _ Hl2 Hl3.
    rewrite H1, H2, H3, H4, H5, Hl2, Hl3, Hp, Hu. done.
Qed.

Lemma answer_always_uploaded_witness :
  respond_calls
    (step (run init [OpenMockTest; StartResult sample_start; TapStart;
                     TapRecord 0 true; TapRecord 6000 true])
       (MediaStopped 2))
  = S (respond_calls
         (run init [OpenMockTest; StartResult sample_start; TapStart;
                    TapRecord 0 true; TapRecord 6000 true])).
Proof.
  destruct (answer_always_uploaded
              [OpenMockTest; StartResult sample_start; TapStart;
               TapRecord 0 true; TapRecord 6000 true] 2
              ltac:(apply (bool_decide_unpack _); vm_compute; exact I)
              ltac:(vm_compute; reflexivity)
              ltac:(vm_compute; reflexivity)) as [H _].
  exact H.
Defined.


Lemma round_integer (z : Z) : JS.round (inject_Z z) = z.
Proof.
  unfold JS.round, Qfloor, Qplus, inject_Z. cbn.
  symmetry. apply Z.div_unique with 1%Z; lia.
Qed.

(** X18. On the results screen the level beside the overall score is
    the level of the number printed: the badge is computed from the raw
    score and the number from its rounding, and both round alike. Only
    a score that is missing prints without a badge, as 0; a score of 0
    prints the same number with the badge Below B1. *)
Theorem results_badge_follows_printed_score (r : CompleteOk) :
  (overall r = None -> results_header r = (0%Z, EmptyString)) /\
  (forall q, overall r = Some q ->
     (results_header r).2 = cefrBadge (Some (inject_Z (results_header r).1)) /\
     (results_header r).2 <> EmptyString) /\
  (overall r = Some 0%Q ->
     results_header r = (0%Z, badge_span "below-b1" "Below B1")).
Proof.
  unfold results_header, shown_score. repeat split.
  - by intros ->.
  - rewrite H. cbn [snd fst default]. unfold cefrBadge.
    by rewrite round_integer.
  - rewrite H. cbn [snd]. unfold cefrBadge. by repeat case_match.
  - by intros ->.
Qed.

Lemma results_badge_follows_printed_score_witness :
  results_header {| overall := Some 0%Q; fluency := None; lexical := None;
                    grammar := None; pronunciation := None; feedback := None |}
  = (0%Z, badge_span "below-b1" "Below B1") /\
  results_header {| overall := None; fluency := None; lexical := None;
                    grammar := None; pronunciation := None; feedback := None |}
  = (0%Z, EmptyString).
Proof.
  split.
  - apply (results_badge_follows_printed_score
             {| overall := Some 0%Q; fluency := None; lexical := None;
                grammar := None; pronunciation := None; feedback := None |}).
    reflexivity.
  - apply (results_badge_follows_printed_score
             {| overall := None; fluency := None; lexical := None;
                grammar := None; pronunciation := None; feedback := None |}).
    reflexivity.
Defined.
